(** * Software-validation reporting of the device lifecycle plugin

    A shallow embedding of [nautobot_device_lifecycle_mgmt/views.py] (the
    report helper and the two report views) and of
    [nautobot_device_lifecycle_mgmt/api/serializers.py] (the [assigned_to]
    method field), with the properties of the aggregation, percentage,
    chart and serializer code stated over it.

    Python values are modelled as they are at run time: integers are
    unbounded ([Z]), floats are IEEE binary64 (the kernel's primitive
    floats), dictionaries are finite maps living in a heap of objects, and
    exceptions are explicit results. *)

From Stdlib Require Import ZArith Floats SpecFloat.
From Stdlib.Strings Require Import Ascii String Byte.
From stdpp Require Import base option list sorting gmap strings.

Local Open Scope Z_scope.

(** ** Python values, exceptions and objects *)

Inductive exn : Type :=
  | KeyError (key : string)
  | IndexError
  | TypeError
  | ZeroDivisionError
  | OverflowError
  | DoesNotExist
  | DataError
  | SerializerNotFound
  | LibraryError (what : string).

Inductive PyVal : Type :=
  | VNone
  | VInt (n : Z)
  | VFloat (x : float)
  | VStr (s : string).

(** [x is None]. *)
Definition is_None (v : PyVal) : bool :=
  match v with VNone => true | _ => false end.

(** What the views draw on a figure. *)
Inductive Artist : Type :=
  | Pie (sizes : list PyVal) (labels : list string)
  | Bar (label : string) (heights : list PyVal)
  | Title (t : PyVal)
  | YLabel (s : string)
  | XTickLabels (labels : list PyVal).

(** The state a request runs in: the heap of dict objects (a reference is
    the identity of a dict) and the figures registered with pyplot's
    module-level figure manager, the current one first. *)
Record State : Type := mkState {
  heap : gmap positive (gmap string PyVal);
  figures : list (list Artist)
}.

(** ** A state-and-exception monad for the request handlers *)

Definition M (A : Type) : Type := State → (exn + A) * State.

Definition ret {A} (a : A) : M A := λ st, (inr a, st).
Definition raise {A} (e : exn) : M A := λ st, (inl e, st).
Definition bind {A B} (m : M A) (k : A → M B) : M B :=
  λ st, match m st with
        | (inl e, st') => (inl e, st')
        | (inr a, st') => k a st'
        end.
(** [try: body except E: handler], where [handler e] is [None] for an
    exception the clause does not catch. *)
Definition try_except {A} (body : M A) (handler : exn → option (M A)) : M A :=
  λ st, match body st with
        | (inl e, st') =>
            match handler e with
            | Some h => h st'
            | None => (inl e, st')
            end
        | ok => ok
        end.
Definition lift {A} (r : exn + A) : M A := λ st, (r, st).

Declare Scope py_scope.
Delimit Scope py_scope with py.
Notation "'let*' x := m 'in' k" := (bind m (λ x, k))
  (at level 10, x name, m at level 100, k at level 200) : py_scope.
Notation "m ;;; k" := (bind m (λ _, k))
  (at level 100, k at level 200, right associativity) : py_scope.
Local Open Scope py_scope.

(** [d = {...}]: a new dict object. *)
Definition new_dict (d : gmap string PyVal) : M positive :=
  λ st, let r := fresh (dom (heap st)) in
        (inr r, mkState (<[r := d]> (heap st)) (figures st)).

(** [aggr[key]]. A reference always denotes a live object in Python; the
    model answers a reference outside the heap like an empty dict. *)
Definition getitem (aggr : positive) (key : string) : M PyVal :=
  λ st, match heap st !! aggr ≫= (.!! key) with
        | Some v => (inr v, st)
        | None => (inl (KeyError key), st)
        end.

(** [aggr[key] = v]: the dict object is updated in place. *)
Definition setitem (aggr : positive) (key : string) (v : PyVal) : M unit :=
  λ st, (inr tt,
         mkState (<[aggr := <[key := v]> (default ∅ (heap st !! aggr))]> (heap st))
                 (figures st)).

(** ** Python arithmetic: true division and [round] *)

Definition int_to_SF (n : Z) : spec_float :=
  match n with
  | Z0 => S754_zero false
  | Zpos p => S754_finite false p 0
  | Zneg p => S754_finite true p 0
  end.

(** The binary64 value nearest to the exact quotient [a / b] ([b ≠ 0]). *)
Definition int_div_float (a b : Z) : float :=
  SF2Prim (SFdiv prec emax (int_to_SF a) (int_to_SF b)).

(** [float(n)]. *)
Definition float_of_int (n : Z) : float := int_div_float n 1.

(** The least magnitude that rounds to infinity: [2^1024 - 2^970]. *)
Definition float_overflow_threshold : Z := 2 ^ 1024 - 2 ^ 970.

Definition float_is_zero (x : float) : bool :=
  match Prim2SF x with S754_zero _ => true | _ => false end.

(** [a / b]: [int / int] is the correctly rounded quotient and raises
    [ZeroDivisionError] on a zero divisor before anything else and
    [OverflowError] when the quotient does not fit a float; with a float
    operand the integer is converted first. Anything else is a
    [TypeError]. *)
Definition py_truediv (a b : PyVal) : exn + float :=
  match a, b with
  | VInt x, VInt y =>
      if y =? 0 then inl ZeroDivisionError
      else if float_overflow_threshold * Z.abs y <=? Z.abs x then inl OverflowError
      else inr (int_div_float x y)
  | VFloat x, VFloat y =>
      if float_is_zero y then inl ZeroDivisionError else inr (PrimFloat.div x y)
  | VInt x, VFloat y =>
      if float_overflow_threshold <=? Z.abs x then inl OverflowError
      else if float_is_zero y then inl ZeroDivisionError
      else inr (PrimFloat.div (float_of_int x) y)
  | VFloat x, VInt y =>
      if float_overflow_threshold <=? Z.abs y then inl OverflowError
      else if y =? 0 then inl ZeroDivisionError
      else inr (PrimFloat.div x (float_of_int y))
  | _, _ => inl TypeError
  end.

(** The integer nearest to [num / den] ([den > 0]), ties to even. *)
Definition round_half_even (num den : Z) : Z :=
  let q := num / den in
  match 2 * (num mod den) ?= den with
  | Lt => q
  | Gt => q + 1
  | Eq => if Z.even q then q else q + 1
  end.

(** [round(x, ndigits)] on a float, [ndigits ≥ 0]: the exact value of [x]
    is rounded to [ndigits] decimal places, ties to even, and the resulting
    decimal is converted back to the nearest float. Infinities and NaN are
    returned unchanged. *)
Definition py_round (x : float) (ndigits : Z) : float :=
  match Prim2SF x with
  | S754_finite s m e =>
      let scale := 10 ^ ndigits in
      let n := if 0 <=? e then Z.pos m * 2 ^ e * scale
               else round_half_even (Z.pos m * scale) (2 ^ (- e)) in
      let r := int_div_float n scale in
      if s then PrimFloat.opp r else r
  | _ => x
  end.

(** ** The validation-result cache *)

(** Modelled from the spec: the subjects of a validation result ([models.py]
    and Nautobot's [dcim] models are not part of the sources). Only the
    columns the report queries traverse are kept: a device always has a
    device type, its platform is optional; an inventory item always has a
    name, its manufacturer is optional. *)
Record Device : Type := mkDevice {
  device_pk : Z;
  device_type__model : string;
  platform__name : option string
}.

Record InventoryItem : Type := mkInventoryItem {
  inventory_item_pk : Z;
  item_name : string;
  manufacturer__name : option string
}.

(** Modelled from the spec: a validation result, with the same shape for
    both variants: "a cached boolean [is_validated], a foreign key to the
    software currently installed (nullable), a last run timestamp, and a
    run-type tag"; [last_updated] is the change timestamp every Nautobot
    model carries. *)
Record ValidationResult (Subject : Type) : Type := mkResult {
  subject : Subject;
  software : option Z;
  is_validated : bool;
  last_run : option Z;
  run_type : string;
  last_updated : Z
}.
Arguments mkResult {Subject}.
Arguments subject {Subject}.
Arguments software {Subject}.
Arguments is_validated {Subject}.
Arguments last_run {Subject}.
Arguments run_type {Subject}.
Arguments last_updated {Subject}.

Definition DeviceSoftwareValidationResult : Type := ValidationResult Device.
Definition InventoryItemSoftwareValidationResult : Type :=
  ValidationResult InventoryItem.

(** The invariant of the data model: [is_validated] is true only if
    [software] is non-null. *)
Definition well_formed {S} (r : ValidationResult S) : Prop :=
  is_validated r = true → software r ≠ None.

(** ** Query expressions *)

(** [Q] objects over the two columns the views filter on. *)
Inductive Q : Type :=
  | Q_empty                       (* Q() *)
  | Q_is_validated (b : bool)     (* Q(is_validated=b) *)
  | Q_software_None               (* Q(software=None) *)
  | Q_not (q : Q)                 (* ~q *)
  | Q_and (q1 q2 : Q).            (* the node built by q1 & q2 *)

(** [bool(q)]: a tree node is truthy when it has children. *)
Definition Q_bool (q : Q) : bool :=
  match q with Q_empty => false | _ => true end.

(** [q1 & q2]: an empty operand is dropped. *)
Definition Q_amp (q1 q2 : Q) : Q :=
  if negb (Q_bool q2) then q1
  else if negb (Q_bool q1) then q2
  else Q_and q1 q2.

(** [q1 and q2]: Python's short-circuit [and] returns its first operand when
    that is falsy and its second operand otherwise. *)
Definition py_and (q1 q2 : Q) : Q :=
  if Q_bool q1 then q2 else q1.

(** The WHERE condition a [Q] object compiles to, evaluated on a row. *)
Fixpoint Q_matches {S} (q : Q) (r : ValidationResult S) : bool :=
  match q with
  | Q_empty => true
  | Q_is_validated b => Bool.eqb (is_validated r) b
  | Q_software_None => match software r with None => true | Some _ => false end
  | Q_not q' => negb (Q_matches q' r)
  | Q_and q1 q2 => Q_matches q1 r && Q_matches q2 r
  end.

Definition count_rows {A} (p : A → bool) (rows : list A) : Z :=
  Z.of_nat (length (List.filter p rows)).

(** [Count(expression, filter=q)]: SQL's [COUNT(expression) FILTER (WHERE q)]
    counts the rows that satisfy [q] and on which the expression is not
    NULL. *)
Definition Count {S E} (expression : ValidationResult S → option E)
    (filter : option Q) (rows : list (ValidationResult S)) : Z :=
  count_rows (λ r, match expression r with
                   | Some _ => from_option (λ q, Q_matches q r) true filter
                   | None => false
                   end) rows.

(** One row of a [values(...).annotate(...)] query: the grouping value and
    the four counts. *)
Record Tally : Type := mkTally {
  group : option string;
  total : Z;
  valid : Z;
  invalid : Z;
  no_software : Z
}.

(** The rows of one group. *)
Definition group_rows {S} (key : ValidationResult S → option string)
    (k : option string) (rows : list (ValidationResult S)) :
    list (ValidationResult S) :=
  List.filter (λ r, bool_decide (key r = k)) rows.

(** [objects.values(key).distinct().annotate(total=Count(key),
    valid=Count(key, filter=q_valid), invalid=Count(key, filter=q_invalid),
    no_software=Count(key, filter=q_no_software))]: GROUP BY [key] (NULL is
    a group of its own), one row per group. *)
Definition values_annotate {S} (key : ValidationResult S → option string)
    (q_valid q_invalid q_no_software : Q)
    (rows : list (ValidationResult S)) : list Tally :=
  (λ k, let g := group_rows key k rows in
        mkTally k (Count key None g) (Count key (Some q_valid) g)
                (Count key (Some q_invalid) g)
                (Count key (Some q_no_software) g))
  <$> remove_dups (key <$> rows).

(** [qs.aggregate(total=Count(e), valid=..., invalid=..., no_software=...)]:
    the dict of the four counts over the whole query set. *)
Definition aggregate {S E} (expression : ValidationResult S → option E)
    (q_valid q_invalid q_no_software : Q)
    (rows : list (ValidationResult S)) : gmap string PyVal :=
  <["total" := VInt (Count expression None rows)]>
    (<["valid" := VInt (Count expression (Some q_valid) rows)]>
       (<["invalid" := VInt (Count expression (Some q_invalid) rows)]>
          (<["no_software" :=
               VInt (Count expression (Some q_no_software) rows)]> ∅))).

(** [order_by("-field")]: descending order. SQL leaves the order of rows
    with equal keys open; the model sorts by merging. *)
Definition desc {A} (field : A → Z) : relation A := λ a b, field b ≤ field a.

Global Instance desc_dec {A} (field : A → Z) : RelDecision (desc field) :=
  λ a b, decide (field b ≤ field a).

Definition order_by_desc {A} (field : A → Z) (rows : list A) : list A :=
  merge_sort (desc field) rows.

(** [qs.latest(field)]: the first row in descending order of [field];
    [DoesNotExist] on an empty query set. *)
Definition latest {A} (field : A → Z) (rows : list A) : exn + A :=
  match order_by_desc field rows with
  | [] => inl DoesNotExist
  | r :: _ => inr r
  end.

(** A report-table row: the counts and the annotation
    [valid_percent = ExpressionWrapper(100 * F("valid") / F("total"),
    output_field=FloatField())]. *)
Record ReportRow : Type := mkReportRow {
  counts :> Tally;
  valid_percent : Z
}.

(** The counts are [bigint] columns, so the database computes
    [100 * valid / total] in integers, truncating the quotient; a zero
    divisor is a database error. [ExpressionWrapper] only declares the
    Python type of the value. *)
Definition annotate_valid_percent (t : Tally) : exn + ReportRow :=
  if total t =? 0 then inl DataError
  else inr (mkReportRow t ((100 * valid t) ÷ total t)).

(** The value Python receives for a [FloatField] annotation: [float(v)]. *)
Definition FloatField_value (v : Z) : PyVal := VFloat (float_of_int v).

Fixpoint traverse {A B} (f : A → exn + B) (l : list A) : exn + list B :=
  match l with
  | [] => inr []
  | x :: l' =>
      match f x with
      | inl e => inl e
      | inr y =>
          match traverse f l' with
          | inl e => inl e
          | inr ys => inr (y :: ys)
          end
      end
  end.

(** ** The plotting library and the image encoding *)

(** What the views need of matplotlib: whether drawing an artist raises, and
    the PNG stream [fig.savefig(buf, format="png")] writes for a figure. *)
Class Matplotlib : Type := {
  draw_error : Artist → option exn;
  savefig_png : list Artist → list byte
}.

Section pyplot.
Context {mpl : Matplotlib}.

(** [plt.subplots()]: a new, empty figure becomes the current one. *)
Definition plt_subplots : M unit :=
  λ st, (inr tt, mkState (heap st) ([] :: figures st)).

(** A drawing call on the current figure. *)
Definition draw (a : Artist) : M unit :=
  λ st, match draw_error a with
        | Some e => (inl e, st)
        | None =>
            (inr tt,
             mkState (heap st)
                     (match figures st with
                      | fig :: figs => (fig ++ [a]) :: figs
                      | [] => [[a]]
                      end))
        end.

(** [buf = io.BytesIO(); plt.gcf().savefig(buf, format="png"); buf.seek(0);
    buf.read()]. *)
Definition savefig : M (list byte) :=
  λ st, (inr (savefig_png (default [] (head (figures st)))), st).
End pyplot.

Definition b64_alphabet : list ascii :=
  list_ascii_of_string
    "ABCDEFGHIJKLMNOPQRSTUVWXYZabcdefghijklmnopqrstuvwxyz0123456789+/".

Definition b64_char (i : Z) : ascii :=
  nth (Z.to_nat (Z.land i 63)) b64_alphabet "="%char.

Definition byte_to_Z (b : byte) : Z := Z.of_N (Byte.to_N b).

(** [base64.b64encode]: three bytes become four characters; a final group of
    one or two bytes is padded with [=]. *)
Fixpoint b64encode (bs : list byte) : string :=
  match bs with
  | [] => EmptyString
  | [a] =>
      let n := Z.shiftl (byte_to_Z a) 16 in
      String (b64_char (Z.shiftr n 18))
        (String (b64_char (Z.shiftr n 12)) "==")
  | [a; b] =>
      let n := Z.lor (Z.shiftl (byte_to_Z a) 16) (Z.shiftl (byte_to_Z b) 8) in
      String (b64_char (Z.shiftr n 18))
        (String (b64_char (Z.shiftr n 12))
           (String (b64_char (Z.shiftr n 6)) "="))
  | a :: b :: c :: rest =>
      let n := Z.lor (Z.lor (Z.shiftl (byte_to_Z a) 16)
                            (Z.shiftl (byte_to_Z b) 8)) (byte_to_Z c) in
      String (b64_char (Z.shiftr n 18))
        (String (b64_char (Z.shiftr n 12))
           (String (b64_char (Z.shiftr n 6))
              (String (b64_char n) (b64encode rest))))
  end.

Definition hex_digit (i : Z) : ascii :=
  nth (Z.to_nat (Z.land i 15)) (list_ascii_of_string "0123456789ABCDEF")
      "0"%char.

(** Characters [urllib.parse.quote] never escapes, and its default
    [safe="/"]. *)
Definition quote_safe (c : ascii) : bool :=
  let n := Z.of_N (N_of_ascii c) in
  ((65 <=? n) && (n <=? 90)) || ((97 <=? n) && (n <=? 122))
  || ((48 <=? n) && (n <=? 57))
  || (n =? 95) || (n =? 46) || (n =? 45) || (n =? 126) || (n =? 47).

(** [urllib.parse.quote]: every other character is written [%XX]. *)
Fixpoint quote (s : string) : string :=
  match s with
  | EmptyString => EmptyString
  | String c s' =>
      if quote_safe c then String c (quote s')
      else
        let n := Z.of_N (N_of_ascii c) in
        String "%" (String (hex_digit (Z.shiftr n 4))
                      (String (hex_digit n) (quote s')))
  end.

(** The dict a [values(column).annotate(...)] query yields for a row: the
    grouping column and the four counts. *)
Definition values_dict (column : string) (t : Tally) : gmap string PyVal :=
  <[column := from_option VStr VNone (group t)]>
    (<["total" := VInt (total t)]>
       (<["valid" := VInt (valid t)]>
          (<["invalid" := VInt (invalid t)]>
             (<["no_software" := VInt (no_software t)]> ∅)))).

(** [item[key]] on such a dict. *)
Definition dict_getitem (item : gmap string PyVal) (key : string) : exn + PyVal :=
  match item !! key with
  | Some v => inr v
  | None => inl (KeyError key)
  end.

(** ** [ReportOverviewHelper] *)

Record PieChartAttrs : Type := mkPieChartAttrs {
  aggr_labels : list string;
  chart_labels : list string
}.

Record ChartBar : Type := mkChartBar {
  bar_label : string;
  data_attr : string;
  color : string
}.

Record BarChartAttrs : Type := mkBarChartAttrs {
  label_accessor : string;
  ylabel : string;
  title : string;
  chart_bars : list ChartBar
}.

Definition GREEN : string := "#D5E8D4".
Definition RED : string := "#F8CECC".
Definition GREY : string := "#808080".

Module ReportOverviewHelper.
Section helper.
Context {mpl : Matplotlib}.

(** [[aggr[aggr_label] for aggr_label in labels]]. *)
Fixpoint getitems (aggr : positive) (labels : list string) : M (list PyVal) :=
  match labels with
  | [] => ret []
  | l :: ls =>
      let* v := getitem aggr l in
      let* vs := getitems aggr ls in
      ret (v :: vs)
  end.

Definition plot_piechart_visual (aggr : positive)
    (pie_chart_attrs : PieChartAttrs) : M PyVal :=
  let* label0 := lift (match aggr_labels pie_chart_attrs with
                       | l :: _ => inr l
                       | [] => inl IndexError
                       end) in
  let* first := getitem aggr label0 in
  if is_None first then ret VNone
  else
    let* sizes := getitems aggr (aggr_labels pie_chart_attrs) in
    plt_subplots ;;;
    draw (Pie sizes (chart_labels pie_chart_attrs)) ;;;
    let* name := getitem aggr "name" in
    draw (Title name) ;;;
    let* png := savefig in
    ret (VStr (quote (b64encode png))).

(** The loop over [chart_attrs["chart_bars"]]: one bar series per entry,
    its heights read from the rows. *)
Fixpoint draw_bars (qs : list (gmap string PyVal)) (bars : list ChartBar) :
    M unit :=
  match bars with
  | [] => ret tt
  | chart_bar :: bars' =>
      let* bar_label_item :=
        lift (traverse (λ item, dict_getitem item (data_attr chart_bar)) qs) in
      draw (Bar (bar_label chart_bar) bar_label_item) ;;;
      draw_bars qs bars'
  end.

(** The figure size and bar width come from the plugin configuration and
    only shape the image, which [savefig_png] stands for. *)
Definition plot_barchart_visual (qs : list (gmap string PyVal))
    (chart_attrs : BarChartAttrs) : M PyVal :=
  let* labels :=
    lift (traverse (λ item, dict_getitem item (label_accessor chart_attrs)) qs) in
  plt_subplots ;;;
  draw_bars qs (chart_bars chart_attrs) ;;;
  draw (YLabel (ylabel chart_attrs)) ;;;
  draw (Title (VStr (title chart_attrs))) ;;;
  draw (XTickLabels labels) ;;;
  let* png := savefig in
  ret (VStr (quote (b64encode png))).

Definition calculate_aggr_percentage (aggr : positive) : M positive :=
  try_except
    (let* v := getitem aggr "valid" in
     let* t := getitem aggr "total" in
     let* q := lift (py_truediv v t) in
     setitem aggr "valid_percent"
             (VFloat (py_round (PrimFloat.mul q 100%float) 2)))
    (λ e, match e with
          | ZeroDivisionError => Some (setitem aggr "valid_percent" (VInt 0))
          | _ => None
          end) ;;;
  ret aggr.
End helper.
End ReportOverviewHelper.

(** ** The report views *)

Record HttpRequest : Type := mkRequest {
  GET : list (string * string)
}.

(** What a view publishes to its template: the dict with the keys
    [bar_chart], [device_aggr] or [inventory_aggr], [device_visual] or
    [inventory_visual], and [report_last_run]. *)
Record ExtraContent : Type := mkExtraContent {
  bar_chart : PyVal;
  global_aggr : positive;
  global_visual : PyVal;
  last_full_run : option Z
}.

Module ValidatedSoftwareDeviceReportView.
Section view.
Context {mpl : Matplotlib}.
(** [choices.ReportRunTypeChoices.REPORT_FULL_RUN]. *)
Variable REPORT_FULL_RUN : string.
(** The class attribute [filterset]: given the query parameters, the
    condition the filter set adds to a query. *)
Variable filterset :
  option (list (string * string) → DeviceSoftwareValidationResult → bool).

Definition device (r : DeviceSoftwareValidationResult) : option Device :=
  Some (subject r).
Definition device__device_type__model (r : DeviceSoftwareValidationResult) :
    option string := Some (device_type__model (subject r)).
Definition device__platform__name (r : DeviceSoftwareValidationResult) :
    option string := platform__name (subject r).

(** The class attribute [queryset], over the rows of the table. *)
Definition queryset (objects : list DeviceSoftwareValidationResult) :
    exn + list ReportRow :=
  match traverse annotate_valid_percent
          (values_annotate device__device_type__model
             (Q_is_validated true)
             (py_and (Q_is_validated false) (Q_not Q_software_None))
             Q_software_None objects) with
  | inl e => inl e
  | inr rows => inr (order_by_desc valid_percent rows)
  end.

(** The [try ... except DoesNotExist] at the head of [setup]. *)
Definition report_last_run (objects : list DeviceSoftwareValidationResult) :
    exn + option Z :=
  match latest last_updated
          (List.filter (λ r, bool_decide (run_type r = REPORT_FULL_RUN))
                       objects) with
  | inr r => inr (last_run r)
  | inl DoesNotExist => inr None
  | inl e => inl e
  end.

Definition _platform_qs (objects : list DeviceSoftwareValidationResult) :
    list Tally :=
  order_by_desc total
    (values_annotate device__platform__name
       (Q_is_validated true)
       (Q_amp (Q_is_validated false) (Q_not Q_software_None))
       Q_software_None objects).

(** [self.filterset(request.GET, _platform_qs).qs]: the filter set's
    condition restricts the rows that are grouped. *)
Definition platform_qs (request : HttpRequest)
    (objects : list DeviceSoftwareValidationResult) : exn + list Tally :=
  match filterset with
  | Some f => inr (_platform_qs (List.filter (f (GET request)) objects))
  | None => inl TypeError
  end.

Definition get_global_aggr (request : HttpRequest)
    (objects : list DeviceSoftwareValidationResult) : M positive :=
  let device_qs := objects in
  let* device_aggr := new_dict ∅ in
  let* device_aggr :=
    match filterset with
    | Some f =>
        let* device_aggr :=
          new_dict (aggregate device
                      (Q_is_validated true)
                      (Q_amp (Q_is_validated false) (Q_not Q_software_None))
                      Q_software_None
                      (List.filter (f (GET request)) device_qs)) in
        setitem device_aggr "name" (VStr "Devices") ;;;
        ret device_aggr
    | None => ret device_aggr
    end in
  ReportOverviewHelper.calculate_aggr_percentage device_aggr.

Definition pie_chart_attrs : PieChartAttrs :=
  mkPieChartAttrs ["valid"; "invalid"; "no_software"]
                  ["Valid"; "Invalid"; "No Software"].

Definition bar_chart_attrs : BarChartAttrs :=
  mkBarChartAttrs "device__platform__name" "Device" "Valid per Platform"
    [mkChartBar "Valid" "valid" GREEN;
     mkChartBar "Invalid" "invalid" RED;
     mkChartBar "No Software" "no_software" GREY].

Definition setup (request : HttpRequest)
    (objects : list DeviceSoftwareValidationResult) : M ExtraContent :=
  let* report_last_run := lift (report_last_run objects) in
  let* device_aggr := get_global_aggr request objects in
  let* platform_qs := lift (platform_qs request objects) in
  let* bar :=
    ReportOverviewHelper.plot_barchart_visual
      (values_dict "device__platform__name" <$> platform_qs)
      bar_chart_attrs in
  let* device_visual :=
    ReportOverviewHelper.plot_piechart_visual device_aggr pie_chart_attrs in
  ret (mkExtraContent bar device_aggr device_visual report_last_run).
End view.
End ValidatedSoftwareDeviceReportView.

Module ValidatedSoftwareInventoryItemReportView.
Section view.
Context {mpl : Matplotlib}.
Variable REPORT_FULL_RUN : string.
Variable filterset :
  option (list (string * string) →
          InventoryItemSoftwareValidationResult → bool).

Definition inventory_item (r : InventoryItemSoftwareValidationResult) :
    option InventoryItem := Some (subject r).
Definition inventory_item__name (r : InventoryItemSoftwareValidationResult) :
    option string := Some (item_name (subject r)).
Definition inventory_item__manufacturer__name
    (r : InventoryItemSoftwareValidationResult) : option string :=
  manufacturer__name (subject r).

Definition queryset (objects : list InventoryItemSoftwareValidationResult) :
    exn + list ReportRow :=
  match traverse annotate_valid_percent
          (values_annotate inventory_item__name
             (Q_is_validated true)
             (Q_amp (Q_is_validated false) (Q_not Q_software_None))
             Q_software_None objects) with
  | inl e => inl e
  | inr rows => inr (order_by_desc valid_percent rows)
  end.

Definition report_last_run
    (objects : list InventoryItemSoftwareValidationResult) : exn + option Z :=
  match latest last_updated
          (List.filter (λ r, bool_decide (run_type r = REPORT_FULL_RUN))
                       objects) with
  | inr r => inr (last_run r)
  | inl DoesNotExist => inr None
  | inl e => inl e
  end.

Definition _platform_qs
    (objects : list InventoryItemSoftwareValidationResult) : list Tally :=
  order_by_desc total
    (values_annotate inventory_item__manufacturer__name
       (Q_is_validated true)
       (Q_amp (Q_is_validated false) (Q_not Q_software_None))
       Q_software_None objects).

Definition platform_qs (request : HttpRequest)
    (objects : list InventoryItemSoftwareValidationResult) :
    exn + list Tally :=
  match filterset with
  | Some f => inr (_platform_qs (List.filter (f (GET request)) objects))
  | None => inl TypeError
  end.

Definition get_global_aggr (request : HttpRequest)
    (objects : list InventoryItemSoftwareValidationResult) : M positive :=
  let inventory_item_qs := objects in
  let* inventory_aggr := new_dict ∅ in
  let* inventory_aggr :=
    match filterset with
    | Some f =>
        let* inventory_aggr :=
          new_dict (aggregate inventory_item
                      (Q_is_validated true)
                      (Q_amp (Q_is_validated false) (Q_not Q_software_None))
                      Q_software_None
                      (List.filter (f (GET request)) inventory_item_qs)) in
        setitem inventory_aggr "name" (VStr "Inventory Items") ;;;
        ret inventory_aggr
    | None => ret inventory_aggr
    end in
  ReportOverviewHelper.calculate_aggr_percentage inventory_aggr.

Definition pie_chart_attrs : PieChartAttrs :=
  mkPieChartAttrs ["valid"; "invalid"; "no_software"]
                  ["Valid"; "Invalid"; "No Software"].

Definition bar_chart_attrs : BarChartAttrs :=
  mkBarChartAttrs "inventory_item__manufacturer__name" "Inventory Item"
    "Valid per Manufacturer"
    [mkChartBar "Valid" "valid" GREEN;
     mkChartBar "Invalid" "invalid" RED;
     mkChartBar "No Software" "no_software" GREY].

Definition setup (request : HttpRequest)
    (objects : list InventoryItemSoftwareValidationResult) : M ExtraContent :=
  let* report_last_run := lift (report_last_run objects) in
  let* inventory_aggr := get_global_aggr request objects in
  let* platform_qs := lift (platform_qs request objects) in
  let* bar :=
    ReportOverviewHelper.plot_barchart_visual
      (values_dict "inventory_item__manufacturer__name" <$> platform_qs)
      bar_chart_attrs in
  let* inventory_visual :=
    ReportOverviewHelper.plot_piechart_visual inventory_aggr
      pie_chart_attrs in
  ret (mkExtraContent bar inventory_aggr inventory_visual report_last_run).
End view.
End ValidatedSoftwareInventoryItemReportView.

(** ** [ValidatedSoftwareLCMSerializer] *)

Inductive ContentType : Type :=
  | dcim_device
  | dcim_devicetype
  | dcim_inventoryitem.

Record DeviceType : Type := mkDeviceType {
  device_type_pk : Z;
  model : string
}.

(** The rows a policy can point at, by primary key. *)
Record Database : Type := mkDatabase {
  devices : gmap Z Device;
  device_types : gmap Z DeviceType;
  inventory_items : gmap Z InventoryItem
}.

Inductive Instance : Type :=
  | a_device (d : Device)
  | a_device_type (t : DeviceType)
  | an_inventory_item (i : InventoryItem).

(** Modelled from the spec: the validated-software policy ([models.py] is
    not part of the sources), which "associates a SoftwareRecord with a
    target entity (device, device-type, or inventory-item, chosen via a
    polymorphic reference: content-type + object-id) and a validity window
    (start/end) plus a preferred flag". *)
Record ValidatedSoftwareLCM : Type := mkValidatedSoftwareLCM {
  policy_software : Z;
  assigned_to_content_type : option ContentType;
  assigned_to_object_id : option Z;
  start : Z;
  end_ : option Z;
  preferred : bool
}.

(** Modelled from the spec: the generic foreign key [assigned_to] of the
    policy, declared in [models.py]. Reading it resolves the content-type /
    object-id pair to the row of that type with that key; it is [None] when
    the pair is unset or no such row exists. *)
Definition assigned_to (db : Database) (obj : ValidatedSoftwareLCM) :
    option Instance :=
  match assigned_to_content_type obj, assigned_to_object_id obj with
  | Some dcim_device, Some pk => a_device <$> devices db !! pk
  | Some dcim_devicetype, Some pk => a_device_type <$> device_types db !! pk
  | Some dcim_inventoryitem, Some pk =>
      an_inventory_item <$> inventory_items db !! pk
  | _, _ => None
  end.

(** The nested serializers of Nautobot's [dcim] application: the
    representation each gives of an instance, for a request. *)
Class NestedSerializers (Repr : Type) : Type := {
  NestedDeviceSerializer : Device → HttpRequest → Repr;
  NestedDeviceTypeSerializer : DeviceType → HttpRequest → Repr;
  NestedInventoryItemSerializer : InventoryItem → HttpRequest → Repr
}.

Module ValidatedSoftwareLCMSerializer.
Section serializer.
Context {Repr : Type} {ns : NestedSerializers Repr}.

(** [get_serializer_for_model(instance, prefix="Nested")] followed by
    [serializer(instance, context=context).data]: the serializer is found
    by the model's name. *)
Definition get_serializer_for_model (instance : Instance) :
    exn + (HttpRequest → Repr) :=
  match instance with
  | a_device d => inr (NestedDeviceSerializer d)
  | a_device_type t => inr (NestedDeviceTypeSerializer t)
  | an_inventory_item i => inr (NestedInventoryItemSerializer i)
  end.

(** [None] stands for JSON [null]. *)
Definition get_assigned_to (self_context : gmap string HttpRequest)
    (db : Database) (obj : ValidatedSoftwareLCM) : exn + option Repr :=
  match assigned_to db obj with
  | None => inr None
  | Some target =>
      match get_serializer_for_model target with
      | inl e => inl e
      | inr serializer =>
          match self_context !! "request" with
          | None => inl (KeyError "request")
          | Some request => inr (Some (serializer request))
          end
      end
  end.
End serializer.
End ValidatedSoftwareLCMSerializer.

(** ** The detail views *)

(** Modelled from the spec: the records the detail views read ([models.py]
    and Nautobot's [dcim] models are not part of the sources). A hardware
    notice "identifies a device type or inventory-item-part"; a device row
    carries its device type and the part ids of its inventory items, the
    columns the queries of the view traverse; "a provider offers contracts";
    "contacts belong to a contract with a type and priority". *)
Record HardwareLCM : Type := mkHardwareLCM {
  hardware_device_type : option Z;
  hardware_inventory_item : option string
}.

Record DeviceRow : Type := mkDeviceRow {
  row_pk : Z;
  row_device_type : Z;
  inventoryitems__part_id : list string
}.

Global Instance DeviceRow_eq_dec : EqDecision DeviceRow.
Proof. solve_decision. Defined.

Record ProviderLCM : Type := mkProviderLCM {
  provider_pk : Z
}.

Record ContractLCM : Type := mkContractLCM {
  contract_pk : Z;
  provider : Z
}.

Record ContactLCM : Type := mkContactLCM {
  contact_pk : Z;
  contract : Z;
  type : string;
  priority : Z
}.

(** [objects.restrict(user, "view")]: Nautobot's object permissions, which
    keep the rows the user may view. *)
Class ObjectPermissions (User : Type) : Type := {
  may_view_device : User → DeviceRow → bool;
  may_view_contract : User → ContractLCM → bool;
  may_view_contact : User → ContactLCM → bool
}.

(** [bool(s)] of an optional string: [None] and the empty string are
    falsy. *)
Definition str_truthy (s : option string) : bool :=
  match s with
  | Some (String _ _) => true
  | _ => false
  end.

Module HardwareLCMView.
Section view.
Context {User : Type} {perms : ObjectPermissions User}.

(** The value under ["devices"]. A filter across the inventory items of a
    device joins the two tables: a device comes once for each of its items
    with the part id. *)
Definition get_extra_context (user : User) (instance : HardwareLCM)
    (Device_objects : list DeviceRow) : list DeviceRow :=
  match hardware_device_type instance with
  | Some device_type =>
      List.filter (λ d, bool_decide (row_device_type d = device_type))
        (List.filter (may_view_device user) Device_objects)
  | None =>
      if str_truthy (hardware_inventory_item instance) then
        flat_map (λ d, (λ _, d) <$>
                         List.filter
                           (λ part, bool_decide
                                      (Some part
                                       = hardware_inventory_item instance))
                           (inventoryitems__part_id d))
          (List.filter (may_view_device user) Device_objects)
      else []
  end.
End view.
End HardwareLCMView.

(** [order_by("type", "priority")]: by type first and by priority among
    equal types. The order of strings is the database collation's; the
    model compares code points. *)
Definition by_type_priority : relation ContactLCM :=
  λ a b, if decide (type a = type b) then priority a ≤ priority b
         else String.le (type a) (type b).

Global Instance by_type_priority_dec : RelDecision by_type_priority.
Proof.
  intros a b. unfold by_type_priority. destruct (decide (type a = type b)).
  - apply _.
  - apply _.
Defined.

Module ContractLCMView.
Section view.
Context {User : Type} {perms : ObjectPermissions User}.

(** The values under ["contacts"] and ["owners"]. *)
Record ExtraContext : Type := mkExtraContext {
  contacts : list ContactLCM;
  owners : list ContactLCM
}.

Definition get_extra_context (user : User) (instance : ContractLCM)
    (ContactLCM_objects : list ContactLCM) : ExtraContext :=
  mkExtraContext
    (merge_sort by_type_priority
       (List.filter (λ c, negb (bool_decide (type c = "Owner")))
          (List.filter (λ c, bool_decide (contract c = contract_pk instance))
             (List.filter (may_view_contact user) ContactLCM_objects))))
    (merge_sort by_type_priority
       (List.filter (λ c, bool_decide (contract c = contract_pk instance)
                          && bool_decide (type c = "Owner"))
          (List.filter (may_view_contact user) ContactLCM_objects))).
End view.
End ContractLCMView.

Module ProviderLCMView.
Section view.
Context {User : Type} {perms : ObjectPermissions User}.

(** The value under ["contracts"]. *)
Definition get_extra_context (user : User) (instance : ProviderLCM)
    (ContractLCM_objects : list ContractLCM) : list ContractLCM :=
  List.filter (λ c, bool_decide (provider c = provider_pk instance))
    (List.filter (may_view_contract user) ContractLCM_objects).
End view.
End ProviderLCMView.

(** ** Decoding an embedded image *)

(** [urllib.parse.unquote_to_bytes]: [%XX] with two hexadecimal digits is
    the byte [XX]; anything else stands for itself. *)
Definition hex_value (c : ascii) : option Z :=
  let n := Z.of_N (N_of_ascii c) in
  if (48 <=? n) && (n <=? 57) then Some (n - 48)
  else if (65 <=? n) && (n <=? 70) then Some (n - 55)
  else if (97 <=? n) && (n <=? 102) then Some (n - 87)
  else None.

Fixpoint unquote_to_bytes (s : string) : string :=
  match s with
  | EmptyString => EmptyString
  | String c s1 =>
      if Ascii.eqb c "%" then
        match s1 with
        | String h (String l rest) =>
            match hex_value h, hex_value l with
            | Some x, Some y =>
                String (ascii_of_N (Z.to_N (16 * x + y)))
                       (unquote_to_bytes rest)
            | _, _ => String c (unquote_to_bytes s1)
            end
        | _ => String c (unquote_to_bytes s1)
        end
      else String c (unquote_to_bytes s1)
  end.

(** The position of a character in the base64 alphabet. *)
Fixpoint index_from (c : ascii) (l : list ascii) (i : Z) : option Z :=
  match l with
  | [] => None
  | x :: l' => if Ascii.eqb x c then Some i else index_from c l' (i + 1)
  end.

Definition b64_index (c : ascii) : option Z := index_from c b64_alphabet 0.

Definition byte_of_Z (z : Z) : byte :=
  default x00 (Byte.of_N (Z.to_N z)).

(** [base64.b64decode] on a padded encoding: four characters give three
    bytes; [=] may only pad the last group. [None] stands for the error
    raised on anything else. *)
Fixpoint b64decode (s : string) : option (list byte) :=
  match s with
  | EmptyString => Some []
  | String c1 (String c2 (String c3 (String c4 rest))) =>
      match b64_index c1, b64_index c2 with
      | Some i1, Some i2 =>
          if Ascii.eqb c3 "=" then
            if Ascii.eqb c4 "=" && bool_decide (rest = EmptyString)
            then Some [byte_of_Z (i1 * 4 + i2 / 16)]
            else None
          else
            match b64_index c3 with
            | Some i3 =>
                if Ascii.eqb c4 "=" then
                  if bool_decide (rest = EmptyString)
                  then Some [byte_of_Z (i1 * 4 + i2 / 16);
                             byte_of_Z (i2 mod 16 * 16 + i3 / 4)]
                  else None
                else
                  match b64_index c4, b64decode rest with
                  | Some i4, Some tail =>
                      Some (byte_of_Z (i1 * 4 + i2 / 16)
                            :: byte_of_Z (i2 mod 16 * 16 + i3 / 4)
                            :: byte_of_Z (i3 mod 4 * 64 + i4)
                            :: tail)
                  | _, _ => None
                  end
            | None => None
            end
      | _, _ => None
      end
  | _ => None
  end.

(** The sum of a column. *)
Definition sum_Z (l : list Z) : Z := foldr Z.add 0 l.

(** * Vocabulary of the properties *)

(** The rows a tally counts, in the words of the specification:
    [valid = count(is_validated=true)],
    [invalid = count(is_validated=false AND software is not null)],
    [no_software = count(software is null)]. *)
Definition is_valid {S} (r : ValidationResult S) : bool := is_validated r.
Definition is_invalid {S} (r : ValidationResult S) : bool :=
  negb (is_validated r) && bool_decide (software r ≠ None).
Definition has_no_software {S} (r : ValidationResult S) : bool :=
  bool_decide (software r = None).

(** The three filters as every query but one writes them. *)
Definition q_valid : Q := Q_is_validated true.
Definition q_invalid : Q :=
  Q_amp (Q_is_validated false) (Q_not Q_software_None).
Definition q_no_software : Q := Q_software_None.

Arguments float_overflow_threshold : simpl never.
Arguments int_div_float : simpl never.
Arguments py_round : simpl never.

(** What [calculate_aggr_percentage] stores for integer counts. *)
Definition percentage (v t : Z) : PyVal :=
  if t =? 0 then VInt 0
  else VFloat (py_round (PrimFloat.mul (int_div_float v t) 100%float) 2).

(** The body of both [get_global_aggr] methods when the view has a filter
    set, over the rows the filter set lets through. *)
Definition run_global_aggr {S E} (expression : ValidationResult S → option E)
    (name : string) (rows : list (ValidationResult S)) : M positive :=
  let* aggr0 := new_dict ∅ in
  let* aggr :=
    (let* a := new_dict (aggregate expression q_valid q_invalid q_no_software
                                   rows) in
     setitem a "name" (VStr name) ;;;
     ret a) in
  ReportOverviewHelper.calculate_aggr_percentage aggr.

(** The dict it leaves behind. *)
Definition global_tally {S E} (expression : ValidationResult S → option E)
    (name : string) (rows : list (ValidationResult S)) : gmap string PyVal :=
  <["valid_percent" := percentage (Count expression (Some q_valid) rows)
                                  (Count expression None rows)]>
    (<["name" := VStr name]>
       (aggregate expression q_valid q_invalid q_no_software rows)).

(** The lookup at the head of both [setup] methods, for either model. *)
Definition full_run_last_run {S} (REPORT_FULL_RUN : string)
    (objects : list (ValidationResult S)) : exn + option Z :=
  match latest last_updated
          (List.filter (λ r, bool_decide (run_type r = REPORT_FULL_RUN))
                       objects) with
  | inr r => inr (last_run r)
  | inl DoesNotExist => inr None
  | inl e => inl e
  end.

(** The nested representation of a resolved target. *)
Definition nested_representation {Repr} `{!NestedSerializers Repr}
    (target : Instance) (request : HttpRequest) : Repr :=
  match target with
  | a_device d => NestedDeviceSerializer d request
  | a_device_type t => NestedDeviceTypeSerializer t request
  | an_inventory_item i => NestedInventoryItemSerializer i request
  end.

(** ** Sample data *)

(** A plotting library that draws everything and writes the PNG signature. *)
Definition png_signature : list byte :=
  [x89; x50; x4e; x47; x0d; x0a; x1a; x0a]%byte.

Definition signature_only : Matplotlib :=
  {| draw_error := λ _, None; savefig_png := λ _, png_signature |}.

Definition full_run : string := "full-report-run".
Definition single_run : string := "single-object-run".

Definition switch : Device := mkDevice 1 "C9300" (Some "cisco_ios").
Definition router : Device := mkDevice 2 "MX204" None.

(** A device whose installed software (key 7) is validated. *)
Definition validated_switch : DeviceSoftwareValidationResult :=
  mkResult switch (Some 7) true (Some 1700000000) full_run 1700000000.

(** Two devices of another type running software that is not validated. *)
Definition invalid_router (pk : Z) : DeviceSoftwareValidationResult :=
  mkResult (mkDevice pk "MX204" None) (Some 8) false (Some 1700000100)
           single_run 1700000200.

Definition inventory_row (pk : Z) (name : string) (sw : option Z) (ok : bool) :
    InventoryItemSoftwareValidationResult :=
  mkResult (mkInventoryItem pk name (Some "Cisco")) sw ok (Some 1700000000)
           full_run 1700000000.

(** Three inventory items of one name: one valid, one invalid, one without
    software. *)
Definition three_sfps : list InventoryItemSoftwareValidationResult :=
  [inventory_row 1 "SFP-10G" (Some 7) true;
   inventory_row 2 "SFP-10G" (Some 8) false;
   inventory_row 3 "SFP-10G" None false].

(** One valid item of one name and two invalid items of another. *)
Definition sfp_and_two_psus : list InventoryItemSoftwareValidationResult :=
  [inventory_row 1 "SFP-10G" (Some 7) true;
   inventory_row 2 "PSU-715W" (Some 8) false;
   inventory_row 3 "PSU-715W" (Some 8) false].

Definition all_rows {S} : list (string * string) → ValidationResult S → bool :=
  λ _ _, true.

Definition no_request : HttpRequest := mkRequest [].

(** A heap holding one tally at reference 1. *)
Definition one_tally (d : gmap string PyVal) : State :=
  mkState {[ 1%positive := d ]} [].

Definition zero_tally : gmap string PyVal :=
  <["name" := VStr "Devices"]> (<["total" := VInt 0]> (<["valid" := VInt 0]>
    (<["invalid" := VInt 0]> (<["no_software" := VInt 0]> ∅)))).

Definition ten_tally : gmap string PyVal :=
  <["total" := VInt 10]> (<["valid" := VInt 7]> (<["invalid" := VInt 2]>
    (<["no_software" := VInt 1]> ∅))).

Definition ten_tally_named : gmap string PyVal :=
  <["name" := VStr "Devices"]> ten_tally.

(** A dict whose [valid] is [None], and a tally that already has a
    [valid_percent]. *)
Definition none_tally : gmap string PyVal :=
  <["total" := VInt 10]> (<["valid" := VNone]> ∅).

Definition stale_tally : gmap string PyVal :=
  <["valid_percent" := VInt 0]> ten_tally.

(** A tally whose three counts add up to its total. *)
Definition partitions (t : Tally) : Prop :=
  valid t + invalid t + no_software t = total t.

Definition dict_partitions (d : gmap string PyVal) : Prop :=
  ∃ v i n t,
    d !! "valid" = Some (VInt v) ∧ d !! "invalid" = Some (VInt i)
    ∧ d !! "no_software" = Some (VInt n) ∧ d !! "total" = Some (VInt t)
    ∧ v + i + n = t.

(** The quotient [v / t] is within the range of a float. *)
Definition quotient_fits_float (v t : Z) : Prop :=
  t ≠ 0 → Z.abs v < float_overflow_threshold * Z.abs t.

(** What it means for a [report_last_run] computation to reflect full runs
    only: it never fails; without a full-run row it is [None]; with one it
    is the [last_run] of a full-run row that no full-run row was updated
    after; and a row of another run type, wherever it sits in the table,
    does not change it. *)
Definition reflects_full_runs_only {S} (REPORT_FULL_RUN : string)
    (report_last_run : list (ValidationResult S) → exn + option Z) : Prop :=
  (∀ objects, ∃ v, report_last_run objects = inr v)
  ∧ (∀ objects,
       (∀ r, r ∈ objects → run_type r ≠ REPORT_FULL_RUN) →
       report_last_run objects = inr None)
  ∧ (∀ objects,
       (∃ r, r ∈ objects ∧ run_type r = REPORT_FULL_RUN) →
       ∃ r, r ∈ objects ∧ run_type r = REPORT_FULL_RUN
            ∧ (∀ r', r' ∈ objects → run_type r' = REPORT_FULL_RUN →
                     last_updated r' ≤ last_updated r)
            ∧ report_last_run objects = inr (last_run r))
  ∧ (∀ before partial after,
       run_type partial ≠ REPORT_FULL_RUN →
       report_last_run (before ++ partial :: after)
       = report_last_run (before ++ after)).

(** A nested representation that only names the kind and the key of its
    object; a database of one device; a policy assigned to that device, one
    whose device is gone, and one that is unassigned. *)
Definition kind_and_key : NestedSerializers (string * Z) :=
  {| NestedDeviceSerializer := λ d _, ("device", device_pk d);
     NestedDeviceTypeSerializer := λ t _, ("devicetype", device_type_pk t);
     NestedInventoryItemSerializer :=
       λ i _, ("inventoryitem", inventory_item_pk i) |}.

Definition one_switch : Database :=
  mkDatabase {[ 1 := switch ]} ∅ ∅.

Definition policy_for (ct : option ContentType) (pk : option Z) :
    ValidatedSoftwareLCM :=
  mkValidatedSoftwareLCM 7 ct pk 1700000000 None true.

Definition api_context : gmap string HttpRequest :=
  {[ "request" := no_request ]}.

(** ** What the charts show *)

(** The string a plot function returns for a figure: its PNG stream in
    base64, URL-escaped. *)
Definition image {mpl : Matplotlib} (fig : list Artist) : PyVal :=
  VStr (quote (b64encode (savefig_png fig))).

(** The bar chart of a breakdown: three series over the rows, the axis
    label, the title, and one tick label per row. *)
Definition breakdown_figure (ylabel title : string) (rows : list Tally) :
    list Artist :=
  [Bar "Valid" ((λ t, VInt (valid t)) <$> rows);
   Bar "Invalid" ((λ t, VInt (invalid t)) <$> rows);
   Bar "No Software" ((λ t, VInt (no_software t)) <$> rows);
   YLabel ylabel;
   Title (VStr title);
   XTickLabels ((λ t, from_option VStr VNone (group t)) <$> rows)].

(** The pie chart of a global tally. *)
Definition tally_figure {S E} (expression : ValidationResult S → option E)
    (name : string) (rows : list (ValidationResult S)) : list Artist :=
  [Pie [VInt (Count expression (Some q_valid) rows);
        VInt (Count expression (Some q_invalid) rows);
        VInt (Count expression (Some q_no_software) rows)]
       ["Valid"; "Invalid"; "No Software"];
   Title (VStr name)].

(** A call that went from [st] to [st'] left the dicts alone and either
    left pyplot's figures as they were or registered one more. *)
Definition registers_at_most_one_figure (st st' : State) : Prop :=
  heap st' = heap st
  ∧ (figures st' = figures st ∨ ∃ fig, figures st' = fig :: figures st).

(** The outcome of a plot call: [None] with the state untouched, or the
    image of the figure the call registered; after an exception at most one
    figure was registered. *)
Definition plot_outcome {mpl : Matplotlib} (st : State)
    (out : (exn + PyVal) * State) : Prop :=
  registers_at_most_one_figure st out.2
  ∧ match out.1 with
    | inr VNone => out.2 = st
    | inr v => ∃ fig, figures out.2 = fig :: figures st ∧ v = image fig
    | inl _ => True
    end.

(** A plotting library none of whose drawing calls raises. *)
Definition draws_everything (mpl : Matplotlib) : Prop :=
  ∀ a, draw_error a = None.

(** How often a row, or a part id, occurs in a list. *)
Definition occurrences `{EqDecision A} (x : A) (l : list A) : nat :=
  length (List.filter (λ y, bool_decide (y = x)) l).

(** The characters of an embedded image: letters, digits, [/] and the [%]
    of an escape. *)
Definition image_char (c : ascii) : bool :=
  let n := Z.of_N (N_of_ascii c) in
  ((65 <=? n) && (n <=? 90)) || ((97 <=? n) && (n <=? 122))
  || ((48 <=? n) && (n <=? 57)) || (n =? 47) || (n =? 37).

(** * Properties *)

(** ** Counting *)

Lemma count_rows_cons {A} (p : A → bool) x l :
  count_rows p (x :: l) = (if p x then 1 else 0) + count_rows p l.
Proof.
  unfold count_rows. simpl. destruct (p x); simpl; lia.
Qed.

Lemma count_rows_nil {A} (p : A → bool) : count_rows p [] = 0.
Proof. reflexivity. Qed.

Lemma count_rows_nonneg {A} (p : A → bool) l : 0 ≤ count_rows p l.
Proof. unfold count_rows. lia. Qed.

Lemma count_rows_ext {A} (p q : A → bool) l :
  (∀ x, x ∈ l → p x = q x) → count_rows p l = count_rows q l.
Proof.
  induction l as [|x l IH]; intros Hpq; [done|].
  rewrite !count_rows_cons, IH, (Hpq x).
  - done.
  - left.
  - intros y Hy. apply Hpq. by right.
Qed.

Lemma count_rows_le {A} (p q : A → bool) l :
  (∀ x, p x = true → q x = true) → count_rows p l ≤ count_rows q l.
Proof.
  intros Hpq. induction l as [|x l IH]; [done|].
  rewrite !count_rows_cons. specialize (Hpq x).
  destruct (p x), (q x); lia.
Qed.

Lemma count_rows_pos {A} (p : A → bool) l x :
  x ∈ l → p x = true → 0 < count_rows p l.
Proof.
  induction 1 as [x l|x y l Hx IH]; intros Hp; rewrite count_rows_cons.
  - rewrite Hp. pose proof (count_rows_nonneg p l). lia.
  - specialize (IH Hp). destruct (p y); lia.
Qed.

Section count_facts.
Context {S E : Type} (expression : ValidationResult S → option E).

(** With [&], the [invalid] count is the spec's count on the rows where
    the counted expression is not NULL. *)
Lemma Count_invalid rows :
  Count expression (Some q_invalid) rows
  = count_rows (λ r, bool_decide (is_Some (expression r)) && is_invalid r)
               rows.
Proof.
  unfold Count. apply count_rows_ext. intros r _. unfold is_invalid. cbn.
  destruct (expression r), (is_validated r), (software r); done.
Qed.

Lemma Count_valid rows :
  Count expression (Some q_valid) rows
  = count_rows (λ r, bool_decide (is_Some (expression r)) && is_valid r)
               rows.
Proof.
  unfold Count. apply count_rows_ext. intros r _. unfold is_valid. cbn.
  destruct (expression r), (is_validated r); done.
Qed.

Lemma Count_no_software rows :
  Count expression (Some q_no_software) rows
  = count_rows (λ r, bool_decide (is_Some (expression r))
                     && has_no_software r) rows.
Proof.
  unfold Count. apply count_rows_ext. intros r _. unfold has_no_software.
  cbn. destruct (expression r), (software r); done.
Qed.

Lemma Count_total rows :
  Count expression None rows
  = count_rows (λ r, bool_decide (is_Some (expression r))) rows.
Proof.
  unfold Count. apply count_rows_ext. intros r _.
  destruct (expression r); done.
Qed.

(** The three filtered counts partition the total on well-formed rows. *)
Lemma Count_partition rows :
  Forall well_formed rows →
  Count expression (Some q_valid) rows
  + Count expression (Some q_invalid) rows
  + Count expression (Some q_no_software) rows
  = Count expression None rows.
Proof.
  unfold Count. induction 1 as [|r rows Hr _ IH]; [done|].
  rewrite !count_rows_cons, <- IH. unfold well_formed in Hr. cbn.
  destruct (expression r); simpl; [|lia].
  destruct (is_validated r) eqn:Hv, (software r) eqn:Hs; simpl; try lia.
  by destruct Hr.
Qed.

Lemma Count_valid_le_total rows :
  Count expression (Some q_valid) rows ≤ Count expression None rows.
Proof.
  unfold Count. apply count_rows_le. intros r. cbn.
  by destruct (expression r).
Qed.

Lemma Count_nonneg q rows : 0 ≤ Count expression q rows.
Proof. apply count_rows_nonneg. Qed.
End count_facts.

(** ** Grouping *)

Section grouping.
Context {S : Type} (key : ValidationResult S → option string).

Lemma elem_of_group_rows r k rows :
  r ∈ group_rows key k rows ↔ r ∈ rows ∧ key r = k.
Proof.
  unfold group_rows. rewrite !list_elem_of_In, filter_In.
  by rewrite bool_decide_eq_true.
Qed.

Lemma group_rows_well_formed k rows :
  Forall well_formed rows → Forall well_formed (group_rows key k rows).
Proof.
  rewrite !Forall_forall. intros Hwf r Hr.
  apply Hwf. by apply elem_of_group_rows in Hr as [? _].
Qed.

Lemma elem_of_values_annotate t qv qi qn rows :
  t ∈ values_annotate key qv qi qn rows ↔
  ∃ k, k ∈ key <$> rows ∧
       t = mkTally k (Count key None (group_rows key k rows))
                   (Count key (Some qv) (group_rows key k rows))
                   (Count key (Some qi) (group_rows key k rows))
                   (Count key (Some qn) (group_rows key k rows)).
Proof.
  unfold values_annotate. rewrite list_elem_of_fmap.
  split; intros (k & H1 & H2); exists k.
  - by rewrite elem_of_remove_dups in H2.
  - by rewrite elem_of_remove_dups.
Qed.

(** A group whose key is not NULL has a positive total. *)
Lemma group_total_pos k rows :
  k ∈ key <$> rows → k ≠ None →
  0 < Count key None (group_rows key k rows).
Proof.
  intros (r & -> & Hr)%list_elem_of_fmap Hk.
  unfold Count. apply count_rows_pos with r.
  - by apply elem_of_group_rows.
  - cbn. by destruct (key r).
Qed.

(** In a group whose key is not NULL, the counted expression is not NULL
    on any row. *)
Lemma group_count_rows p k rows :
  k ≠ None →
  count_rows (λ r, bool_decide (is_Some (key r)) && p r)
             (group_rows key k rows)
  = count_rows p (group_rows key k rows).
Proof.
  intros Hk. apply count_rows_ext. intros r [_ <-]%elem_of_group_rows.
  destruct (key r); [|done]. rewrite bool_decide_true; [done|by eexists].
Qed.
End grouping.

(** ** Ordering *)

Global Instance desc_total {A} (field : A → Z) : Total (desc field).
Proof. intros a b. unfold desc. lia. Qed.

Global Instance desc_trans {A} (field : A → Z) : Transitive (desc field).
Proof. intros a b c. unfold desc. lia. Qed.

Lemma order_by_desc_sorted {A} (field : A → Z) rows :
  StronglySorted (desc field) (order_by_desc field rows).
Proof. apply StronglySorted_merge_sort; apply _. Qed.

Lemma order_by_desc_perm {A} (field : A → Z) rows :
  order_by_desc field rows ≡ₚ rows.
Proof. apply merge_sort_Permutation. Qed.

Lemma elem_of_order_by_desc {A} (field : A → Z) rows x :
  x ∈ order_by_desc field rows ↔ x ∈ rows.
Proof. by rewrite order_by_desc_perm. Qed.

Lemma latest_spec {A} (field : A → Z) rows :
  match latest field rows with
  | inl e => e = DoesNotExist ∧ rows = []
  | inr r => r ∈ rows ∧ ∀ r', r' ∈ rows → field r' ≤ field r
  end.
Proof.
  unfold latest.
  pose proof (order_by_desc_sorted field rows) as Hs.
  pose proof (order_by_desc_perm field rows) as Hp.
  destruct (order_by_desc field rows) as [|r l].
  - split; [done|]. by apply Permutation_nil.
  - apply StronglySorted_cons in Hs as [Hr _]. split.
    + rewrite <- Hp. left.
    + intros r'. rewrite <- Hp. intros [->|Hin]%elem_of_cons.
      * lia.
      * rewrite Forall_forall in Hr. apply (Hr r' Hin).
Qed.

(** ** Row-by-row evaluation *)

Lemma traverse_inr {A B} (f : A → exn + B) l ys :
  traverse f l = inr ys → Forall2 (λ x y, f x = inr y) l ys.
Proof.
  revert ys. induction l as [|x l IH]; intros ys; simpl.
  - intros [= <-]. constructor.
  - destruct (f x) as [e|y] eqn:Hx; [done|].
    destruct (traverse f l) as [e|ys'] eqn:Hl; [done|].
    intros [= <-]. constructor; [done|]. by apply IH.
Qed.

Lemma traverse_total {A B} (f : A → exn + B) l :
  (∀ x, x ∈ l → ∃ y, f x = inr y) → ∃ ys, traverse f l = inr ys.
Proof.
  induction l as [|x l IH]; intros Hf; simpl; [by eexists|].
  destruct (Hf x) as [y ->]; [left|].
  destruct IH as [ys ->]; [|by eexists].
  intros z Hz. apply Hf. by right.
Qed.

(** The shape of both report-table query sets: grouped on a column that is
    never NULL, the query succeeds; every row carries the counts of its
    group, a positive total and the truncated integer percentage; the rows
    come in descending order of that percentage. *)
Lemma report_rows_spec {S} (key : ValidationResult S → option string)
    qv qi qn objects :
  (∀ r, key r ≠ None) →
  ∃ rows,
    match traverse annotate_valid_percent
            (values_annotate key qv qi qn objects) with
    | inl e => inl e
    | inr rows => inr (order_by_desc valid_percent rows)
    end = inr rows
    ∧ StronglySorted (desc valid_percent) rows
    ∧ ∀ r, r ∈ rows →
        counts r ∈ values_annotate key qv qi qn objects
        ∧ 0 < total r
        ∧ valid_percent r = (100 * valid r) ÷ total r.
Proof.
  intros Hkey.
  destruct (traverse_total annotate_valid_percent
              (values_annotate key qv qi qn objects)) as [rows Hrows].
  { intros t (k & Hk & ->)%elem_of_values_annotate.
    unfold annotate_valid_percent. simpl.
    assert (0 < Count key None (group_rows key k objects)) as Hpos.
    { apply group_total_pos; [done|].
      apply list_elem_of_fmap in Hk as (r & -> & _). apply Hkey. }
    destruct (Z.eqb_spec (Count key None (group_rows key k objects)) 0);
      [lia|by eexists]. }
  rewrite Hrows. eexists. split; [done|].
  split; [apply order_by_desc_sorted|].
  intros r Hr%elem_of_order_by_desc.
  apply traverse_inr in Hrows.
  apply list_elem_of_lookup in Hr as [i Hi].
  destruct (Forall2_lookup_r _ _ _ _ _ Hrows Hi) as (t & Ht & Hf).
  unfold annotate_valid_percent in Hf.
  destruct (Z.eqb_spec (total t) 0) as [|Hne]; [done|].
  injection Hf as <-. simpl. split; [|split; [|done]].
  - apply list_elem_of_lookup. by exists i.
  - apply list_elem_of_lookup_2 in Ht.
    apply elem_of_values_annotate in Ht as (k & _ & ->). simpl in *.
    pose proof (Count_nonneg key None (group_rows key k objects)). lia.
Qed.

(** ** The percentage *)

Lemma float_overflow_threshold_gt_1 : 1 < float_overflow_threshold.
Proof. by vm_compute. Qed.

Lemma py_truediv_int v t :
  t ≠ 0 → Z.abs v < float_overflow_threshold * Z.abs t →
  py_truediv (VInt v) (VInt t) = inr (int_div_float v t).
Proof.
  intros Ht Hv. simpl.
  destruct (Z.eqb_spec t 0); [done|].
  destruct (Z.leb_spec (float_overflow_threshold * Z.abs t) (Z.abs v));
    [lia|done].
Qed.

Lemma counts_fit_float v t : 0 ≤ v → v ≤ t → quotient_fits_float v t.
Proof.
  intros Hv Hvt Ht. pose proof float_overflow_threshold_gt_1. nia.
Qed.

Lemma calculate_aggr_percentage_int st aggr d v t :
  heap st !! aggr = Some d →
  d !! "valid" = Some (VInt v) →
  d !! "total" = Some (VInt t) →
  quotient_fits_float v t →
  ReportOverviewHelper.calculate_aggr_percentage aggr st
  = (inr aggr,
     mkState (<[aggr := <["valid_percent" := percentage v t]> d]> (heap st))
             (figures st)).
Proof.
  intros Hd Hv Ht Hfit.
  unfold ReportOverviewHelper.calculate_aggr_percentage, percentage.
  unfold bind, try_except, getitem, setitem, lift, ret.
  rewrite Hd. cbn [mbind option_bind]. rewrite Hv. cbn beta iota.
  rewrite Hd. cbn [mbind option_bind]. rewrite Ht. cbn beta iota.
  destruct (Z.eqb_spec t 0) as [->|Hne].
  - cbn. by rewrite Hd.
  - rewrite (py_truediv_int v t Hne (Hfit Hne)). cbn. by rewrite Hd.
Qed.

(** ** The global tally *)

Lemma run_global_aggr_spec {S E} (expression : ValidationResult S → option E)
    name rows st :
  ∃ aggr st',
    run_global_aggr expression name rows st = (inr aggr, st')
    ∧ heap st !! aggr = None
    ∧ heap st' !! aggr = Some (global_tally expression name rows)
    ∧ figures st' = figures st
    ∧ ∀ r, is_Some (heap st !! r) → heap st' !! r = heap st !! r.
Proof.
  unfold run_global_aggr, bind, new_dict, ret. cbn [heap figures].
  set (r1 := fresh (dom (heap st))).
  set (h1 := <[r1 := ∅]> (heap st)).
  set (r2 := fresh (dom h1)).
  set (agg := aggregate expression q_valid q_invalid q_no_software rows).
  assert (heap st !! r1 = None) as Hr1.
  { apply not_elem_of_dom, is_fresh. }
  assert (h1 !! r2 = None) as Hr2.
  { apply not_elem_of_dom, is_fresh. }
  assert (heap st !! r2 = None ∧ r1 ≠ r2) as [Hr2' Hne].
  { unfold h1 in Hr2. apply lookup_insert_None in Hr2 as [? ?]. done. }
  unfold setitem. cbn [heap figures]. rewrite lookup_insert_eq. cbn [default].
  set (st2 := mkState _ _).
  pose proof (calculate_aggr_percentage_int st2 r2
                (<["name" := VStr name]> agg)
                (Count expression (Some q_valid) rows)
                (Count expression None rows)) as Hcalc.
  rewrite Hcalc; clear Hcalc.
  - subst st2. eexists _, _. split; [done|]. cbn [heap figures].
    split; [done|].
    split; [by rewrite lookup_insert_eq|]. split; [done|].
    intros r [d Hd].
    assert (r1 ≠ r) by congruence. assert (r2 ≠ r) by congruence.
    unfold h1. rewrite !lookup_insert_ne by done. done.
  - subst st2. cbn [heap]. by rewrite lookup_insert_eq.
  - done.
  - done.
  - apply counts_fit_float.
    + apply Count_nonneg.
    + apply Count_valid_le_total.
Qed.

Lemma device_get_global_aggr_unfold f request objects :
  ValidatedSoftwareDeviceReportView.get_global_aggr (Some f) request objects
  = run_global_aggr ValidatedSoftwareDeviceReportView.device "Devices"
      (List.filter (f (GET request)) objects).
Proof. reflexivity. Qed.

Lemma inventory_get_global_aggr_unfold f request objects :
  ValidatedSoftwareInventoryItemReportView.get_global_aggr (Some f) request
    objects
  = run_global_aggr ValidatedSoftwareInventoryItemReportView.inventory_item
      "Inventory Items" (List.filter (f (GET request)) objects).
Proof. reflexivity. Qed.

Lemma global_tally_lookup {S E} (expression : ValidationResult S → option E)
    name rows :
  let d := global_tally expression name rows in
  d !! "total" = Some (VInt (Count expression None rows))
  ∧ d !! "valid" = Some (VInt (Count expression (Some q_valid) rows))
  ∧ d !! "invalid" = Some (VInt (Count expression (Some q_invalid) rows))
  ∧ d !! "no_software"
    = Some (VInt (Count expression (Some q_no_software) rows))
  ∧ d !! "name" = Some (VStr name)
  ∧ d !! "valid_percent"
    = Some (percentage (Count expression (Some q_valid) rows)
                       (Count expression None rows)).
Proof. done. Qed.

(** ** The counts of the tallies *)

(** Every row of a report-table query set carries the counts of its group;
    [invalid] is whatever its filter selects. *)
Lemma report_rows_counts {S} (key : ValidationResult S → option string)
    qi objects rows (r : ReportRow) :
  (∀ x, key x ≠ None) →
  match traverse annotate_valid_percent
          (values_annotate key q_valid qi q_no_software objects) with
  | inl e => inl e
  | inr rows => inr (order_by_desc valid_percent rows)
  end = inr rows →
  r ∈ rows →
  ∃ name,
    group r = Some name
    ∧ total r = count_rows (λ _, true) (group_rows key (Some name) objects)
    ∧ valid r = count_rows is_valid (group_rows key (Some name) objects)
    ∧ invalid r = Count key (Some qi) (group_rows key (Some name) objects)
    ∧ no_software r
      = count_rows has_no_software (group_rows key (Some name) objects).
Proof.
  intros Hkey Hq Hr.
  destruct (report_rows_spec key q_valid qi q_no_software objects Hkey)
    as (rows' & Hq' & _ & Hrows).
  rewrite Hq in Hq'. injection Hq' as <-.
  destruct (Hrows r Hr) as ((k & Hk & Hc)%elem_of_values_annotate & _ & _).
  apply list_elem_of_fmap in Hk as (x & -> & _).
  destruct (key x) as [name|] eqn:Hx; [|by destruct (Hkey x)].
  exists name. rewrite Hc. cbn [group total valid invalid no_software].
  split; [done|].
  rewrite Count_total, Count_valid, Count_no_software.
  rewrite <- (group_count_rows key is_valid), <- (group_count_rows key has_no_software)
    by done.
  rewrite <- (group_count_rows key (λ _, true)) by done.
  split; [|done].
  apply count_rows_ext. intros y _. by rewrite andb_true_r.
Qed.

(** In the device report query set the [invalid] filter is written with
    Python's [and]; it is the second operand alone, so [invalid] counts
    every row with software, validated or not. *)
Lemma device_queryset_invalid objects :
  ∃ rows,
    ValidatedSoftwareDeviceReportView.queryset objects = inr rows
    ∧ ∀ r : ReportRow, r ∈ rows →
        ∃ name,
          group r = Some name
          ∧ invalid r
            = count_rows (λ x, bool_decide (software x ≠ None))
                (group_rows
                   ValidatedSoftwareDeviceReportView.device__device_type__model
                   (Some name) objects).
Proof.
  destruct (report_rows_spec
              ValidatedSoftwareDeviceReportView.device__device_type__model
              q_valid (py_and (Q_is_validated false) (Q_not Q_software_None))
              q_no_software objects) as (rows & Hq & _); [done|].
  exists rows. split; [done|]. intros r Hr.
  destruct (report_rows_counts
              ValidatedSoftwareDeviceReportView.device__device_type__model
              (py_and (Q_is_validated false) (Q_not Q_software_None))
              objects rows r) as (name & Hg & _ & _ & Hi & _); [done..|].
  exists name. split; [done|]. rewrite Hi.
  unfold Count. apply count_rows_ext. intros x _. cbn.
  by destruct (software x).
Qed.

(** C1, at the failing input: for one validated device with software, the
    device report query set yields a row whose [invalid] is 1, although no
    row has [is_validated] false and non-null software. *)
Theorem device_queryset_counts_validated_row_as_invalid :
  ValidatedSoftwareDeviceReportView.queryset [validated_switch]
  = inr [mkReportRow (mkTally (Some "C9300") 1 1 1 0) 100]
  ∧ count_rows is_invalid [validated_switch] = 0.
Proof. by vm_compute. Qed.

(** C2, at the failing input: in that row the three counts add up to 2
    while [total] is 1, on a well-formed validation result. *)
Theorem device_queryset_counts_exceed_total :
  well_formed validated_switch
  ∧ ∃ r, ValidatedSoftwareDeviceReportView.queryset [validated_switch] = inr [r]
         ∧ valid r + invalid r + no_software r = 2
         ∧ total r = 1.
Proof.
  split; [done|]. eexists. split; [by vm_compute|]. done.
Qed.

(** Where the filter is written with [&], [invalid] is the count of the
    rows with [is_validated] false and non-null software: in both global
    tallies (over the rows the filter set lets through) and in every row of
    the inventory-item report query set (over the rows of its group). *)
Theorem invalid_counts_unvalidated_rows_with_software :
  (∀ f request objects st,
     ∃ aggr st' d,
       ValidatedSoftwareDeviceReportView.get_global_aggr (Some f) request
         objects st = (inr aggr, st')
       ∧ heap st' !! aggr = Some d
       ∧ d !! "invalid"
         = Some (VInt (count_rows is_invalid
                         (List.filter (f (GET request)) objects))))
  ∧ (∀ f request objects st,
       ∃ aggr st' d,
         ValidatedSoftwareInventoryItemReportView.get_global_aggr (Some f)
           request objects st = (inr aggr, st')
         ∧ heap st' !! aggr = Some d
         ∧ d !! "invalid"
           = Some (VInt (count_rows is_invalid
                           (List.filter (f (GET request)) objects))))
  ∧ (∀ objects,
       ∃ rows,
         ValidatedSoftwareInventoryItemReportView.queryset objects = inr rows
         ∧ ∀ r : ReportRow, r ∈ rows →
             ∃ name,
               group r = Some name
               ∧ invalid r
                 = count_rows is_invalid
                     (group_rows
                        ValidatedSoftwareInventoryItemReportView.inventory_item__name
                        (Some name) objects)).
Proof.
  split; [|split].
  - intros f request objects st.
    rewrite device_get_global_aggr_unfold.
    destruct (run_global_aggr_spec ValidatedSoftwareDeviceReportView.device
                "Devices" (List.filter (f (GET request)) objects) st)
      as (aggr & st' & Hrun & _ & Hd & _).
    eexists aggr, st', _. split; [done|]. split; [done|].
    destruct (global_tally_lookup ValidatedSoftwareDeviceReportView.device
                "Devices" (List.filter (f (GET request)) objects))
      as (_ & _ & -> & _).
    rewrite Count_invalid. do 2 f_equal; by apply count_rows_ext.
  - intros f request objects st.
    rewrite inventory_get_global_aggr_unfold.
    destruct (run_global_aggr_spec
                ValidatedSoftwareInventoryItemReportView.inventory_item
                "Inventory Items" (List.filter (f (GET request)) objects) st)
      as (aggr & st' & Hrun & _ & Hd & _).
    eexists aggr, st', _. split; [done|]. split; [done|].
    destruct (global_tally_lookup
                ValidatedSoftwareInventoryItemReportView.inventory_item
                "Inventory Items" (List.filter (f (GET request)) objects))
      as (_ & _ & -> & _).
    rewrite Count_invalid. do 2 f_equal; by apply count_rows_ext.
  - intros objects.
    destruct (report_rows_spec
                ValidatedSoftwareInventoryItemReportView.inventory_item__name
                q_valid q_invalid q_no_software objects) as (rows & Hq & _);
      [done|].
    exists rows. split; [done|]. intros r Hr.
    destruct (report_rows_counts
                ValidatedSoftwareInventoryItemReportView.inventory_item__name
                q_invalid objects rows r) as (name & Hg & _ & _ & Hi & _);
      [done..|].
    exists name. split; [done|].
    by rewrite Hi, Count_invalid, group_count_rows.
Qed.

Lemma filter_well_formed {S} (p : ValidationResult S → bool) rows :
  Forall well_formed rows → Forall well_formed (List.filter p rows).
Proof.
  rewrite !Forall_forall. intros Hwf r Hr. apply Hwf.
  apply list_elem_of_In, filter_In in Hr as [Hr _]. by apply list_elem_of_In.
Qed.

Lemma values_annotate_partitions {S} (key : ValidationResult S → option string)
    rows :
  Forall well_formed rows →
  Forall partitions (values_annotate key q_valid q_invalid q_no_software rows).
Proof.
  intros Hwf. apply Forall_forall.
  intros t (k & _ & ->)%elem_of_values_annotate.
  apply Count_partition. by apply group_rows_well_formed.
Qed.

Lemma global_tally_partitions {S E} (expression : ValidationResult S → option E)
    name rows :
  Forall well_formed rows → dict_partitions (global_tally expression name rows).
Proof.
  intros Hwf.
  destruct (global_tally_lookup expression name rows)
    as (Ht & Hv & Hi & Hn & _).
  eexists _, _, _, _. repeat (split; [done|]). by apply Count_partition.
Qed.

(** Where the filter is written with [&], the three counts partition the
    total on well-formed validation results: in both global tallies, in
    every row of the per-platform and per-manufacturer breakdowns, and in
    every row of the inventory-item report query set. *)
Theorem counts_partition_total :
  (∀ f request objects st,
     Forall well_formed objects →
     ∃ aggr st' d,
       ValidatedSoftwareDeviceReportView.get_global_aggr (Some f) request
         objects st = (inr aggr, st')
       ∧ heap st' !! aggr = Some d ∧ dict_partitions d)
  ∧ (∀ f request objects st,
       Forall well_formed objects →
       ∃ aggr st' d,
         ValidatedSoftwareInventoryItemReportView.get_global_aggr (Some f)
           request objects st = (inr aggr, st')
         ∧ heap st' !! aggr = Some d ∧ dict_partitions d)
  ∧ (∀ f request objects,
       Forall well_formed objects →
       ∃ rows,
         ValidatedSoftwareDeviceReportView.platform_qs (Some f) request objects
         = inr rows ∧ Forall partitions rows)
  ∧ (∀ f request objects,
       Forall well_formed objects →
       ∃ rows,
         ValidatedSoftwareInventoryItemReportView.platform_qs (Some f) request
           objects = inr rows ∧ Forall partitions rows)
  ∧ (∀ objects,
       Forall well_formed objects →
       ∃ rows,
         ValidatedSoftwareInventoryItemReportView.queryset objects = inr rows
         ∧ Forall (λ r : ReportRow, partitions r) rows).
Proof.
  repeat split.
  - intros f request objects st Hwf.
    rewrite device_get_global_aggr_unfold.
    destruct (run_global_aggr_spec ValidatedSoftwareDeviceReportView.device
                "Devices" (List.filter (f (GET request)) objects) st)
      as (aggr & st' & Hrun & _ & Hd & _).
    eexists aggr, st', _. split; [done|]. split; [done|].
    by apply global_tally_partitions, filter_well_formed.
  - intros f request objects st Hwf.
    rewrite inventory_get_global_aggr_unfold.
    destruct (run_global_aggr_spec
                ValidatedSoftwareInventoryItemReportView.inventory_item
                "Inventory Items" (List.filter (f (GET request)) objects) st)
      as (aggr & st' & Hrun & _ & Hd & _).
    eexists aggr, st', _. split; [done|]. split; [done|].
    by apply global_tally_partitions, filter_well_formed.
  - intros f request objects Hwf. eexists. split; [done|].
    apply Forall_forall. intros t Ht%elem_of_order_by_desc. revert t Ht.
    apply Forall_forall, values_annotate_partitions.
    by apply filter_well_formed.
  - intros f request objects Hwf. eexists. split; [done|].
    apply Forall_forall. intros t Ht%elem_of_order_by_desc. revert t Ht.
    apply Forall_forall, values_annotate_partitions.
    by apply filter_well_formed.
  - intros objects Hwf.
    destruct (report_rows_spec
                ValidatedSoftwareInventoryItemReportView.inventory_item__name
                q_valid q_invalid q_no_software objects)
      as (rows & Hq & _ & Hrows); [done|].
    exists rows. split; [done|]. apply Forall_forall. intros r Hr.
    destruct (Hrows r Hr) as (Hin & _). revert Hin.
    generalize (counts r). apply Forall_forall.
    by apply values_annotate_partitions.
Qed.

(** ** The percentage of the tallies *)

(** C3, as stated, fails on the report table: for three inventory items of
    one name of which one is valid, the row's [valid_percent] is the float
    of the integer quotient 33, not [round(1 / 3 * 100, 2)]. *)
Lemma report_valid_percent_is_not_the_rounded_quotient :
  ∃ r : ReportRow,
    ValidatedSoftwareInventoryItemReportView.queryset three_sfps = inr [r]
    ∧ total r = 3 ∧ valid r = 1 ∧ valid_percent r = 33
    ∧ FloatField_value (valid_percent r)
      ≠ VFloat (py_round (PrimFloat.mul (int_div_float (valid r) (total r))
                                        100%float) 2).
Proof.
  eexists. split; [by vm_compute|]. repeat (split; [done|]).
  intros H.
  apply (f_equal (λ v, match v with VFloat x => Prim2SF x | _ => S754_nan end))
    in H.
  vm_compute in H. discriminate.
Qed.

(** C3, amended: in both global tallies [valid_percent] is Python's
    [round(valid / total * 100, 2)], evaluated in binary64, whenever
    [total > 0]; in every row of both report-table query sets [total] is
    positive and [valid_percent] is the integer quotient
    [100 * valid / total] the database computes. *)
Theorem valid_percent_of_tallies :
  (∀ f request objects st,
     ∃ aggr st' d v t,
       ValidatedSoftwareDeviceReportView.get_global_aggr (Some f) request
         objects st = (inr aggr, st')
       ∧ heap st' !! aggr = Some d
       ∧ d !! "valid" = Some (VInt v) ∧ d !! "total" = Some (VInt t)
       ∧ v = count_rows is_valid (List.filter (f (GET request)) objects)
       ∧ t = count_rows (λ _, true) (List.filter (f (GET request)) objects)
       ∧ (0 < t →
          d !! "valid_percent"
          = Some (VFloat (py_round (PrimFloat.mul (int_div_float v t)
                                                  100%float) 2))))
  ∧ (∀ f request objects st,
       ∃ aggr st' d v t,
         ValidatedSoftwareInventoryItemReportView.get_global_aggr (Some f)
           request objects st = (inr aggr, st')
         ∧ heap st' !! aggr = Some d
         ∧ d !! "valid" = Some (VInt v) ∧ d !! "total" = Some (VInt t)
         ∧ v = count_rows is_valid (List.filter (f (GET request)) objects)
         ∧ t = count_rows (λ _, true) (List.filter (f (GET request)) objects)
         ∧ (0 < t →
            d !! "valid_percent"
            = Some (VFloat (py_round (PrimFloat.mul (int_div_float v t)
                                                    100%float) 2))))
  ∧ (∀ objects,
       ∃ rows,
         ValidatedSoftwareDeviceReportView.queryset objects = inr rows
         ∧ ∀ r : ReportRow, r ∈ rows →
             0 < total r ∧ valid_percent r = (100 * valid r) ÷ total r)
  ∧ (∀ objects,
       ∃ rows,
         ValidatedSoftwareInventoryItemReportView.queryset objects = inr rows
         ∧ ∀ r : ReportRow, r ∈ rows →
             0 < total r ∧ valid_percent r = (100 * valid r) ÷ total r).
Proof.
  assert (∀ S E (expression : ValidationResult S → option E) name rows st,
            (∀ r, expression r ≠ None) →
            ∃ aggr st' d v t,
              run_global_aggr expression name rows st = (inr aggr, st')
              ∧ heap st' !! aggr = Some d
              ∧ d !! "valid" = Some (VInt v) ∧ d !! "total" = Some (VInt t)
              ∧ v = count_rows is_valid rows
              ∧ t = count_rows (λ _, true) rows
              ∧ (0 < t →
                 d !! "valid_percent"
                 = Some (VFloat (py_round (PrimFloat.mul (int_div_float v t)
                                                         100%float) 2))))
    as Hglobal.
  { intros S E expression name rows st Hexpr.
    destruct (run_global_aggr_spec expression name rows st)
      as (aggr & st' & Hrun & _ & Hd & _).
    destruct (global_tally_lookup expression name rows)
      as (Ht & Hv & _ & _ & _ & Hp).
    eexists aggr, st', _, _, _. repeat (split; [done|]).
    split; [|split].
    - rewrite Count_valid. apply count_rows_ext. intros r _.
      destruct (expression r) eqn:Hr; [done|by destruct (Hexpr r)].
    - rewrite Count_total. apply count_rows_ext. intros r _.
      destruct (expression r) eqn:Hr; [done|by destruct (Hexpr r)].
    - intros Hpos. rewrite Hp. unfold percentage.
      destruct (Z.eqb_spec (Count expression None rows) 0); [lia|done]. }
  split; [|split; [|split]].
  - intros f request objects st. rewrite device_get_global_aggr_unfold.
    by apply Hglobal.
  - intros f request objects st. rewrite inventory_get_global_aggr_unfold.
    by apply Hglobal.
  - intros objects.
    destruct (report_rows_spec
                ValidatedSoftwareDeviceReportView.device__device_type__model
                q_valid (py_and (Q_is_validated false) (Q_not Q_software_None))
                q_no_software objects) as (rows & Hq & _ & Hrows); [done|].
    exists rows. split; [done|]. intros r Hr.
    by destruct (Hrows r Hr) as (_ & ? & ?).
  - intros objects.
    destruct (report_rows_spec
                ValidatedSoftwareInventoryItemReportView.inventory_item__name
                q_valid q_invalid q_no_software objects)
      as (rows & Hq & _ & Hrows); [done|].
    exists rows. split; [done|]. intros r Hr.
    by destruct (Hrows r Hr) as (_ & ? & ?).
Qed.

(** At three inventory items of which one is valid, the global tally's
    [valid_percent] is the float nearest to 33.33. *)
Lemma valid_percent_of_tallies_witness :
  ∃ aggr st' d,
    ValidatedSoftwareInventoryItemReportView.get_global_aggr (Some all_rows)
      no_request three_sfps (mkState ∅ []) = (inr aggr, st')
    ∧ heap st' !! aggr = Some d
    ∧ d !! "valid" = Some (VInt 1) ∧ d !! "total" = Some (VInt 3)
    ∧ d !! "valid_percent" = Some (VFloat (int_div_float 3333 100)).
Proof.
  destruct valid_percent_of_tallies as (_ & Hinventory & _).
  destruct (Hinventory all_rows no_request three_sfps (mkState ∅ []))
    as (aggr & st' & d & v & t & Hrun & Hd & Hv & Ht & -> & -> & Hp).
  exists aggr, st', d. repeat (split; [assumption|]).
  rewrite Hp by (vm_compute; reflexivity). vm_compute. reflexivity.
Defined.

(** ** [calculate_aggr_percentage]: the zero total and the frame *)

Lemma setitem_frame aggr key v st :
  ∃ st', setitem aggr key v st = (inr (), st')
    ∧ figures st' = figures st
    ∧ (∀ other, other ≠ aggr → heap st' !! other = heap st !! other)
    ∧ (∀ k, k ≠ key →
         heap st' !! aggr ≫= (.!! k) = heap st !! aggr ≫= (.!! k)).
Proof.
  eexists. split; [done|]. cbn [heap figures]. split; [done|]. split.
  - intros other Hne. by rewrite lookup_insert_ne.
  - intros k Hne. rewrite lookup_insert_eq. cbn.
    rewrite lookup_insert_ne by done. by destruct (heap st !! aggr).
Qed.

(** Whatever the dict holds, a call changes nothing but the
    [valid_percent] entry of its argument, and what it returns is its
    argument. *)
Lemma calculate_aggr_percentage_changes_only_valid_percent st aggr :
  ∃ r st',
    ReportOverviewHelper.calculate_aggr_percentage aggr st = (r, st')
    ∧ figures st' = figures st
    ∧ (∀ x, r = inr x → x = aggr)
    ∧ (∀ other, other ≠ aggr → heap st' !! other = heap st !! other)
    ∧ (∀ k, k ≠ "valid_percent" →
         heap st' !! aggr ≫= (.!! k) = heap st !! aggr ≫= (.!! k)).
Proof.
  unfold ReportOverviewHelper.calculate_aggr_percentage.
  unfold bind, try_except, getitem, lift, ret.
  destruct (heap st !! aggr ≫= (.!! "valid")) as [v|];
    [|by eexists _, _].
  destruct (heap st !! aggr ≫= (.!! "total")) as [t|];
    [|by eexists _, _].
  destruct (py_truediv v t) as [e|q].
  - destruct e; try by eexists _, _.
    destruct (setitem_frame aggr "valid_percent" (VInt 0) st)
      as (st' & -> & ? & ? & ?).
    eexists _, _. split; [done|]. repeat split; try done. by intros x [= <-].
  - destruct (setitem_frame aggr "valid_percent"
                (VFloat (py_round (PrimFloat.mul q 100%float) 2)) st)
      as (st' & -> & ? & ? & ?).
    eexists _, _. split; [done|]. repeat split; try done. by intros x [= <-].
Qed.

(** C4: on a tally whose [total] is 0, [calculate_aggr_percentage] does not
    raise: it returns its argument, whose [valid_percent] is now the
    integer 0. *)
Theorem calculate_aggr_percentage_zero_total st aggr d v :
  heap st !! aggr = Some d →
  d !! "valid" = Some (VInt v) →
  d !! "total" = Some (VInt 0) →
  ReportOverviewHelper.calculate_aggr_percentage aggr st
  = (inr aggr,
     mkState (<[aggr := <["valid_percent" := VInt 0]> d]> (heap st))
             (figures st)).
Proof.
  intros Hd Hv Ht.
  apply (calculate_aggr_percentage_int st aggr d v 0); [done..|].
  by intros ?.
Qed.

(** At the all-zero tally. *)
Lemma calculate_aggr_percentage_zero_total_witness :
  ReportOverviewHelper.calculate_aggr_percentage 1 (one_tally zero_tally)
  = (inr 1%positive,
     mkState (<[1%positive := <["valid_percent" := VInt 0]> zero_tally]>
                (heap (one_tally zero_tally)))
             []).
Proof.
  apply (calculate_aggr_percentage_zero_total (one_tally zero_tally) 1
           zero_tally 0); reflexivity.
Defined.

(** The empty validation-result set: the global tally is all zero and its
    percentage is 0. *)
Lemma global_tally_of_no_rows {S E} (expression : ValidationResult S → option E)
    name :
  global_tally expression name []
  = <["valid_percent" := VInt 0]>
      (<["name" := VStr name]> (<["total" := VInt 0]> (<["valid" := VInt 0]>
         (<["invalid" := VInt 0]> (<["no_software" := VInt 0]> ∅))))).
Proof. reflexivity. Qed.

Lemma py_truediv_errors v t e :
  py_truediv v t = inl e →
  e = ZeroDivisionError ∨ e = TypeError ∨ e = OverflowError.
Proof.
  intros Hq.
  destruct v, t; unfold py_truediv in Hq;
    repeat match type of Hq with
           | (if ?c then _ else _) = _ => destruct c
           end;
    first [discriminate | injection Hq as <-; auto].
Qed.

(** A run that gets to the assignment. *)
Lemma calculate_aggr_percentage_sets st aggr d v t x :
  heap st !! aggr = Some d →
  d !! "valid" = Some v →
  d !! "total" = Some t →
  (py_truediv v t = inl ZeroDivisionError ∧ x = VInt 0
   ∨ ∃ q, py_truediv v t = inr q
          ∧ x = VFloat (py_round (PrimFloat.mul q 100%float) 2)) →
  ReportOverviewHelper.calculate_aggr_percentage aggr st
  = (inr aggr,
     mkState (<[aggr := <["valid_percent" := x]> d]> (heap st)) (figures st)).
Proof.
  intros Hd Hv Ht Hx.
  unfold ReportOverviewHelper.calculate_aggr_percentage.
  unfold bind, try_except, getitem, setitem, lift, ret.
  rewrite Hd. cbn [mbind option_bind]. rewrite Hv. cbn beta iota.
  rewrite Hd. cbn [mbind option_bind]. rewrite Ht. cbn beta iota.
  destruct Hx as [[-> ->]|(q & -> & ->)]; cbn; by rewrite Hd.
Qed.

(** C10, as stated, fails on inputs that contain [valid] and [total]. When
    [valid] is [None] the division raises [TypeError], which the [except]
    clause does not catch: nothing is returned and no key is added. When
    the dict already has a [valid_percent], the call adds no key and the
    pair [valid_percent: 0] of the input is not unchanged: it is
    overwritten. *)
Lemma calculate_aggr_percentage_raises_or_overwrites :
  none_tally !! "valid" = Some VNone
  ∧ none_tally !! "total" = Some (VInt 10)
  ∧ ReportOverviewHelper.calculate_aggr_percentage 1 (one_tally none_tally)
    = (inl TypeError, one_tally none_tally)
  ∧ stale_tally !! "valid" = Some (VInt 7)
  ∧ stale_tally !! "total" = Some (VInt 10)
  ∧ stale_tally !! "valid_percent" = Some (VInt 0)
  ∧ ∃ st' d',
      ReportOverviewHelper.calculate_aggr_percentage 1 (one_tally stale_tally)
      = (inr 1%positive, st')
      ∧ heap st' !! 1%positive = Some d'
      ∧ dom d' = dom stale_tally
      ∧ d' !! "valid_percent" = Some (VFloat 70%float).
Proof.
  split; [reflexivity|]. split; [reflexivity|]. split; [reflexivity|].
  split; [reflexivity|]. split; [reflexivity|]. split; [reflexivity|].
  eexists _, _. split.
  - apply (calculate_aggr_percentage_int (one_tally stale_tally) 1
             stale_tally 7 10); try reflexivity.
    apply counts_fit_float; lia.
  - cbn [heap one_tally]. split; [by rewrite lookup_insert_eq|]. split.
    + rewrite dom_insert_L. apply subseteq_union_1_L.
      apply singleton_subseteq_l, elem_of_dom. by eexists.
    + rewrite lookup_insert_eq. vm_compute. reflexivity.
Qed.

(** C10, amended: on every dict that contains [valid] and [total], the
    call either raises or returns, as the division [valid / total] does.
    When the division raises anything but [ZeroDivisionError] ([TypeError]
    on a value that is not a number, [OverflowError]), the exception
    propagates and nothing at all is changed. When the division yields a
    quotient or raises [ZeroDivisionError], the call returns the very dict
    it was given, updated in place: [valid_percent] is set, every other
    entry of the input is kept, and no other object changes; exactly the
    key [valid_percent] is added when the input had none, and no key is
    added (the entry is overwritten) when it had one. Integer [valid] and
    [total] whose quotient fits a float, as the counts of a tally are,
    always take the returning course. *)
Theorem calculate_aggr_percentage_adds_valid_percent st aggr d v t :
  heap st !! aggr = Some d →
  d !! "valid" = Some v →
  d !! "total" = Some t →
  (∀ e, py_truediv v t = inl e → e ≠ ZeroDivisionError →
        ReportOverviewHelper.calculate_aggr_percentage aggr st = (inl e, st))
  ∧ ((py_truediv v t = inl ZeroDivisionError ∨ ∃ q, py_truediv v t = inr q) →
     ∃ p st' d',
       ReportOverviewHelper.calculate_aggr_percentage aggr st = (inr aggr, st')
       ∧ heap st' !! aggr = Some d'
       ∧ d' = <["valid_percent" := p]> d
       ∧ dom d' = {["valid_percent"]} ∪ dom d
       ∧ (d !! "valid_percent" = None →
          ("valid_percent" ∉ dom d)
          ∧ ∀ k x, d !! k = Some x → d' !! k = Some x)
       ∧ (is_Some (d !! "valid_percent") → dom d' = dom d)
       ∧ (∀ k, k ≠ "valid_percent" → d' !! k = d !! k)
       ∧ (∀ other, other ≠ aggr → heap st' !! other = heap st !! other)
       ∧ figures st' = figures st)
  ∧ (∀ vi ti,
       v = VInt vi → t = VInt ti → quotient_fits_float vi ti →
       py_truediv v t = inl ZeroDivisionError ∨ ∃ q, py_truediv v t = inr q).
Proof.
  intros Hd Hv Ht. split; [|split].
  - intros e He Hne.
    unfold ReportOverviewHelper.calculate_aggr_percentage.
    unfold bind, try_except, getitem, lift.
    rewrite Hd. cbn [mbind option_bind]. rewrite Hv. cbn beta iota.
    rewrite Hd. cbn [mbind option_bind]. rewrite Ht. cbn beta iota.
    rewrite He. by destruct e.
  - intros Hdiv.
    assert (∃ p, py_truediv v t = inl ZeroDivisionError ∧ p = VInt 0
                 ∨ ∃ q, py_truediv v t = inr q
                        ∧ p = VFloat (py_round (PrimFloat.mul q 100%float) 2))
      as [p Hp].
    { destruct Hdiv as [Hzero|[q Hq]]; eexists; [by left|right; by eexists]. }
    exists p. eexists _, _.
    split; [by apply (calculate_aggr_percentage_sets st aggr d v t p)|].
    cbn [heap figures].
    split; [by rewrite lookup_insert_eq|]. split; [done|].
    split; [by rewrite dom_insert_L|].
    split; [|split; [|split; [|split; [|done]]]].
    + intros Hnew. split; [by apply not_elem_of_dom|].
      intros k x Hk. rewrite lookup_insert_ne; [done|]. congruence.
    + intros Hold. rewrite dom_insert_L. apply subseteq_union_1_L.
      by apply singleton_subseteq_l, elem_of_dom.
    + intros k Hk. by rewrite lookup_insert_ne.
    + intros other Hne. by rewrite lookup_insert_ne.
  - intros vi ti -> -> Hfit. destruct (decide (ti = 0)) as [->|Hne].
    + by left.
    + right. eexists. by apply py_truediv_int; [|apply Hfit].
Qed.

(** At the tally [{total: 10, valid: 7, invalid: 2, no_software: 1}]. *)
Lemma calculate_aggr_percentage_adds_valid_percent_witness :
  ∃ p st' d',
    ReportOverviewHelper.calculate_aggr_percentage 1 (one_tally ten_tally)
    = (inr 1%positive, st')
    ∧ heap st' !! 1%positive = Some d'
    ∧ d' = <["valid_percent" := p]> ten_tally
    ∧ dom d' = {["valid_percent"]} ∪ dom ten_tally
    ∧ ("valid_percent" ∉ dom ten_tally)
    ∧ (∀ k x, ten_tally !! k = Some x → d' !! k = Some x)
    ∧ (∀ k, k ≠ "valid_percent" → d' !! k = ten_tally !! k)
    ∧ (∀ other, other ≠ 1%positive →
         heap st' !! other = heap (one_tally ten_tally) !! other)
    ∧ figures st' = figures (one_tally ten_tally).
Proof.
  destruct (calculate_aggr_percentage_adds_valid_percent
              (one_tally ten_tally) 1 ten_tally (VInt 7) (VInt 10)
              eq_refl eq_refl eq_refl) as (_ & Hreturns & Hcounts).
  destruct (Hreturns (Hcounts 7 10 eq_refl eq_refl
                        (counts_fit_float 7 10 ltac:(lia) ltac:(lia))))
    as (p & st' & d' & Hrun & Hd' & Heq & Hdom & Hadded & _ & Hframe
        & Hother & Hfigures).
  destruct (Hadded eq_refl) as [Hnew Hkept].
  exists p, st', d'. repeat (split; [assumption|]). assumption.
Defined.

(** The specification's example: the tally [{total: 10, valid: 7,
    invalid: 2, no_software: 1}] gets [valid_percent] 70.0. *)
Lemma calculate_aggr_percentage_seven_of_ten :
  ∃ st',
    ReportOverviewHelper.calculate_aggr_percentage 1 (one_tally ten_tally)
    = (inr 1%positive, st')
    ∧ heap st' !! 1%positive ≫= (.!! "valid_percent") = Some (VFloat 70%float).
Proof.
  eexists. split.
  - apply (calculate_aggr_percentage_int (one_tally ten_tally) 1 ten_tally 7 10);
      try reflexivity.
    apply counts_fit_float; lia.
  - cbn [heap]. rewrite lookup_insert_eq. cbn. rewrite lookup_insert_eq.
    by vm_compute.
Qed.

(** ** The order of the per-group tallies *)

(** C5, as stated, fails on the report table: with one valid item of one
    name and two invalid items of another, the inventory-item report query
    set lists the group of total 1 before the group of total 2. *)
Lemma report_queryset_is_not_in_descending_total :
  ∃ rows,
    ValidatedSoftwareInventoryItemReportView.queryset sfp_and_two_psus
    = inr rows
    ∧ (λ r : ReportRow, (total r, valid_percent r)) <$> rows
      = [(1, 100); (2, 0)]
    ∧ ¬ Sorted (desc (λ r : ReportRow, total r)) rows.
Proof.
  eexists. split; [by vm_compute|]. split; [done|].
  intros Hsorted. inversion Hsorted as [|? ? _ Hhd].
  inversion Hhd as [|? ? Hle]. unfold desc in Hle. simpl in Hle. lia.
Qed.

(** C5, amended: the per-platform and per-manufacturer breakdowns are in
    descending order of [total]; the two report-table query sets are in
    descending order of [valid_percent]. *)
Theorem per_group_tallies_order :
  (∀ f request objects,
     ∃ rows,
       ValidatedSoftwareDeviceReportView.platform_qs (Some f) request objects
       = inr rows ∧ StronglySorted (desc total) rows)
  ∧ (∀ f request objects,
       ∃ rows,
         ValidatedSoftwareInventoryItemReportView.platform_qs (Some f) request
           objects = inr rows ∧ StronglySorted (desc total) rows)
  ∧ (∀ objects,
       ∃ rows,
         ValidatedSoftwareDeviceReportView.queryset objects = inr rows
         ∧ StronglySorted (desc valid_percent) rows)
  ∧ (∀ objects,
       ∃ rows,
         ValidatedSoftwareInventoryItemReportView.queryset objects = inr rows
         ∧ StronglySorted (desc valid_percent) rows).
Proof.
  split; [|split; [|split]].
  - intros f request objects. eexists. split; [done|].
    apply order_by_desc_sorted.
  - intros f request objects. eexists. split; [done|].
    apply order_by_desc_sorted.
  - intros objects.
    destruct (report_rows_spec
                ValidatedSoftwareDeviceReportView.device__device_type__model
                q_valid (py_and (Q_is_validated false) (Q_not Q_software_None))
                q_no_software objects) as (rows & Hq & Hs & _); [done|].
    by exists rows.
  - intros objects.
    destruct (report_rows_spec
                ValidatedSoftwareInventoryItemReportView.inventory_item__name
                q_valid q_invalid q_no_software objects)
      as (rows & Hq & Hs & _); [done|].
    by exists rows.
Qed.

(** ** The time of the last full run *)

Lemma elem_of_full_runs {S} FULL (objects : list (ValidationResult S)) r :
  r ∈ List.filter (λ r, bool_decide (run_type r = FULL)) objects
  ↔ r ∈ objects ∧ run_type r = FULL.
Proof.
  by rewrite !list_elem_of_In, filter_In, bool_decide_eq_true.
Qed.

Lemma full_run_last_run_reflects_full_runs_only {S} FULL :
  reflects_full_runs_only FULL (full_run_last_run (S := S) FULL).
Proof.
  unfold reflects_full_runs_only, full_run_last_run.
  split; [|split; [|split]].
  - intros objects.
    pose proof (latest_spec last_updated
                  (List.filter (λ r, bool_decide (run_type r = FULL)) objects))
      as Hl.
    destruct (latest _ _) as [e|r]; [|by eexists].
    destruct Hl as [-> _]. by eexists.
  - intros objects Hnone.
    pose proof (latest_spec last_updated
                  (List.filter (λ r, bool_decide (run_type r = FULL)) objects))
      as Hl.
    destruct (latest _ _) as [e|r].
    + by destruct Hl as [-> _].
    + destruct Hl as [[Hr Hfull]%elem_of_full_runs _].
      by destruct (Hnone r Hr).
  - intros objects (r0 & Hr0 & Hfull0).
    pose proof (latest_spec last_updated
                  (List.filter (λ r, bool_decide (run_type r = FULL)) objects))
      as Hl.
    destruct (latest _ _) as [e|r].
    + destruct Hl as [_ Hnil].
      assert (r0 ∈ List.filter (λ r, bool_decide (run_type r = FULL)) objects)
        as Hin by by apply elem_of_full_runs.
      rewrite Hnil in Hin. by apply elem_of_nil in Hin.
    + destruct Hl as [[Hr Hfull]%elem_of_full_runs Hmax].
      exists r. repeat (split; [done|]). split; [|done].
      intros r' Hr' Hfull'. apply Hmax. by apply elem_of_full_runs.
  - intros before partial after Hpartial.
    rewrite !List.filter_app. cbn [List.filter].
    by rewrite bool_decide_false.
Qed.

(** C8: in both views [report_last_run] is determined by the full-run rows
    alone: it is the [last_run] of a most recently updated full-run row,
    rows of another run type never change it, and without a full-run row
    it is [None], not an error. *)
Theorem report_last_run_reflects_full_runs_only REPORT_FULL_RUN :
  reflects_full_runs_only REPORT_FULL_RUN
    (ValidatedSoftwareDeviceReportView.report_last_run REPORT_FULL_RUN)
  ∧ reflects_full_runs_only REPORT_FULL_RUN
      (ValidatedSoftwareInventoryItemReportView.report_last_run
         REPORT_FULL_RUN).
Proof.
  split; apply full_run_last_run_reflects_full_runs_only.
Qed.

(** ** The pie chart *)

Lemma b64encode_nonempty bs : bs ≠ [] → b64encode bs ≠ EmptyString.
Proof. by destruct bs as [|a [|b [|c rest]]]. Qed.

Lemma quote_nonempty s : s ≠ EmptyString → quote s ≠ EmptyString.
Proof. destruct s as [|c s']; [done|]. simpl. by destruct (quote_safe c). Qed.

Section pie_chart.
Context {mpl : Matplotlib}.

Lemma getitems_ok aggr labels st d sizes :
  heap st !! aggr = Some d →
  Forall2 (λ l v, d !! l = Some v) labels sizes →
  ReportOverviewHelper.getitems aggr labels st = (inr sizes, st).
Proof.
  intros Hd. induction 1 as [|l v labels sizes Hl _ IH]; [done|].
  cbn [ReportOverviewHelper.getitems]. unfold bind, getitem at 1.
  rewrite Hd. cbn [mbind option_bind]. rewrite Hl. cbn beta iota.
  by rewrite IH.
Qed.

(** Past the guard: the figure is registered, the pie and the title are
    drawn in turn, and the encoded image is returned unless the library
    raises on the way. *)
Lemma plot_piechart_visual_past_guard st aggr d attrs label rest v sizes name :
  aggr_labels attrs = label :: rest →
  heap st !! aggr = Some d →
  d !! label = Some v →
  v ≠ VNone →
  Forall2 (λ l x, d !! l = Some x) (aggr_labels attrs) sizes →
  d !! "name" = Some name →
  ReportOverviewHelper.plot_piechart_visual aggr attrs st
  = match draw_error (Pie sizes (chart_labels attrs)) with
    | Some e => (inl e, mkState (heap st) ([] :: figures st))
    | None =>
        match draw_error (Title name) with
        | Some e =>
            (inl e,
             mkState (heap st)
                     ([Pie sizes (chart_labels attrs)] :: figures st))
        | None =>
            (inr (VStr (quote (b64encode
                                 (savefig_png [Pie sizes (chart_labels attrs);
                                               Title name])))),
             mkState (heap st)
                     ([Pie sizes (chart_labels attrs); Title name]
                        :: figures st))
        end
    end.
Proof.
  intros Hlabels Hd Hv Hnot Hsizes Hname.
  unfold ReportOverviewHelper.plot_piechart_visual.
  rewrite Hlabels. unfold bind at 1, lift. cbn beta iota.
  unfold bind at 1, getitem at 1. rewrite Hd. cbn [mbind option_bind].
  rewrite Hv. cbn beta iota.
  replace (is_None v) with false by by destruct v.
  unfold bind at 1. rewrite <- Hlabels, (getitems_ok aggr _ st d sizes) by done.
  unfold bind at 1, plt_subplots. cbn beta iota.
  unfold bind at 1, draw at 1.
  destruct (draw_error (Pie sizes (chart_labels attrs))); [done|].
  cbn [heap figures]. unfold bind at 1, getitem. cbn [heap].
  rewrite Hd. cbn [mbind option_bind]. rewrite Hname. cbn beta iota.
  unfold bind at 1, draw.
  destruct (draw_error (Title name)); [done|].
  cbn [heap figures]. unfold bind, savefig, ret. done.
Qed.

Lemma plot_piechart_visual_at_guard st aggr d attrs label rest :
  aggr_labels attrs = label :: rest →
  heap st !! aggr = Some d →
  (d !! label = Some VNone →
   ReportOverviewHelper.plot_piechart_visual aggr attrs st = (inr VNone, st))
  ∧ (d !! label = None →
     ReportOverviewHelper.plot_piechart_visual aggr attrs st
     = (inl (KeyError label), st)).
Proof.
  intros Hlabels Hd.
  split; intros Hl; unfold ReportOverviewHelper.plot_piechart_visual;
    rewrite Hlabels; unfold bind at 1, lift; cbn beta iota;
    unfold bind at 1, getitem at 1; rewrite Hd; cbn [mbind option_bind];
    by rewrite Hl.
Qed.
End pie_chart.

(** C6, as stated, fails when the field is absent: on a dict without
    [valid] the subscription raises [KeyError]; nothing is returned. *)
Lemma plot_piechart_visual_raises_on_absent_field :
  ReportOverviewHelper.plot_piechart_visual (mpl := signature_only) 1
    ValidatedSoftwareDeviceReportView.pie_chart_attrs (one_tally ∅)
  = (inl (KeyError "valid"), one_tally ∅).
Proof. by vm_compute. Qed.

(** C6, amended: [plot_piechart_visual] returns [None] when the first
    aggregation-label field is present and [None]; it raises [KeyError]
    when that field is absent; and when the field is present and not
    [None], the other label fields and [name] are present, and the plotting
    library draws the pie and the title and writes a non-empty PNG stream,
    it returns the base64 encoding of that stream, URL-escaped, which is a
    non-empty string. *)
Theorem plot_piechart_visual_outcomes {mpl : Matplotlib} st aggr d attrs label
    rest :
  aggr_labels attrs = label :: rest →
  heap st !! aggr = Some d →
  (d !! label = Some VNone →
   ReportOverviewHelper.plot_piechart_visual aggr attrs st = (inr VNone, st))
  ∧ (d !! label = None →
     ReportOverviewHelper.plot_piechart_visual aggr attrs st
     = (inl (KeyError label), st))
  ∧ (∀ v sizes name,
       d !! label = Some v →
       v ≠ VNone →
       Forall2 (λ l x, d !! l = Some x) (aggr_labels attrs) sizes →
       d !! "name" = Some name →
       draw_error (Pie sizes (chart_labels attrs)) = None →
       draw_error (Title name) = None →
       savefig_png [Pie sizes (chart_labels attrs); Title name] ≠ [] →
       ∃ image,
         ReportOverviewHelper.plot_piechart_visual aggr attrs st
         = (inr (VStr image),
            mkState (heap st)
                    ([Pie sizes (chart_labels attrs); Title name]
                       :: figures st))
         ∧ image
           = quote (b64encode
                      (savefig_png [Pie sizes (chart_labels attrs);
                                    Title name]))
         ∧ image ≠ EmptyString).
Proof.
  intros Hlabels Hd.
  destruct (plot_piechart_visual_at_guard st aggr d attrs label rest)
    as [HNone Habsent]; [done..|].
  split; [done|]. split; [done|].
  intros v sizes name Hv Hnot Hsizes Hname Hpie Htitle Hpng.
  eexists. split; [|split; [done|]].
  - rewrite (plot_piechart_visual_past_guard st aggr d attrs label rest v
               sizes name) by done.
    by rewrite Hpie, Htitle.
  - by apply quote_nonempty, b64encode_nonempty.
Qed.

(** At the tally [{total: 10, valid: 7, invalid: 2, no_software: 1,
    name: "Devices"}], with a library that writes the PNG signature. *)
Lemma plot_piechart_visual_outcomes_witness :
  ReportOverviewHelper.plot_piechart_visual (mpl := signature_only) 1
    ValidatedSoftwareDeviceReportView.pie_chart_attrs
    (one_tally ten_tally_named)
  = (inr (VStr "iVBORw0KGgo%3D"),
     mkState (heap (one_tally ten_tally_named))
       [[Pie [VInt 7; VInt 2; VInt 1] ["Valid"; "Invalid"; "No Software"];
         Title (VStr "Devices")]]).
Proof.
  destruct (plot_piechart_visual_outcomes (mpl := signature_only)
              (one_tally ten_tally_named) 1 ten_tally_named
              ValidatedSoftwareDeviceReportView.pie_chart_attrs
              "valid" ["invalid"; "no_software"] eq_refl eq_refl)
    as (_ & _ & Hdraws).
  destruct (Hdraws (VInt 7) [VInt 7; VInt 2; VInt 1] (VStr "Devices"))
    as (image & Hrun & Himage & _);
    [reflexivity|discriminate|repeat constructor|reflexivity|reflexivity
    |reflexivity|discriminate|].
  rewrite Hrun, Himage. reflexivity.
Defined.

(** C7, as stated, fails: on the all-zero tally the guard does not fire
    ([0 is None] is false). The call registers a figure, draws the pie with
    sizes [[0, 0, 0]] and returns an image; it does not return [None] with
    the state untouched. *)
Lemma plot_piechart_visual_draws_the_all_zero_tally :
  ReportOverviewHelper.plot_piechart_visual (mpl := signature_only) 1
    ValidatedSoftwareDeviceReportView.pie_chart_attrs (one_tally zero_tally)
  = (inr (VStr "iVBORw0KGgo%3D"),
     mkState (heap (one_tally zero_tally))
       [[Pie [VInt 0; VInt 0; VInt 0] ["Valid"; "Invalid"; "No Software"];
         Title (VStr "Devices")]])
  ∧ ReportOverviewHelper.plot_piechart_visual (mpl := signature_only) 1
      ValidatedSoftwareDeviceReportView.pie_chart_attrs (one_tally zero_tally)
    ≠ (inr VNone, one_tally zero_tally).
Proof.
  assert (ReportOverviewHelper.plot_piechart_visual (mpl := signature_only) 1
            ValidatedSoftwareDeviceReportView.pie_chart_attrs
            (one_tally zero_tally)
          = (inr (VStr "iVBORw0KGgo%3D"),
             mkState (heap (one_tally zero_tally))
               [[Pie [VInt 0; VInt 0; VInt 0]
                     ["Valid"; "Invalid"; "No Software"];
                 Title (VStr "Devices")]])) as Hrun by by vm_compute.
  split; [done|]. rewrite Hrun. discriminate.
Qed.

(** C7, amended: on the all-zero tally [plot_piechart_visual] does not
    short-circuit. It never returns [None] there: it registers a new
    figure with pyplot, leaves the heap alone, and hands the sizes
    [[0, 0, 0]] to the pie drawing, whose outcome is the library's. *)
Theorem plot_piechart_visual_on_all_zero_tally {mpl : Matplotlib} st aggr d
    attrs name :
  aggr_labels attrs = ["valid"; "invalid"; "no_software"] →
  heap st !! aggr = Some d →
  d !! "valid" = Some (VInt 0) →
  d !! "invalid" = Some (VInt 0) →
  d !! "no_software" = Some (VInt 0) →
  d !! "name" = Some name →
  ∃ r st' fig,
    ReportOverviewHelper.plot_piechart_visual aggr attrs st = (r, st')
    ∧ r ≠ inr VNone
    ∧ figures st' = fig :: figures st
    ∧ heap st' = heap st
    ∧ match draw_error (Pie [VInt 0; VInt 0; VInt 0] (chart_labels attrs)) with
      | Some e => r = inl e ∧ fig = []
      | None =>
          ∃ rest, fig = Pie [VInt 0; VInt 0; VInt 0] (chart_labels attrs) :: rest
      end.
Proof.
  intros Hlabels Hd Hv Hi Hn Hname.
  rewrite (plot_piechart_visual_past_guard st aggr d attrs "valid"
             ["invalid"; "no_software"] (VInt 0) [VInt 0; VInt 0; VInt 0] name);
    [|done..|by rewrite Hlabels; repeat constructor|done].
  destruct (draw_error (Pie _ _)) as [e|].
  { by eexists _, _, _. }
  destruct (draw_error (Title name)) as [e|].
  - eexists _, _, _. repeat (split; [done|]). by eexists.
  - eexists _, _, _. repeat (split; [done|]). by eexists.
Qed.

(** At the all-zero tally, with a library that draws everything. *)
Lemma plot_piechart_visual_on_all_zero_tally_witness :
  ∃ r st' fig,
    ReportOverviewHelper.plot_piechart_visual (mpl := signature_only) 1
      ValidatedSoftwareDeviceReportView.pie_chart_attrs (one_tally zero_tally)
    = (r, st')
    ∧ r ≠ inr VNone
    ∧ figures st' = fig :: figures (one_tally zero_tally)
    ∧ heap st' = heap (one_tally zero_tally)
    ∧ ∃ rest, fig = Pie [VInt 0; VInt 0; VInt 0]
                        ["Valid"; "Invalid"; "No Software"] :: rest.
Proof.
  apply (plot_piechart_visual_on_all_zero_tally (mpl := signature_only)
           (one_tally zero_tally) 1 zero_tally
           ValidatedSoftwareDeviceReportView.pie_chart_attrs (VStr "Devices"));
    reflexivity.
Defined.

(** The all-zero tally is what a view computes over an empty set of
    validation results, with [valid_percent] 0. *)
Lemma empty_report_tally f request st :
  ∃ aggr st',
    ValidatedSoftwareDeviceReportView.get_global_aggr (Some f) request [] st
    = (inr aggr, st')
    ∧ heap st' !! aggr = Some (<["valid_percent" := VInt 0]> zero_tally)
    ∧ figures st' = figures st.
Proof.
  rewrite device_get_global_aggr_unfold. cbn [List.filter].
  destruct (run_global_aggr_spec ValidatedSoftwareDeviceReportView.device
              "Devices" [] st) as (aggr & st' & Hrun & _ & Hd & Hfig & _).
  exists aggr, st'. by rewrite Hd.
Qed.

(** Without a full run the view reports none; a later partial run does not
    displace the last full run. *)
Lemma report_last_run_examples :
  ValidatedSoftwareDeviceReportView.report_last_run full_run
    [invalid_router 2] = inr None
  ∧ ValidatedSoftwareDeviceReportView.report_last_run full_run
      [validated_switch; invalid_router 2] = inr (Some 1700000000).
Proof. by vm_compute. Qed.

(** ** The [assigned_to] field *)

Section assigned_to.
Context {Repr : Type} `{!NestedSerializers Repr}.

(** What the generic foreign key resolves to, kind by kind. *)
Lemma assigned_to_resolves db obj target :
  assigned_to db obj = Some target ↔
  ∃ pk,
    assigned_to_object_id obj = Some pk
    ∧ match target with
      | a_device d =>
          assigned_to_content_type obj = Some dcim_device
          ∧ devices db !! pk = Some d
      | a_device_type t =>
          assigned_to_content_type obj = Some dcim_devicetype
          ∧ device_types db !! pk = Some t
      | an_inventory_item i =>
          assigned_to_content_type obj = Some dcim_inventoryitem
          ∧ inventory_items db !! pk = Some i
      end.
Proof.
  unfold assigned_to.
  destruct (assigned_to_content_type obj) as [[| |]|],
           (assigned_to_object_id obj) as [pk|];
    rewrite ?fmap_Some; destruct target; split;
    try (intros (x & Hx & [= <-]); by exists pk);
    try (intros (x & Hx & [=]));
    try (intros (pk' & [= <-] & _ & Hx); by eexists);
    try (by intros (pk' & ? & [=] & ?));
    try (by intros (pk' & [=] & ?));
    try done.
Qed.

Lemma assigned_to_unresolved db obj :
  assigned_to db obj = None ↔
  assigned_to_content_type obj = None
  ∨ assigned_to_object_id obj = None
  ∨ ∃ pk, assigned_to_object_id obj = Some pk
          ∧ match assigned_to_content_type obj with
            | Some dcim_device => devices db !! pk = None
            | Some dcim_devicetype => device_types db !! pk = None
            | Some dcim_inventoryitem => inventory_items db !! pk = None
            | None => True
            end.
Proof.
  unfold assigned_to.
  destruct (assigned_to_content_type obj) as [[| |]|],
           (assigned_to_object_id obj) as [pk|];
    rewrite ?fmap_None; split;
    try (intros ?; by eauto);
    try (by intros [[=]|[[=]|(pk' & [= <-] & ?)]]).
Qed.
End assigned_to.

(** C9: the serialized [assigned_to] of a policy is [null] whenever its
    content-type / object-id pair resolves to no object (unset, or the
    object is gone), and otherwise, within a request, the nested
    representation of the object the pair resolves to, which is the row of
    the named kind with the named key. *)
Theorem get_assigned_to_serializes_resolved_target {Repr : Type}
    {ns : NestedSerializers Repr} (self_context : gmap string HttpRequest)
    (db : Database) (obj : ValidatedSoftwareLCM) :
  (assigned_to db obj = None →
   ValidatedSoftwareLCMSerializer.get_assigned_to self_context db obj
   = inr None)
  ∧ (∀ target request,
       assigned_to db obj = Some target →
       self_context !! "request" = Some request →
       ValidatedSoftwareLCMSerializer.get_assigned_to self_context db obj
       = inr (Some (nested_representation target request)))
  ∧ (∀ target,
       assigned_to db obj = Some target ↔
       ∃ pk,
         assigned_to_object_id obj = Some pk
         ∧ match target with
           | a_device d =>
               assigned_to_content_type obj = Some dcim_device
               ∧ devices db !! pk = Some d
           | a_device_type t =>
               assigned_to_content_type obj = Some dcim_devicetype
               ∧ device_types db !! pk = Some t
           | an_inventory_item i =>
               assigned_to_content_type obj = Some dcim_inventoryitem
               ∧ inventory_items db !! pk = Some i
           end).
Proof.
  unfold ValidatedSoftwareLCMSerializer.get_assigned_to.
  split; [|split].
  - by intros ->.
  - intros target request -> ->. by destruct target.
  - intros target. apply assigned_to_resolves.
Qed.

(** A policy assigned to an existing device, one assigned to a device that
    is gone, and an unassigned one. *)
Lemma get_assigned_to_serializes_resolved_target_witness :
  ValidatedSoftwareLCMSerializer.get_assigned_to (ns := kind_and_key)
    api_context one_switch (policy_for (Some dcim_device) (Some 1))
  = inr (Some ("device", 1))
  ∧ ValidatedSoftwareLCMSerializer.get_assigned_to (ns := kind_and_key)
      api_context one_switch (policy_for (Some dcim_device) (Some 2))
    = inr None
  ∧ ValidatedSoftwareLCMSerializer.get_assigned_to (ns := kind_and_key)
      api_context one_switch (policy_for None None)
    = inr None.
Proof.
  split; [|split].
  - destruct (get_assigned_to_serializes_resolved_target (ns := kind_and_key)
                api_context one_switch (policy_for (Some dcim_device) (Some 1)))
      as (_ & Hsome & _).
    apply (Hsome (a_device switch) no_request); reflexivity.
  - destruct (get_assigned_to_serializes_resolved_target (ns := kind_and_key)
                api_context one_switch (policy_for (Some dcim_device) (Some 2)))
      as (Hnone & _).
    apply Hnone. reflexivity.
  - destruct (get_assigned_to_serializes_resolved_target (ns := kind_and_key)
                api_context one_switch (policy_for None None))
      as (Hnone & _).
    apply Hnone. reflexivity.
Defined.

(** * Further properties of the report queries *)

Lemma report_rows_perm {S} (key : ValidationResult S → option string)
    qv qi qn objects :
  (∀ r, key r ≠ None) →
  ∃ rows,
    match traverse annotate_valid_percent
            (values_annotate key qv qi qn objects) with
    | inl e => inl e
    | inr rows => inr (order_by_desc valid_percent rows)
    end = inr rows
    ∧ counts <$> rows ≡ₚ values_annotate key qv qi qn objects.
Proof.
  intros Hkey.
  destruct (report_rows_spec key qv qi qn objects Hkey) as (rows & Hq & _).
  exists rows. split; [done|].
  destruct (traverse annotate_valid_percent
              (values_annotate key qv qi qn objects)) as [e|ys] eqn:Hys;
    [done|].
  injection Hq as <-. rewrite order_by_desc_perm.
  apply traverse_inr in Hys.
  induction Hys as [|t y ts ys Hty _ IH]; [done|].
  rewrite fmap_cons, IH. unfold annotate_valid_percent in Hty.
  destruct (total t =? 0); [done|]. by injection Hty as <-.
Qed.

(** A fact of integer percentages: with [0 ≤ v ≤ t] and
    [0 < t] the truncated quotient [100 * v / t] lies in [0, 100] and is
    100 only for [v = t]. *)
Lemma percent_quot_range v t :
  0 ≤ v → v ≤ t → 0 < t →
  0 ≤ (100 * v) ÷ t ≤ 100 ∧ ((100 * v) ÷ t = 100 ↔ v = t).
Proof.
  intros Hv Hvt Ht. rewrite Z.quot_div_nonneg by lia.
  split; [split|split].
  - apply Z.div_pos; lia.
  - apply Z.div_le_upper_bound; lia.
  - intros Hq.
    assert (100 * t ≤ 100 * v); [|lia].
    pose proof (Z.mul_div_le (100 * v) t Ht). lia.
  - intros ->. rewrite Z.div_mul; lia.
Qed.

Lemma report_rows_percent_range {S}
    (key : ValidationResult S → option string) qi objects :
  (∀ r, key r ≠ None) →
  ∃ rows,
    match traverse annotate_valid_percent
            (values_annotate key q_valid qi q_no_software objects) with
    | inl e => inl e
    | inr rows => inr (order_by_desc valid_percent rows)
    end = inr rows
    ∧ ∀ r : ReportRow, r ∈ rows →
        0 ≤ valid_percent r ≤ 100
        ∧ (valid_percent r = 100 ↔ valid r = total r).
Proof.
  intros Hkey.
  destruct (report_rows_spec key q_valid qi q_no_software objects Hkey)
    as (rows & Hq & _ & Hrows).
  exists rows. split; [done|]. intros r Hr.
  destruct (Hrows r Hr) as ((k & _ & Hc)%elem_of_values_annotate & Hpos & ->).
  rewrite Hc in *. cbn [total valid] in *.
  apply percent_quot_range; [apply Count_nonneg|apply Count_valid_le_total|done].
Qed.

(** In every row of both report tables the percentage lies between 0 and
    100, and it is 100 exactly when every result of the group is valid. *)
Theorem report_valid_percent_range :
  (∀ objects,
     ∃ rows,
       ValidatedSoftwareDeviceReportView.queryset objects = inr rows
       ∧ ∀ r : ReportRow, r ∈ rows →
           0 ≤ valid_percent r ≤ 100
           ∧ (valid_percent r = 100 ↔ valid r = total r))
  ∧ (∀ objects,
       ∃ rows,
         ValidatedSoftwareInventoryItemReportView.queryset objects = inr rows
         ∧ ∀ r : ReportRow, r ∈ rows →
             0 ≤ valid_percent r ≤ 100
             ∧ (valid_percent r = 100 ↔ valid r = total r)).
Proof.
  split; intros objects.
  - by apply (report_rows_percent_range
                ValidatedSoftwareDeviceReportView.device__device_type__model).
  - by apply (report_rows_percent_range
                ValidatedSoftwareInventoryItemReportView.inventory_item__name).
Qed.

(** ** One row per group, every result in one row *)

Lemma sum_Z_cons x l : sum_Z (x :: l) = x + sum_Z l.
Proof. reflexivity. Qed.

Lemma sum_Z_app l1 l2 : sum_Z (l1 ++ l2) = sum_Z l1 + sum_Z l2.
Proof.
  induction l1 as [|x l1 IH]; [done|].
  rewrite <- app_comm_cons, !sum_Z_cons, IH. lia.
Qed.

Lemma sum_Z_perm l1 l2 : l1 ≡ₚ l2 → sum_Z l1 = sum_Z l2.
Proof. induction 1; simpl; lia. Qed.

Lemma sum_Z_add {A} (f g : A → Z) l :
  sum_Z ((λ x, f x + g x) <$> l) = sum_Z (f <$> l) + sum_Z (g <$> l).
Proof.
  induction l as [|x l IH]; [done|].
  rewrite !fmap_cons, !sum_Z_cons, IH. lia.
Qed.

Lemma sum_Z_zero {A} (f : A → Z) l :
  (∀ x, x ∈ l → f x = 0) → sum_Z (f <$> l) = 0.
Proof.
  induction l as [|x l IH]; intros Hf; [done|].
  rewrite fmap_cons, sum_Z_cons, IH, (Hf x); [done|left|].
  intros y Hy. apply Hf. by right.
Qed.

(** Among distinct keys exactly one is a given member. *)
Lemma sum_Z_indicator `{EqDecision K} (x : K) ks :
  NoDup ks →
  sum_Z ((λ k, if bool_decide (x = k) then 1 else 0) <$> ks)
  = if bool_decide (x ∈ ks) then 1 else 0.
Proof.
  induction 1 as [|k ks Hk _ IH]; [done|].
  rewrite fmap_cons, sum_Z_cons, IH.
  destruct (decide (x = k)) as [->|Hne].
  - rewrite bool_decide_true by done. rewrite (bool_decide_false (k ∈ ks)) by done.
    rewrite bool_decide_true; [done|left].
  - rewrite bool_decide_false by done.
    destruct (decide (x ∈ ks)) as [Hin|Hnin].
    + rewrite !bool_decide_true; [done|by right|done].
    + rewrite !bool_decide_false; [done| |done].
      by intros [?|?]%elem_of_cons.
Qed.

Lemma count_rows_false {A} (p : A → bool) l :
  (∀ x, p x = false) → count_rows p l = 0.
Proof.
  intros Hp. induction l as [|x l IH]; [done|].
  by rewrite count_rows_cons, Hp, IH.
Qed.

Lemma count_rows_filter {A} (p q : A → bool) l :
  count_rows p (List.filter q l) = count_rows (λ x, q x && p x) l.
Proof.
  induction l as [|x l IH]; [done|]. simpl.
  destruct (q x) eqn:Hq; rewrite !count_rows_cons; rewrite ?Hq; simpl; lia.
Qed.

(** Counting group by group counts every row once, in the group of its
    key. *)
Lemma sum_Z_groups {A} `{EqDecision K} (key : A → K) (p : A → bool) ks l :
  NoDup ks →
  (∀ x, x ∈ l → key x ∈ ks) →
  sum_Z ((λ k, count_rows (λ x, bool_decide (key x = k) && p x) l) <$> ks)
  = count_rows p l.
Proof.
  intros Hnd. induction l as [|a l IH]; intros Hin.
  - rewrite sum_Z_zero; [done|]. intros k _. apply count_rows_nil.
  - rewrite count_rows_cons, <- IH by (intros x Hx; apply Hin; by right).
    erewrite (list_fmap_ext _
                (λ k, (if bool_decide (key a = k) then if p a then 1 else 0
                       else 0)
                      + count_rows (λ x, bool_decide (key x = k) && p x) l)).
    2:{ intros i k _. rewrite count_rows_cons.
        by destruct (bool_decide (key a = k)). }
    rewrite sum_Z_add. f_equal.
    destruct (p a).
    + rewrite sum_Z_indicator by done. rewrite bool_decide_true; [done|].
      apply Hin. left.
    + apply sum_Z_zero. intros k _. by destruct (bool_decide _).
Qed.

Section group_rows_facts.
Context {S : Type} (key : ValidationResult S → option string).

Lemma values_annotate_groups qv qi qn rows :
  group <$> values_annotate key qv qi qn rows = remove_dups (key <$> rows).
Proof.
  unfold values_annotate. rewrite <- list_fmap_compose.
  by rewrite list_fmap_id.
Qed.

(** The total of a group counts the rows of the group whose key is not
    NULL: none at all in the group of the NULL key. *)
Lemma values_annotate_sum_total qv qi qn rows :
  sum_Z (total <$> values_annotate key qv qi qn rows)
  = count_rows (λ r, bool_decide (key r ≠ None)) rows.
Proof.
  unfold values_annotate. rewrite <- list_fmap_compose.
  rewrite <- (sum_Z_groups key (λ r, bool_decide (key r ≠ None))
                (remove_dups (key <$> rows)) rows).
  - f_equal. apply list_fmap_ext. intros _ k _. cbn.
    unfold Count, group_rows. rewrite count_rows_filter.
    apply count_rows_ext. intros r _. by destruct (key r).
  - apply NoDup_remove_dups.
  - intros r Hr. apply elem_of_remove_dups, list_elem_of_fmap. by exists r.
Qed.

Lemma values_annotate_null_group qv qi qn rows t :
  t ∈ values_annotate key qv qi qn rows →
  group t = None →
  t = mkTally None 0 0 0 0.
Proof.
  intros (k & _ & ->)%elem_of_values_annotate. cbn. intros ->.
  assert (∀ q, Count key q (group_rows key None rows) = 0) as Hzero.
  { intros q. unfold Count, group_rows. rewrite count_rows_filter.
    apply count_rows_false. intros x. by destruct (key x). }
  by rewrite !Hzero.
Qed.
End group_rows_facts.

Lemma count_rows_true {A} (p : A → bool) l :
  (∀ x, p x = true) → count_rows p l = Z.of_nat (length l).
Proof.
  intros Hp. induction l as [|x l IH]; [done|].
  rewrite count_rows_cons, Hp, IH. simpl length. lia.
Qed.

Lemma report_rows_cover {S} (key : ValidationResult S → option string)
    qv qi qn objects :
  (∀ r, key r ≠ None) →
  ∃ rows,
    match traverse annotate_valid_percent
            (values_annotate key qv qi qn objects) with
    | inl e => inl e
    | inr rows => inr (order_by_desc valid_percent rows)
    end = inr rows
    ∧ NoDup ((λ r : ReportRow, group r) <$> rows)
    ∧ (∀ o, o ∈ objects → ∃ r : ReportRow, r ∈ rows ∧ group r = key o)
    ∧ sum_Z ((λ r : ReportRow, total r) <$> rows)
      = Z.of_nat (length objects).
Proof.
  intros Hkey.
  destruct (report_rows_perm key qv qi qn objects Hkey) as (rows & Hq & Hp).
  exists rows. split; [done|].
  assert ((λ r : ReportRow, group r) <$> rows
          ≡ₚ remove_dups (key <$> objects)) as Hgroups.
  { rewrite <- (values_annotate_groups key qv qi qn), <- Hp.
    by rewrite <- list_fmap_compose. }
  split; [|split].
  - rewrite Hgroups. apply NoDup_remove_dups.
  - intros o Ho.
    assert (key o ∈ (λ r : ReportRow, group r) <$> rows) as Hin.
    { rewrite Hgroups. apply elem_of_remove_dups, list_elem_of_fmap.
      by exists o. }
    apply list_elem_of_fmap in Hin as (r & Hr & Hin). by exists r.
  - rewrite (list_fmap_compose counts total), (sum_Z_perm _ _
              (fmap_Permutation total _ _ Hp)).
    rewrite values_annotate_sum_total. apply count_rows_true.
    intros r. by apply bool_decide_true.
Qed.

(** Both report tables have one row per device type (or inventory-item
    name), every validation result belongs to the row of its group, and the
    totals of the rows add up to the number of validation results. *)
Theorem report_rows_cover_every_result :
  (∀ objects,
     ∃ rows,
       ValidatedSoftwareDeviceReportView.queryset objects = inr rows
       ∧ NoDup ((λ r : ReportRow, group r) <$> rows)
       ∧ (∀ o, o ∈ objects →
            ∃ r : ReportRow,
              r ∈ rows
              ∧ group r = Some (device_type__model (subject o)))
       ∧ sum_Z ((λ r : ReportRow, total r) <$> rows)
         = Z.of_nat (length objects))
  ∧ (∀ objects,
       ∃ rows,
         ValidatedSoftwareInventoryItemReportView.queryset objects = inr rows
         ∧ NoDup ((λ r : ReportRow, group r) <$> rows)
         ∧ (∀ o, o ∈ objects →
              ∃ r : ReportRow,
                r ∈ rows ∧ group r = Some (item_name (subject o)))
         ∧ sum_Z ((λ r : ReportRow, total r) <$> rows)
           = Z.of_nat (length objects)).
Proof.
  split; intros objects.
  - by apply (report_rows_cover
                ValidatedSoftwareDeviceReportView.device__device_type__model).
  - by apply (report_rows_cover
                ValidatedSoftwareInventoryItemReportView.inventory_item__name).
Qed.

Lemma breakdown_rows {S} (key : ValidationResult S → option string)
    qv qi qn objects :
  let rows := order_by_desc total (values_annotate key qv qi qn objects) in
  NoDup (group <$> rows)
  ∧ (∀ o, o ∈ objects → ∃ t, t ∈ rows ∧ group t = key o)
  ∧ (∀ t, t ∈ rows → group t = None → t = mkTally None 0 0 0 0)
  ∧ sum_Z (total <$> rows)
    = count_rows (λ o, bool_decide (key o ≠ None)) objects.
Proof.
  intros rows.
  assert (rows ≡ₚ values_annotate key qv qi qn objects) as Hp
    by apply order_by_desc_perm.
  split; [|split; [|split]].
  - rewrite Hp, values_annotate_groups. apply NoDup_remove_dups.
  - intros o Ho.
    assert (key o ∈ group <$> rows) as Hin.
    { rewrite Hp, values_annotate_groups.
      apply elem_of_remove_dups, list_elem_of_fmap. by exists o. }
    apply list_elem_of_fmap in Hin as (t & Ht & Hin). by exists t.
  - intros t Ht. rewrite Hp in Ht.
    by apply (values_annotate_null_group key qv qi qn objects).
  - rewrite (sum_Z_perm _ _ (fmap_Permutation total _ _ Hp)).
    apply values_annotate_sum_total.
Qed.

(** The breakdowns fed to the bar charts have one row per platform (or
    manufacturer) name. Results whose device has no platform (or whose item
    has no manufacturer) form the row of the name [None], and that row is
    all zero: the counts count names, so such results are in no total. The
    totals add up to the number of filtered results that have a name. *)
Theorem breakdown_leaves_out_results_without_a_name :
  (∀ f request objects,
     ∃ rows,
       ValidatedSoftwareDeviceReportView.platform_qs (Some f) request objects
       = inr rows
       ∧ NoDup (group <$> rows)
       ∧ (∀ o, o ∈ List.filter (f (GET request)) objects →
            ∃ t, t ∈ rows ∧ group t = platform__name (subject o))
       ∧ (∀ t, t ∈ rows → group t = None → t = mkTally None 0 0 0 0)
       ∧ sum_Z (total <$> rows)
         = count_rows (λ o, bool_decide (platform__name (subject o) ≠ None))
             (List.filter (f (GET request)) objects))
  ∧ (∀ f request objects,
       ∃ rows,
         ValidatedSoftwareInventoryItemReportView.platform_qs (Some f) request
           objects = inr rows
         ∧ NoDup (group <$> rows)
         ∧ (∀ o, o ∈ List.filter (f (GET request)) objects →
              ∃ t, t ∈ rows ∧ group t = manufacturer__name (subject o))
         ∧ (∀ t, t ∈ rows → group t = None → t = mkTally None 0 0 0 0)
         ∧ sum_Z (total <$> rows)
           = count_rows
               (λ o, bool_decide (manufacturer__name (subject o) ≠ None))
               (List.filter (f (GET request)) objects)).
Proof.
  split; intros f request objects; eexists; (split; [done|]).
  - apply (breakdown_rows
             ValidatedSoftwareDeviceReportView.device__platform__name).
  - apply (breakdown_rows
             ValidatedSoftwareInventoryItemReportView.inventory_item__manufacturer__name).
Qed.

(** A device without a platform among the results: its row is the zero
    row. *)
Lemma breakdown_of_a_device_without_platform :
  ValidatedSoftwareDeviceReportView.platform_qs (Some all_rows) no_request
    [validated_switch; invalid_router 2]
  = inr [mkTally (Some "cisco_ios") 1 1 0 0; mkTally None 0 0 0 0].
Proof. by vm_compute. Qed.

(** ** A view without a filter set *)

(** With the class attribute [filterset] unset, [get_global_aggr] skips the
    aggregation and hands the empty dict to [calculate_aggr_percentage],
    whose first subscription raises [KeyError]: the exception is not the
    one its [except] clause handles. Nothing but the new empty dict is
    left behind, and [setup] fails with it before drawing anything. *)
Theorem get_global_aggr_without_filterset {mpl : Matplotlib} REPORT_FULL_RUN
    request st :
  (∀ objects,
     ∃ aggr,
       ValidatedSoftwareDeviceReportView.get_global_aggr None request objects
         st
       = (inl (KeyError "valid"),
          mkState (<[aggr := ∅]> (heap st)) (figures st))
       ∧ heap st !! aggr = None
       ∧ ValidatedSoftwareDeviceReportView.setup REPORT_FULL_RUN None request
           objects st
         = (inl (KeyError "valid"),
            mkState (<[aggr := ∅]> (heap st)) (figures st)))
  ∧ (∀ objects,
       ∃ aggr,
         ValidatedSoftwareInventoryItemReportView.get_global_aggr None request
           objects st
         = (inl (KeyError "valid"),
            mkState (<[aggr := ∅]> (heap st)) (figures st))
         ∧ heap st !! aggr = None
         ∧ ValidatedSoftwareInventoryItemReportView.setup REPORT_FULL_RUN None
             request objects st
           = (inl (KeyError "valid"),
              mkState (<[aggr := ∅]> (heap st)) (figures st))).
Proof.
  assert (∀ aggr, heap st !! aggr = None →
            ReportOverviewHelper.calculate_aggr_percentage aggr
              (mkState (<[aggr := ∅]> (heap st)) (figures st))
            = (inl (KeyError "valid"),
               mkState (<[aggr := ∅]> (heap st)) (figures st))) as Hcalc.
  { intros aggr _.
    unfold ReportOverviewHelper.calculate_aggr_percentage.
    unfold bind, try_except, getitem. cbn [heap].
    by rewrite lookup_insert_eq. }
  split; intros objects; exists (fresh (dom (heap st)));
    (assert (heap st !! fresh (dom (heap st)) = None) as Hfresh
       by apply not_elem_of_dom, is_fresh).
  - assert (ValidatedSoftwareDeviceReportView.get_global_aggr None request
              objects st
            = (inl (KeyError "valid"),
               mkState (<[fresh (dom (heap st)) := ∅]> (heap st))
                       (figures st))) as Hrun.
    { unfold ValidatedSoftwareDeviceReportView.get_global_aggr.
      unfold bind at 1, new_dict. cbn beta iota zeta.
      unfold bind at 1, ret. cbn beta iota. by apply Hcalc. }
    split; [done|]. split; [done|].
    unfold ValidatedSoftwareDeviceReportView.setup.
    destruct (full_run_last_run_reflects_full_runs_only (S := Device)
                REPORT_FULL_RUN) as (Htotal & _).
    destruct (Htotal objects) as [v Hv].
    unfold bind at 1, lift.
    change (ValidatedSoftwareDeviceReportView.report_last_run REPORT_FULL_RUN
              objects) with (full_run_last_run REPORT_FULL_RUN objects).
    rewrite Hv. unfold bind at 1. by rewrite Hrun.
  - assert (ValidatedSoftwareInventoryItemReportView.get_global_aggr None
              request objects st
            = (inl (KeyError "valid"),
               mkState (<[fresh (dom (heap st)) := ∅]> (heap st))
                       (figures st))) as Hrun.
    { unfold ValidatedSoftwareInventoryItemReportView.get_global_aggr.
      unfold bind at 1, new_dict. cbn beta iota zeta.
      unfold bind at 1, ret. cbn beta iota. by apply Hcalc. }
    split; [done|]. split; [done|].
    unfold ValidatedSoftwareInventoryItemReportView.setup.
    destruct (full_run_last_run_reflects_full_runs_only (S := InventoryItem)
                REPORT_FULL_RUN) as (Htotal & _).
    destruct (Htotal objects) as [v Hv].
    unfold bind at 1, lift.
    change (ValidatedSoftwareInventoryItemReportView.report_last_run
              REPORT_FULL_RUN objects)
      with (full_run_last_run REPORT_FULL_RUN objects).
    rewrite Hv. unfold bind at 1. by rewrite Hrun.
Qed.

(** * The charts *)

Section charts.
Context {mpl : Matplotlib}.

Lemma getitems_frame aggr labels st :
  ∃ r, ReportOverviewHelper.getitems aggr labels st = (r, st).
Proof.
  induction labels as [|l ls [r IH]]; [by eexists|].
  cbn [ReportOverviewHelper.getitems]. unfold bind at 1, getitem at 1.
  destruct (heap st !! aggr ≫= (.!! l)); [|by eexists].
  unfold bind at 1. rewrite IH. destruct r; by eexists.
Qed.

Lemma draw_on_top a st fig figs :
  figures st = fig :: figs →
  ∃ r fig',
    draw a st = (r, mkState (heap st) (fig' :: figs))
    ∧ (r = inr tt ∨ ∃ e, r = inl e).
Proof.
  intros Hfigs. unfold draw. destruct st as [h fs]. cbn in *. subst fs.
  destruct (draw_error a) as [e|]; eexists _, _; eauto.
Qed.

Lemma draw_bars_on_top qs bars st fig figs :
  figures st = fig :: figs →
  ∃ r fig',
    ReportOverviewHelper.draw_bars qs bars st
    = (r, mkState (heap st) (fig' :: figs)).
Proof.
  revert st fig. induction bars as [|b bars IH]; intros st fig Hfigs.
  - destruct st as [h fs]. cbn in *. subst. by eexists _, _.
  - cbn [ReportOverviewHelper.draw_bars]. unfold bind at 1, lift.
    destruct (traverse _ qs) as [e|heights].
    { destruct st as [h fs]. cbn in *. subst. by eexists _, _. }
    unfold bind at 1.
    destruct (draw_on_top (Bar (bar_label b) heights) st fig figs Hfigs)
      as (r & fig' & -> & [->|[e ->]]).
    + destruct (IH (mkState (heap st) (fig' :: figs)) fig' eq_refl)
        as (r' & fig'' & ->). by eexists _, _.
    + by eexists _, _.
Qed.
End charts.

(** Whatever the tally, the rows and the plotting library: a plot call
    never changes a dict; it registers at most one figure with pyplot and
    never closes one; the pie chart returns [None] only with the state
    untouched; and whenever a call returns an image, it is the encoded PNG
    of the one figure the call registered, which is left on top of pyplot's
    figures. The bar chart never returns [None]. *)
Theorem plots_return_the_image_of_their_figure {mpl : Matplotlib} st :
  (∀ aggr attrs,
     plot_outcome st (ReportOverviewHelper.plot_piechart_visual aggr attrs st))
  ∧ (∀ qs attrs,
       plot_outcome st (ReportOverviewHelper.plot_barchart_visual qs attrs st)
       ∧ (ReportOverviewHelper.plot_barchart_visual qs attrs st).1
         ≠ inr VNone).
Proof.
  assert (∀ res, plot_outcome st (inl res, st)) as Hraise.
  { intros res. split; [|done]. split; [done|by left]. }
  assert (∀ res fig, plot_outcome st
            (inl res, mkState (heap st) (fig :: figures st))) as Hleft.
  { intros res fig. split; [|done]. split; [done|]. right. by eexists. }
  assert (∀ fig, plot_outcome st
            (inr (image fig), mkState (heap st) (fig :: figures st)))
    as Himage.
  { intros fig. split.
    - split; [done|]. right. by eexists.
    - cbn. by eexists. }
  split.
  - intros aggr attrs. unfold ReportOverviewHelper.plot_piechart_visual.
    destruct (aggr_labels attrs) as [|l ls] eqn:Hlabels.
    { apply Hraise. }
    unfold bind at 1, lift. cbn beta iota.
    unfold bind at 1, getitem at 1.
    destruct (heap st !! aggr ≫= (.!! l)) as [v|]; [|apply Hraise].
    destruct (is_None v) eqn:Hnone.
    { destruct v; try done. split; [|done]. split; [done|by left]. }
    unfold bind at 1.
    destruct (getitems_frame aggr (l :: ls) st) as [r ->].
    destruct r as [e|sizes]; [apply Hraise|].
    unfold bind at 1, plt_subplots. cbn beta iota.
    unfold bind at 1.
    destruct (draw_on_top (Pie sizes (chart_labels attrs))
                (mkState (heap st) ([] :: figures st)) [] (figures st)
                eq_refl) as (r & fig & -> & [->|[e ->]]); [|apply Hleft].
    cbn [heap]. unfold bind at 1, getitem at 1. cbn [heap].
    destruct (heap st !! aggr ≫= (.!! "name")) as [name|]; [|apply Hleft].
    unfold bind at 1.
    destruct (draw_on_top (Title name)
                (mkState (heap st) (fig :: figures st)) fig (figures st)
                eq_refl) as (r & fig' & -> & [->|[e ->]]); [|apply Hleft].
    cbn [heap]. unfold bind, savefig, ret. cbn [figures head default].
    apply Himage.
  - intros qs attrs.
    assert (∃ out,
              ReportOverviewHelper.plot_barchart_visual qs attrs st = out
              ∧ plot_outcome st out ∧ out.1 ≠ inr VNone)
      as (out & -> & Hout); [|done].
    unfold ReportOverviewHelper.plot_barchart_visual.
    unfold bind at 1, lift.
    destruct (traverse _ qs) as [e|labels]; [by eexists|].
    unfold bind at 1, plt_subplots. cbn beta iota.
    unfold bind at 1.
    destruct (draw_bars_on_top qs (chart_bars attrs)
                (mkState (heap st) ([] :: figures st)) [] (figures st)
                eq_refl) as (r & fig & ->).
    destruct r as [e|[]]; [by eexists|].
    cbn [heap]. unfold bind at 1.
    destruct (draw_on_top (YLabel (ylabel attrs))
                (mkState (heap st) (fig :: figures st)) fig (figures st)
                eq_refl) as (r & fig1 & -> & [->|[e ->]]); [|by eexists].
    cbn [heap]. unfold bind at 1.
    destruct (draw_on_top (Title (VStr (title attrs)))
                (mkState (heap st) (fig1 :: figures st)) fig1 (figures st)
                eq_refl) as (r & fig2 & -> & [->|[e ->]]); [|by eexists].
    cbn [heap]. unfold bind at 1.
    destruct (draw_on_top (XTickLabels labels)
                (mkState (heap st) (fig2 :: figures st)) fig2 (figures st)
                eq_refl) as (r & fig3 & -> & [->|[e ->]]); [|by eexists].
    cbn [heap]. unfold bind, savefig, ret. cbn [figures head default].
    eexists. split; [reflexivity|]. split; [apply Himage|done].
Qed.

(** ** The bar chart *)

Lemma traverse_dict_getitem_missing key (qs : list (gmap string PyVal)) item :
  item ∈ qs → item !! key = None →
  traverse (λ item, dict_getitem item key) qs = inl (KeyError key).
Proof.
  intros Hin Hnone. induction qs as [|x qs IH]; [by inversion Hin|].
  simpl. unfold dict_getitem at 1.
  destruct (x !! key) as [v|] eqn:Hx; [|done].
  rewrite IH; [done|].
  apply elem_of_cons in Hin as [->|Hin]; [congruence|done].
Qed.

Lemma traverse_dict_getitem_present key (qs : list (gmap string PyVal)) :
  (∀ item, item ∈ qs → is_Some (item !! key)) →
  ∃ vs, traverse (λ item, dict_getitem item key) qs = inr vs.
Proof.
  intros Hall. apply traverse_total. intros item [v Hv]%Hall.
  exists v. unfold dict_getitem. by rewrite Hv.
Qed.

(** A row without the label column stops the bar chart at its first line:
    [KeyError], with no figure registered and nothing changed. *)
Theorem plot_barchart_visual_row_without_label {mpl : Matplotlib} qs attrs st
    item :
  item ∈ qs →
  item !! label_accessor attrs = None →
  ReportOverviewHelper.plot_barchart_visual qs attrs st
  = (inl (KeyError (label_accessor attrs)), st).
Proof.
  intros Hin Hnone. unfold ReportOverviewHelper.plot_barchart_visual.
  unfold bind at 1, lift.
  by rewrite (traverse_dict_getitem_missing _ qs item).
Qed.

(** On one row that is the empty dict. *)
Lemma plot_barchart_visual_row_without_label_witness :
  ReportOverviewHelper.plot_barchart_visual (mpl := signature_only) [∅]
    ValidatedSoftwareDeviceReportView.bar_chart_attrs (one_tally ∅)
  = (inl (KeyError "device__platform__name"), one_tally ∅).
Proof.
  apply (plot_barchart_visual_row_without_label (mpl := signature_only) [∅]
           ValidatedSoftwareDeviceReportView.bar_chart_attrs (one_tally ∅) ∅).
  - left.
  - reflexivity.
Defined.

(** When every row has the label column but some row lacks the data
    attribute of the first bar series, the [KeyError] comes after
    [plt.subplots]: the call leaves an empty figure registered with
    pyplot. *)
Theorem plot_barchart_visual_row_without_data {mpl : Matplotlib} qs attrs st
    chart_bar rest item :
  (∀ item, item ∈ qs → is_Some (item !! label_accessor attrs)) →
  chart_bars attrs = chart_bar :: rest →
  item ∈ qs →
  item !! data_attr chart_bar = None →
  ReportOverviewHelper.plot_barchart_visual qs attrs st
  = (inl (KeyError (data_attr chart_bar)),
     mkState (heap st) ([] :: figures st)).
Proof.
  intros Hlabels Hbars Hin Hnone.
  unfold ReportOverviewHelper.plot_barchart_visual.
  destruct (traverse_dict_getitem_present _ qs Hlabels) as [labels Hl].
  unfold bind at 1, lift. rewrite Hl.
  unfold bind at 1, plt_subplots. cbn beta iota.
  unfold bind at 1. rewrite Hbars. cbn [ReportOverviewHelper.draw_bars].
  unfold bind at 1, lift.
  by rewrite (traverse_dict_getitem_missing _ qs item).
Qed.

(** On one row that has the platform name only. *)
Lemma plot_barchart_visual_row_without_data_witness :
  ReportOverviewHelper.plot_barchart_visual (mpl := signature_only)
    [{[ "device__platform__name" := VStr "cisco_ios" ]}]
    ValidatedSoftwareDeviceReportView.bar_chart_attrs (one_tally ∅)
  = (inl (KeyError "valid"), mkState (heap (one_tally ∅)) [[]]).
Proof.
  apply (plot_barchart_visual_row_without_data (mpl := signature_only)
           [{[ "device__platform__name" := VStr "cisco_ios" ]}]
           ValidatedSoftwareDeviceReportView.bar_chart_attrs (one_tally ∅)
           (mkChartBar "Valid" "valid" GREEN)
           [mkChartBar "Invalid" "invalid" RED;
            mkChartBar "No Software" "no_software" GREY]
           {[ "device__platform__name" := VStr "cisco_ios" ]}).
  - intros item Hitem. apply list_elem_of_singleton in Hitem as ->.
    by eexists.
  - reflexivity.
  - left.
  - reflexivity.
Defined.

Lemma values_dict_lookup column t :
  column ≠ "valid" → column ≠ "invalid" → column ≠ "no_software" →
  values_dict column t !! column = Some (from_option VStr VNone (group t))
  ∧ values_dict column t !! "valid" = Some (VInt (valid t))
  ∧ values_dict column t !! "invalid" = Some (VInt (invalid t))
  ∧ values_dict column t !! "no_software" = Some (VInt (no_software t)).
Proof.
  intros Hv Hi Hn. unfold values_dict.
  split; [by rewrite lookup_insert_eq|].
  rewrite !(lookup_insert_ne _ column) by done.
  by repeat split.
Qed.

Lemma traverse_values_dict column key (proj : Tally → PyVal) rows :
  (∀ t, values_dict column t !! key = Some (proj t)) →
  traverse (λ item, dict_getitem item key) (values_dict column <$> rows)
  = inr (proj <$> rows).
Proof.
  intros Hkey. induction rows as [|t rows IH]; [done|].
  rewrite fmap_cons. cbn [traverse]. unfold dict_getitem at 1.
  by rewrite Hkey, IH.
Qed.

Section drawing_library.
Context {mpl : Matplotlib} (Hdraws : draws_everything mpl).

Lemma draw_ok a h fig figs :
  draw a (mkState h (fig :: figs)) = (inr tt, mkState h ((fig ++ [a]) :: figs)).
Proof. unfold draw. by rewrite Hdraws. Qed.

(** The bar chart of a breakdown, as both [setup] methods call it. *)
Lemma plot_barchart_visual_breakdown column yl ti rows st :
  column ≠ "valid" → column ≠ "invalid" → column ≠ "no_software" →
  ReportOverviewHelper.plot_barchart_visual (values_dict column <$> rows)
    (mkBarChartAttrs column yl ti
       [mkChartBar "Valid" "valid" GREEN;
        mkChartBar "Invalid" "invalid" RED;
        mkChartBar "No Software" "no_software" GREY]) st
  = (inr (image (breakdown_figure yl ti rows)),
     mkState (heap st) (breakdown_figure yl ti rows :: figures st)).
Proof.
  intros Hv Hi Hn.
  pose proof (λ t, values_dict_lookup column t Hv Hi Hn) as Hlookup.
  unfold ReportOverviewHelper.plot_barchart_visual.
  cbn [label_accessor chart_bars ylabel title
       ReportOverviewHelper.draw_bars data_attr bar_label].
  rewrite (traverse_values_dict column column
             (λ t, from_option VStr VNone (group t)))
    by (intros t; apply Hlookup).
  rewrite (traverse_values_dict column "valid" (λ t, VInt (valid t)))
    by (intros t; apply Hlookup).
  rewrite (traverse_values_dict column "invalid" (λ t, VInt (invalid t)))
    by (intros t; apply Hlookup).
  rewrite (traverse_values_dict column "no_software"
             (λ t, VInt (no_software t)))
    by (intros t; apply Hlookup).
  unfold bind, lift, plt_subplots, savefig, ret.
  cbn [heap figures]. repeat (rewrite draw_ok; cbn [heap figures app]).
  reflexivity.
Qed.

(** The pie chart of a global tally. *)
Lemma plot_piechart_visual_global_tally {S E}
    (expression : ValidationResult S → option E) name rows st aggr attrs :
  aggr_labels attrs = ["valid"; "invalid"; "no_software"] →
  chart_labels attrs = ["Valid"; "Invalid"; "No Software"] →
  heap st !! aggr = Some (global_tally expression name rows) →
  ReportOverviewHelper.plot_piechart_visual aggr attrs st
  = (inr (image (tally_figure expression name rows)),
     mkState (heap st) (tally_figure expression name rows :: figures st)).
Proof.
  intros Hlabels Hchart Hd.
  rewrite (plot_piechart_visual_past_guard st aggr _ attrs "valid"
             ["invalid"; "no_software"]
             (VInt (Count expression (Some q_valid) rows))
             [VInt (Count expression (Some q_valid) rows);
              VInt (Count expression (Some q_invalid) rows);
              VInt (Count expression (Some q_no_software) rows)]
             (VStr name) Hlabels Hd);
    [|done|done|by rewrite Hlabels; repeat constructor|done].
  rewrite !Hdraws, Hchart. reflexivity.
Qed.
End drawing_library.

(** ** [setup] *)

(** With a filter set and a plotting library that draws everything, [setup]
    never fails and publishes: the time of the last full run, looked up
    over all results (the request's filter does not apply to it); the
    global tally of the filtered results, in a dict that did not exist
    before; the bar chart of the breakdown of the filtered results; and the
    pie chart of the global tally, which is never [None]. It leaves two
    more figures registered with pyplot, the pie chart on top. *)
Theorem setup_publishes_the_charts_of_the_filtered_results
    {mpl : Matplotlib} REPORT_FULL_RUN request st :
  draws_everything mpl →
  (∀ f objects,
     let filtered := List.filter (f (GET request)) objects in
     let bars :=
       breakdown_figure "Device" "Valid per Platform"
         (ValidatedSoftwareDeviceReportView._platform_qs filtered) in
     let pie :=
       tally_figure ValidatedSoftwareDeviceReportView.device "Devices"
         filtered in
     ∃ content st' when,
       ValidatedSoftwareDeviceReportView.setup REPORT_FULL_RUN (Some f)
         request objects st = (inr content, st')
       ∧ full_run_last_run REPORT_FULL_RUN objects = inr when
       ∧ last_full_run content = when
       ∧ bar_chart content = image bars
       ∧ global_visual content = image pie
       ∧ heap st !! global_aggr content = None
       ∧ heap st' !! global_aggr content
         = Some (global_tally ValidatedSoftwareDeviceReportView.device
                   "Devices" filtered)
       ∧ figures st' = pie :: bars :: figures st)
  ∧ (∀ f objects,
       let filtered := List.filter (f (GET request)) objects in
       let bars :=
         breakdown_figure "Inventory Item" "Valid per Manufacturer"
           (ValidatedSoftwareInventoryItemReportView._platform_qs filtered) in
       let pie :=
         tally_figure ValidatedSoftwareInventoryItemReportView.inventory_item
           "Inventory Items" filtered in
       ∃ content st' when,
         ValidatedSoftwareInventoryItemReportView.setup REPORT_FULL_RUN
           (Some f) request objects st = (inr content, st')
         ∧ full_run_last_run REPORT_FULL_RUN objects = inr when
         ∧ last_full_run content = when
         ∧ bar_chart content = image bars
         ∧ global_visual content = image pie
         ∧ heap st !! global_aggr content = None
         ∧ heap st' !! global_aggr content
           = Some (global_tally
                     ValidatedSoftwareInventoryItemReportView.inventory_item
                     "Inventory Items" filtered)
         ∧ figures st' = pie :: bars :: figures st).
Proof.
  intros Hdraws. split; intros f objects filtered bars pie.
  - destruct (full_run_last_run_reflects_full_runs_only (S := Device)
                REPORT_FULL_RUN) as (Htotal & _).
    destruct (Htotal objects) as [when Hwhen].
    destruct (run_global_aggr_spec ValidatedSoftwareDeviceReportView.device
                "Devices" filtered st)
      as (aggr & st1 & Hrun & Hfresh & Htally & Hfigs & _).
    exists (mkExtraContent (image bars) aggr (image pie) when),
           (mkState (heap st1) (pie :: bars :: figures st)), when.
    split; [|by repeat split].
    unfold ValidatedSoftwareDeviceReportView.setup.
    unfold bind at 1, lift.
    change (ValidatedSoftwareDeviceReportView.report_last_run REPORT_FULL_RUN
              objects) with (full_run_last_run REPORT_FULL_RUN objects).
    rewrite Hwhen. unfold bind at 1.
    rewrite device_get_global_aggr_unfold. fold filtered. rewrite Hrun.
    unfold bind at 1, lift.
    cbn [ValidatedSoftwareDeviceReportView.platform_qs]. fold filtered.
    unfold bind at 1.
    unfold ValidatedSoftwareDeviceReportView.bar_chart_attrs.
    rewrite (plot_barchart_visual_breakdown Hdraws) by done.
    unfold bind at 1.
    rewrite (plot_piechart_visual_global_tally Hdraws
               ValidatedSoftwareDeviceReportView.device "Devices" filtered)
      by done.
    unfold ret. cbn [heap figures]. by rewrite Hfigs.
  - destruct (full_run_last_run_reflects_full_runs_only (S := InventoryItem)
                REPORT_FULL_RUN) as (Htotal & _).
    destruct (Htotal objects) as [when Hwhen].
    destruct (run_global_aggr_spec
                ValidatedSoftwareInventoryItemReportView.inventory_item
                "Inventory Items" filtered st)
      as (aggr & st1 & Hrun & Hfresh & Htally & Hfigs & _).
    exists (mkExtraContent (image bars) aggr (image pie) when),
           (mkState (heap st1) (pie :: bars :: figures st)), when.
    split; [|by repeat split].
    unfold ValidatedSoftwareInventoryItemReportView.setup.
    unfold bind at 1, lift.
    change (ValidatedSoftwareInventoryItemReportView.report_last_run
              REPORT_FULL_RUN objects)
      with (full_run_last_run REPORT_FULL_RUN objects).
    rewrite Hwhen. unfold bind at 1.
    rewrite inventory_get_global_aggr_unfold. fold filtered. rewrite Hrun.
    unfold bind at 1, lift.
    cbn [ValidatedSoftwareInventoryItemReportView.platform_qs]. fold filtered.
    unfold bind at 1.
    unfold ValidatedSoftwareInventoryItemReportView.bar_chart_attrs.
    rewrite (plot_barchart_visual_breakdown Hdraws) by done.
    unfold bind at 1.
    rewrite (plot_piechart_visual_global_tally Hdraws
               ValidatedSoftwareInventoryItemReportView.inventory_item
               "Inventory Items" filtered) by done.
    unfold ret. cbn [heap figures]. by rewrite Hfigs.
Qed.

(** A validated switch with a platform and a router without one, no filter
    in the request, a library that writes the PNG signature. *)
Lemma setup_publishes_the_charts_of_the_filtered_results_witness :
  ∃ content st',
    ValidatedSoftwareDeviceReportView.setup (mpl := signature_only) full_run
      (Some all_rows) no_request [validated_switch; invalid_router 2]
      (mkState ∅ [])
    = (inr content, st')
    ∧ last_full_run content = Some 1700000000
    ∧ bar_chart content = VStr "iVBORw0KGgo%3D"
    ∧ global_visual content = VStr "iVBORw0KGgo%3D"
    ∧ figures st'
      = [[Pie [VInt 1; VInt 1; VInt 0] ["Valid"; "Invalid"; "No Software"];
          Title (VStr "Devices")];
         [Bar "Valid" [VInt 1; VInt 0];
          Bar "Invalid" [VInt 0; VInt 0];
          Bar "No Software" [VInt 0; VInt 0];
          YLabel "Device";
          Title (VStr "Valid per Platform");
          XTickLabels [VStr "cisco_ios"; VNone]]].
Proof.
  destruct (setup_publishes_the_charts_of_the_filtered_results
              (mpl := signature_only) full_run no_request (mkState ∅ [])
              (λ _, eq_refl)) as [Hdevice _].
  destruct (Hdevice all_rows [validated_switch; invalid_router 2])
    as (content & st' & when & Hrun & Hwhen & Hlast & Hbar & Hpie & _ & _
        & Hfigs).
  exists content, st'. split; [exact Hrun|].
  split.
  { rewrite Hlast. vm_compute in Hwhen. congruence. }
  split; [rewrite Hbar; reflexivity|].
  split; [rewrite Hpie; reflexivity|].
  rewrite Hfigs. vm_compute. reflexivity.
Defined.

(** * Further properties of [calculate_aggr_percentage] *)

(** Every run either raises with the state untouched or gets to the
    assignment. *)
Lemma calculate_aggr_percentage_cases st aggr :
  (∃ e,
     ReportOverviewHelper.calculate_aggr_percentage aggr st = (inl e, st)
     ∧ (e = KeyError "valid" ∧ heap st !! aggr ≫= (.!! "valid") = None
        ∨ e = KeyError "total" ∧ is_Some (heap st !! aggr ≫= (.!! "valid"))
          ∧ heap st !! aggr ≫= (.!! "total") = None
        ∨ e = TypeError ∨ e = OverflowError))
  ∨ (∃ d v t x,
       heap st !! aggr = Some d
       ∧ d !! "valid" = Some v
       ∧ d !! "total" = Some t
       ∧ (py_truediv v t = inl ZeroDivisionError ∧ x = VInt 0
          ∨ ∃ q, py_truediv v t = inr q
                 ∧ x = VFloat (py_round (PrimFloat.mul q 100%float) 2))).
Proof.
  destruct (heap st !! aggr) as [d|] eqn:Hd.
  2:{ left. exists (KeyError "valid").
      unfold ReportOverviewHelper.calculate_aggr_percentage.
      unfold bind, try_except, getitem. rewrite Hd. by auto. }
  destruct (d !! "valid") as [v|] eqn:Hv.
  2:{ left. exists (KeyError "valid").
      unfold ReportOverviewHelper.calculate_aggr_percentage.
      unfold bind, try_except, getitem. rewrite Hd.
      cbn [mbind option_bind]. rewrite Hv. by auto. }
  destruct (d !! "total") as [t|] eqn:Ht.
  2:{ left. exists (KeyError "total").
      unfold ReportOverviewHelper.calculate_aggr_percentage.
      unfold bind, try_except, getitem. rewrite Hd.
      cbn [mbind option_bind]. rewrite Hv. cbn beta iota. rewrite Hd.
      cbn [mbind option_bind]. rewrite Ht. by eauto 10. }
  destruct (py_truediv v t) as [e|q] eqn:Hq.
  - destruct (py_truediv_errors v t e Hq) as [->|He].
    { right. exists d, v, t, (VInt 0). repeat (split; [done|]). by left. }
    left. exists e.
    unfold ReportOverviewHelper.calculate_aggr_percentage.
    unfold bind, try_except, getitem, lift. rewrite Hd.
    cbn [mbind option_bind]. rewrite Hv. cbn beta iota. rewrite Hd.
    cbn [mbind option_bind]. rewrite Ht. cbn beta iota. rewrite Hq.
    by destruct He as [-> | ->]; auto.
  - right. exists d, v, t. eexists. repeat (split; [done|]).
    right. by exists q.
Qed.

(** The outcomes of [calculate_aggr_percentage], whatever the dict holds.
    It never raises [ZeroDivisionError]. What it can raise is [KeyError]
    for [valid] or for [total] (looked up in that order), [TypeError] or
    [OverflowError], and then nothing at all has changed: no
    [valid_percent] is written. Otherwise it returns its argument with
    [valid_percent] set to the integer 0 or to a float. *)
Theorem calculate_aggr_percentage_outcomes st aggr :
  match ReportOverviewHelper.calculate_aggr_percentage aggr st with
  | (inl e, st') =>
      st' = st
      ∧ (e = KeyError "valid" ∧ heap st !! aggr ≫= (.!! "valid") = None
         ∨ e = KeyError "total" ∧ is_Some (heap st !! aggr ≫= (.!! "valid"))
           ∧ heap st !! aggr ≫= (.!! "total") = None
         ∨ e = TypeError ∨ e = OverflowError)
  | (inr r, st') =>
      r = aggr
      ∧ (heap st' !! aggr ≫= (.!! "valid_percent") = Some (VInt 0)
         ∨ ∃ x, heap st' !! aggr ≫= (.!! "valid_percent") = Some (VFloat x))
  end.
Proof.
  destruct (calculate_aggr_percentage_cases st aggr)
    as [(e & -> & He)|(d & v & t & x & Hd & Hv & Ht & Hx)]; [done|].
  rewrite (calculate_aggr_percentage_sets st aggr d v t x) by done.
  split; [done|]. cbn [heap]. rewrite lookup_insert_eq. cbn.
  rewrite lookup_insert_eq.
  destruct Hx as [[_ ->]|(q & _ & ->)]; [by left|right; by eexists].
Qed.

(** Percentages are recomputed from [valid] and [total], which a call
    leaves alone: calling [calculate_aggr_percentage] again on the state it
    left gives the same outcome and the same state. *)
Theorem calculate_aggr_percentage_idempotent st aggr :
  ReportOverviewHelper.calculate_aggr_percentage aggr
    (ReportOverviewHelper.calculate_aggr_percentage aggr st).2
  = ReportOverviewHelper.calculate_aggr_percentage aggr st.
Proof.
  destruct (calculate_aggr_percentage_cases st aggr)
    as [(e & Hrun & _)|(d & v & t & x & Hd & Hv & Ht & Hx)].
  { by rewrite Hrun. }
  rewrite (calculate_aggr_percentage_sets st aggr d v t x) by done.
  cbn [snd].
  rewrite (calculate_aggr_percentage_sets _ aggr
             (<["valid_percent" := x]> d) v t x).
  - cbn [heap figures]. by rewrite !insert_insert_eq.
  - cbn [heap]. by rewrite lookup_insert_eq.
  - by rewrite lookup_insert_ne.
  - by rewrite lookup_insert_ne.
  - done.
Qed.

(** * Further properties of the [assigned_to] field *)

(** [get_assigned_to] subscripts the serializer context only after it has
    found an assigned object: it raises exactly when the policy resolves
    to an object and the context holds no request, and what it raises is
    [KeyError] for [request]. A policy that resolves to no object
    serializes to [null] with or without a request. *)
Theorem get_assigned_to_needs_a_request_only_for_a_target {Repr : Type}
    {ns : NestedSerializers Repr} (self_context : gmap string HttpRequest)
    (db : Database) (obj : ValidatedSoftwareLCM) :
  ((∃ e, ValidatedSoftwareLCMSerializer.get_assigned_to self_context db obj
         = inl e)
   ↔ is_Some (assigned_to db obj) ∧ self_context !! "request" = None)
  ∧ (∀ e, ValidatedSoftwareLCMSerializer.get_assigned_to self_context db obj
          = inl e → e = KeyError "request")
  ∧ (ValidatedSoftwareLCMSerializer.get_assigned_to self_context db obj
     = inr None ↔ assigned_to db obj = None).
Proof.
  unfold ValidatedSoftwareLCMSerializer.get_assigned_to.
  destruct (assigned_to db obj) as [target|].
  - assert (∃ ser, ValidatedSoftwareLCMSerializer.get_serializer_for_model
                     target = inr ser) as [ser ->]
      by (destruct target; by eexists).
    destruct (self_context !! "request") as [request|].
    + split; [|split].
      * split; [by intros [e ?]|by intros [_ ?]].
      * by intros e.
      * split; by intros.
    + split; [|split].
      * split; [by eauto|by eexists].
      * by intros e [= <-].
      * split; by intros.
  - split; [|split].
    + split; [by intros [e ?]|by intros [[? ?] _]].
    + by intros e.
    + done.
Qed.

(** * The detail views *)

Lemma elem_of_List_filter {A} (p : A → bool) l x :
  x ∈ List.filter p l ↔ x ∈ l ∧ p x = true.
Proof. rewrite !list_elem_of_In. apply filter_In. Qed.

Lemma sublist_List_filter {A} (p : A → bool) l : List.filter p l `sublist_of` l.
Proof.
  induction l as [|x l IH]; [done|]. simpl.
  destruct (p x); by constructor.
Qed.

Lemma List_filter_perm_split {A} (p q : A → bool) l :
  List.filter (λ x, q x && negb (p x)) l ++ List.filter (λ x, q x && p x) l
  ≡ₚ List.filter q l.
Proof.
  induction l as [|x l IH]; [done|]. simpl.
  destruct (q x), (p x); simpl; rewrite <- ?IH; try done.
  by rewrite <- Permutation_middle.
Qed.

Lemma List_filter_filter {A} (p q : A → bool) l :
  List.filter p (List.filter q l) = List.filter (λ x, q x && p x) l.
Proof.
  induction l as [|x l IH]; [done|]. simpl.
  destruct (q x); simpl; [destruct (p x)|]; by rewrite ?IH.
Qed.

Global Instance by_type_priority_total : Total by_type_priority.
Proof.
  intros a b. unfold by_type_priority.
  destruct (decide (type a = type b)) as [Hab|Hab],
           (decide (type b = type a)) as [Hba|Hba]; try congruence.
  - lia.
  - apply String.le_total.
Qed.

Global Instance by_type_priority_trans : Transitive by_type_priority.
Proof.
  intros a b c. unfold by_type_priority.
  destruct (decide (type a = type b)) as [Hab|Hab],
           (decide (type b = type c)) as [Hbc|Hbc],
           (decide (type a = type c)) as [Hac|Hac]; try congruence.
  - lia.
  - intros H1 H2. destruct Hab. rewrite Hac in H1.
    rewrite Hac. by apply (anti_symm String.le).
  - intros H1 H2. by etrans.
Qed.

Lemma occurrences_app `{EqDecision A} (x : A) l1 l2 :
  occurrences x (l1 ++ l2) = (occurrences x l1 + occurrences x l2)%nat.
Proof. unfold occurrences. by rewrite List.filter_app, length_app. Qed.

Lemma occurrences_cons `{EqDecision A} (x y : A) l :
  occurrences x (y :: l)
  = ((if decide (y = x) then 1 else 0) + occurrences x l)%nat.
Proof.
  unfold occurrences. simpl. rewrite bool_decide_decide.
  by destruct (decide (y = x)).
Qed.

Lemma occurrences_const `{EqDecision A} {B} (x y : A) (l : list B) :
  occurrences x ((λ _, y) <$> l)
  = if decide (y = x) then length l else 0%nat.
Proof.
  induction l as [|b l IH]; [by destruct (decide _)|].
  rewrite fmap_cons, occurrences_cons, IH.
  by destruct (decide (y = x)).
Qed.

Section detail_views.
Context {User : Type} {perms : ObjectPermissions User}.

(** The devices a hardware notice lists are devices the user may view: by
    device type when the notice has one (the part id is then not looked
    at), and otherwise the devices with an inventory item of the notice's
    non-empty part id. By device type no device is listed more often than
    the table has it; by part id a device is listed once for each of its
    inventory items with that part id. A notice with neither lists
    nothing. *)
Theorem hardware_notice_devices (user : User) (instance : HardwareLCM)
    (Device_objects : list DeviceRow) :
  let devices :=
    HardwareLCMView.get_extra_context user instance Device_objects in
  (∀ d,
     d ∈ devices ↔
     d ∈ Device_objects ∧ may_view_device user d = true
     ∧ match hardware_device_type instance with
       | Some device_type => row_device_type d = device_type
       | None =>
           ∃ part,
             hardware_inventory_item instance = Some part ∧ part ≠ ""
             ∧ part ∈ inventoryitems__part_id d
       end)
  ∧ match hardware_device_type instance, hardware_inventory_item instance
    with
    | Some _, _ => devices `sublist_of` Device_objects
    | None, Some part =>
        part = "" ∧ devices = []
        ∨ part ≠ ""
          ∧ ∀ d, occurrences d devices
                 = (occurrences d
                      (List.filter (may_view_device user) Device_objects)
                    * occurrences part (inventoryitems__part_id d))%nat
    | None, None => devices = []
    end.
Proof.
  intros devices. subst devices. unfold HardwareLCMView.get_extra_context.
  destruct (hardware_device_type instance) as [device_type|].
  { split.
    - intros d. rewrite !elem_of_List_filter, bool_decide_eq_true. tauto.
    - etrans; apply sublist_List_filter. }
  destruct (hardware_inventory_item instance) as [part|]; cbn [str_truthy].
  2:{ split; [|done]. intros d. split; [by intros ?%elem_of_nil|].
      by intros (_ & _ & part & ? & _). }
  destruct part as [|c part].
  { split; [|by left]. intros d. split; [by intros ?%elem_of_nil|].
    by intros (_ & _ & part & [= <-] & ? & _). }
  set (p := String c part).
  split.
  - intros d. rewrite list_elem_of_In, in_flat_map.
    setoid_rewrite <- list_elem_of_In.
    setoid_rewrite elem_of_List_filter.
    setoid_rewrite list_elem_of_fmap.
    setoid_rewrite elem_of_List_filter.
    setoid_rewrite bool_decide_eq_true.
    split.
    + intros (d' & [Hin Hview] & part' & -> & Hpart & [= ->]).
      repeat (split; [done|]). by exists p.
    + intros (Hin & Hview & part' & [= <-] & _ & Hpart).
      exists d. split; [done|]. by exists p.
  - right. split; [done|]. intros d.
    induction Device_objects as [|a l IH]; [done|].
    cbn [List.filter]. destruct (may_view_device user a).
    + cbn [flat_map]. rewrite occurrences_app, IH, occurrences_const.
      rewrite occurrences_cons.
      destruct (decide (a = d)) as [->|]; [|lia].
      assert (length
                (List.filter (λ part0, bool_decide (Some part0 = Some p))
                   (inventoryitems__part_id d))
              = occurrences p (inventoryitems__part_id d)) as ->; [|lia].
      unfold occurrences. f_equal. apply List.filter_ext.
      intros y. apply bool_decide_ext. split; [by intros [= ->]|by intros ->].
    + apply IH.
Qed.

(** The contacts page of a contract splits the contacts of the contract
    that the user may view in two: [owners] holds those of type [Owner]
    and [contacts] all the others, each contact in exactly one of them as
    often as the table has it. [contacts] is ordered by type and, within a
    type, by priority; [owners], all of one type, by priority. *)
Theorem contract_contacts_and_owners (user : User) (instance : ContractLCM)
    (ContactLCM_objects : list ContactLCM) :
  let context :=
    ContractLCMView.get_extra_context user instance ContactLCM_objects in
  ContractLCMView.contacts context ++ ContractLCMView.owners context
  ≡ₚ List.filter (λ c, may_view_contact user c
                       && bool_decide (contract c = contract_pk instance))
       ContactLCM_objects
  ∧ Forall (λ c, type c ≠ "Owner") (ContractLCMView.contacts context)
  ∧ Forall (λ c, type c = "Owner") (ContractLCMView.owners context)
  ∧ StronglySorted by_type_priority (ContractLCMView.contacts context)
  ∧ StronglySorted (λ a b, priority a ≤ priority b)
      (ContractLCMView.owners context).
Proof.
  intros context. subst context.
  unfold ContractLCMView.get_extra_context.
  cbn [ContractLCMView.contacts ContractLCMView.owners].
  assert (Forall (λ c, type c = "Owner")
            (merge_sort by_type_priority
               (List.filter
                  (λ c, bool_decide (contract c = contract_pk instance)
                        && bool_decide (type c = "Owner"))
                  (List.filter (may_view_contact user) ContactLCM_objects))))
    as Howners.
  { rewrite merge_sort_Permutation. apply Forall_forall.
    intros c [_ [_ ?%bool_decide_eq_true]%andb_prop]%elem_of_List_filter.
    done. }
  split; [|split; [|split; [|split]]].
  - rewrite !merge_sort_Permutation, !List_filter_filter.
    etrans;
      [|apply (List_filter_perm_split
                 (λ c, bool_decide (type c = "Owner"))
                 (λ c, may_view_contact user c
                       && bool_decide (contract c = contract_pk instance)))].
    assert (∀ f g : ContactLCM → bool,
              (∀ c, f c = g c) →
              List.filter f ContactLCM_objects
              ≡ₚ List.filter g ContactLCM_objects) as Hext.
    { intros f g Hfg. by rewrite (List.filter_ext f g Hfg). }
    f_equiv; apply Hext; intros c; by rewrite !andb_assoc.
  - rewrite merge_sort_Permutation. apply Forall_forall.
    intros c [_ Hc]%elem_of_List_filter Heq.
    by rewrite bool_decide_true in Hc.
  - done.
  - apply (StronglySorted_merge_sort by_type_priority).
  - pose proof (StronglySorted_merge_sort by_type_priority
                  (List.filter
                     (λ c, bool_decide (contract c = contract_pk instance)
                           && bool_decide (type c = "Owner"))
                     (List.filter (may_view_contact user)
                        ContactLCM_objects))) as Hsorted.
    induction Hsorted as [|a l _ IH Hall]; [constructor|].
    apply Forall_cons in Howners as [Ha Hl].
    constructor; [by apply IH|].
    rewrite Forall_forall in Hall, Hl. apply Forall_forall. intros b Hb.
    specialize (Hall b Hb). unfold by_type_priority in Hall.
    rewrite decide_True in Hall; [done|]. by rewrite Ha, (Hl b Hb).
Qed.

(** The contracts a provider page lists are exactly the contracts of the
    provider that the user may view, in the order of the table and no more
    often than the table has them. *)
Theorem provider_contracts (user : User) (instance : ProviderLCM)
    (ContractLCM_objects : list ContractLCM) :
  let contracts :=
    ProviderLCMView.get_extra_context user instance ContractLCM_objects in
  (∀ c, c ∈ contracts ↔
        c ∈ ContractLCM_objects ∧ may_view_contract user c = true
        ∧ provider c = provider_pk instance)
  ∧ contracts `sublist_of` ContractLCM_objects.
Proof.
  intros contracts. subst contracts.
  unfold ProviderLCMView.get_extra_context. split.
  - intros c. rewrite !elem_of_List_filter, bool_decide_eq_true. tauto.
  - etrans; apply sublist_List_filter.
Qed.
End detail_views.

(** * The encoding of the images *)

Lemma list_ind3 {A} (P : list A → Prop) :
  P [] → (∀ a, P [a]) → (∀ a b, P [a; b]) →
  (∀ a b c l, P l → P (a :: b :: c :: l)) →
  ∀ l, P l.
Proof.
  intros H0 H1 H2 H3 l.
  enough (P l ∧ (∀ a, P (a :: l)) ∧ ∀ a b, P (a :: b :: l)) by tauto.
  induction l as [|x l (IH0 & IH1 & IH2)]; [by auto|].
  split; [apply IH1|]. split; [intros a; apply IH2|].
  intros a b. by apply H3.
Qed.

Lemma b64encode_group a b c rest :
  b64encode (a :: b :: c :: rest)
  = let n := Z.lor (Z.lor (Z.shiftl (byte_to_Z a) 16)
                          (Z.shiftl (byte_to_Z b) 8)) (byte_to_Z c) in
    String (b64_char (Z.shiftr n 18))
      (String (b64_char (Z.shiftr n 12))
         (String (b64_char (Z.shiftr n 6))
            (String (b64_char n) (b64encode rest)))).
Proof. reflexivity. Qed.

Lemma b64encode_length bs :
  String.length (b64encode bs) = (4 * ((length bs + 2) / 3))%nat.
Proof.
  induction bs as [| | |a b c rest IH] using list_ind3; [done..|].
  rewrite b64encode_group. cbn zeta. cbn [String.length length]. rewrite IH.
  replace (S (S (S (length rest))) + 2)%nat
    with (1 * 3 + (length rest + 2))%nat by lia.
  rewrite Nat.div_add_l by lia. lia.
Qed.

(** ** Unescaping *)

Lemma unquote_quote_char c s :
  unquote_to_bytes (quote (String c s))
  = String c (unquote_to_bytes (quote s)).
Proof. destruct c as [[] [] [] [] [] [] [] []]; reflexivity. Qed.

Lemma unquote_quote s : unquote_to_bytes (quote s) = s.
Proof.
  induction s as [|c s IH]; [done|]. by rewrite unquote_quote_char, IH.
Qed.

(** ** Decoding *)

Lemma b64_alphabet_nth (n : nat) :
  (n < 64)%nat →
  b64_index (nth n b64_alphabet "="%char) = Some (Z.of_nat n)
  ∧ Ascii.eqb (nth n b64_alphabet "="%char) "=" = false
  ∧ (quote_safe (nth n b64_alphabet "="%char) = true
     ∧ image_char (nth n b64_alphabet "="%char) = true
     ∨ nth n b64_alphabet "="%char = "+"%char).
Proof.
  intros Hn.
  do 64 (destruct n as [|n]; [vm_compute; by auto|]). lia.
Qed.

Lemma land_63_range i : 0 ≤ Z.land i 63 < 64.
Proof.
  change 63 with (Z.ones 6). rewrite Z.land_ones by done.
  by apply Z.mod_pos_bound.
Qed.

Lemma b64_char_spec i :
  b64_index (b64_char i) = Some (Z.land i 63)
  ∧ Ascii.eqb (b64_char i) "=" = false
  ∧ (quote_safe (b64_char i) = true ∧ image_char (b64_char i) = true
     ∨ b64_char i = "+"%char).
Proof.
  pose proof (land_63_range i) as Hi. unfold b64_char.
  destruct (b64_alphabet_nth (Z.to_nat (Z.land i 63))) as (Hn & ? & ?);
    [lia|].
  rewrite Z2Nat.id in Hn by lia. done.
Qed.

Lemma byte_to_Z_range b : 0 ≤ byte_to_Z b < 256.
Proof. unfold byte_to_Z. pose proof (Byte.to_N_bounded b). lia. Qed.

Lemma byte_of_to_Z b : byte_of_Z (byte_to_Z b) = b.
Proof.
  unfold byte_of_Z, byte_to_Z. by rewrite N2Z.id, Byte.of_to_N.
Qed.

Lemma lor_shiftl_add y k x :
  0 ≤ k → 0 ≤ x < 2 ^ k → Z.lor (Z.shiftl y k) x = y * 2 ^ k + x.
Proof.
  intros Hk Hx. rewrite Z.shiftl_mul_pow2 by done.
  assert (Z.land (y * 2 ^ k) x = 0) as Hland.
  { apply Z.bits_inj'. intros n Hn. rewrite Z.land_spec, Z.bits_0.
    destruct (Z.lt_ge_cases n k).
    - by rewrite Z.mul_pow2_bits_low.
    - rewrite <- (Z.mod_small x (2 ^ k)) by done.
      rewrite Z.mod_pow2_bits_high by lia. apply andb_false_r. }
  by rewrite Z.add_nocarry_lxor, Z.lxor_lor.
Qed.

(** The four indices of a group give its three bytes back. *)
Lemma b64_group_bytes A B C :
  0 ≤ A < 256 → 0 ≤ B < 256 → 0 ≤ C < 256 →
  let n := Z.lor (Z.lor (Z.shiftl A 16) (Z.shiftl B 8)) C in
  Z.land (Z.shiftr n 18) 63 * 4 + Z.land (Z.shiftr n 12) 63 / 16 = A
  ∧ Z.land (Z.shiftr n 12) 63 mod 16 * 16 + Z.land (Z.shiftr n 6) 63 / 4 = B
  ∧ Z.land (Z.shiftr n 6) 63 mod 4 * 64 + Z.land n 63 = C.
Proof.
  intros HA HB HC n.
  assert (n = A * 65536 + B * 256 + C) as ->.
  { subst n. rewrite (Z.shiftl_mul_pow2 B 8) by done.
    rewrite (lor_shiftl_add A 16 (B * 2 ^ 8)) by lia.
    replace (A * 2 ^ 16 + B * 2 ^ 8) with (Z.shiftl (A * 256 + B) 8)
      by (rewrite Z.shiftl_mul_pow2 by done; lia).
    rewrite (lor_shiftl_add (A * 256 + B) 8 C) by lia. lia. }
  change 63 with (Z.ones 6). rewrite !Z.land_ones by done.
  rewrite !Z.shiftr_div_pow2 by done.
  change (2 ^ 18) with 262144. change (2 ^ 12) with 4096.
  change (2 ^ 6) with 64.
  repeat split; Z.div_mod_to_equations; lia.
Qed.

Lemma b64decode_group c1 c2 c3 c4 i1 i2 i3 i4 rest tail :
  b64_index c1 = Some i1 → b64_index c2 = Some i2 →
  b64_index c3 = Some i3 → b64_index c4 = Some i4 →
  Ascii.eqb c3 "=" = false → Ascii.eqb c4 "=" = false →
  b64decode rest = Some tail →
  b64decode (String c1 (String c2 (String c3 (String c4 rest))))
  = Some (byte_of_Z (i1 * 4 + i2 / 16)
          :: byte_of_Z (i2 mod 16 * 16 + i3 / 4)
          :: byte_of_Z (i3 mod 4 * 64 + i4) :: tail).
Proof.
  intros H1 H2 H3 H4 E3 E4 Hrest. cbn [b64decode].
  by rewrite H1, H2, E3, H3, E4, H4, Hrest.
Qed.

Lemma b64decode_two c1 c2 c3 i1 i2 i3 :
  b64_index c1 = Some i1 → b64_index c2 = Some i2 →
  b64_index c3 = Some i3 → Ascii.eqb c3 "=" = false →
  b64decode (String c1 (String c2 (String c3 "=")))
  = Some [byte_of_Z (i1 * 4 + i2 / 16); byte_of_Z (i2 mod 16 * 16 + i3 / 4)].
Proof.
  intros H1 H2 H3 E3. cbn [b64decode]. by rewrite H1, H2, E3, H3.
Qed.

Lemma b64decode_one c1 c2 i1 i2 :
  b64_index c1 = Some i1 → b64_index c2 = Some i2 →
  b64decode (String c1 (String c2 "=="))
  = Some [byte_of_Z (i1 * 4 + i2 / 16)].
Proof. intros H1 H2. cbn [b64decode]. by rewrite H1, H2. Qed.

Lemma b64decode_b64encode bs : b64decode (b64encode bs) = Some bs.
Proof.
  induction bs as [|a|a b|a b c rest IH] using list_ind3.
  - done.
  - pose proof (byte_to_Z_range a) as Ha.
    destruct (b64_group_bytes (byte_to_Z a) 0 0) as (HA & _); [lia..|].
    cbn zeta in HA. rewrite Z.shiftl_0_l, !Z.lor_0_r in HA.
    cbn [b64encode]. cbn zeta.
    rewrite (b64decode_one _ _ _ _ (proj1 (b64_char_spec _))
               (proj1 (b64_char_spec _))).
    by rewrite HA, byte_of_to_Z.
  - pose proof (byte_to_Z_range a) as Ha.
    pose proof (byte_to_Z_range b) as Hb.
    destruct (b64_group_bytes (byte_to_Z a) (byte_to_Z b) 0)
      as (HA & HB & _); [lia..|].
    cbn zeta in HA, HB. rewrite !Z.lor_0_r in HA, HB.
    cbn [b64encode]. cbn zeta.
    rewrite (b64decode_two _ _ _ _ _ _ (proj1 (b64_char_spec _))
               (proj1 (b64_char_spec _)) (proj1 (b64_char_spec _))
               (proj1 (proj2 (b64_char_spec _)))).
    by rewrite HA, HB, !byte_of_to_Z.
  - pose proof (byte_to_Z_range a) as Ha.
    pose proof (byte_to_Z_range b) as Hb.
    pose proof (byte_to_Z_range c) as Hc.
    destruct (b64_group_bytes (byte_to_Z a) (byte_to_Z b) (byte_to_Z c))
      as (HA & HB & HC); [lia..|].
    cbn zeta in HA, HB, HC.
    rewrite b64encode_group. cbn zeta.
    rewrite (b64decode_group _ _ _ _ _ _ _ _ _ rest
               (proj1 (b64_char_spec _)) (proj1 (b64_char_spec _))
               (proj1 (b64_char_spec _)) (proj1 (b64_char_spec _))
               (proj1 (proj2 (b64_char_spec _)))
               (proj1 (proj2 (b64_char_spec _))) IH).
    by rewrite HA, HB, HC, !byte_of_to_Z.
Qed.

(** The image a plot function returns loses nothing of the figure's PNG
    stream: unescaping the string and decoding it as base64 gives the
    stream back, so two figures have the same image only if their streams
    are equal. Unescaped, the string is four characters for every three
    bytes of the stream, rounded up. *)
Theorem image_decodes_to_the_png {mpl : Matplotlib} (fig : list Artist) :
  ∃ s,
    image fig = VStr s
    ∧ unquote_to_bytes s = b64encode (savefig_png fig)
    ∧ b64decode (unquote_to_bytes s) = Some (savefig_png fig)
    ∧ String.length (unquote_to_bytes s)
      = (4 * ((length (savefig_png fig) + 2) / 3))%nat
    ∧ ∀ fig', image fig' = image fig → savefig_png fig' = savefig_png fig.
Proof.
  eexists. split; [done|]. rewrite unquote_quote.
  split; [done|]. split; [apply b64decode_b64encode|].
  split; [apply b64encode_length|].
  intros fig' [= Heq].
  apply (f_equal unquote_to_bytes) in Heq. rewrite !unquote_quote in Heq.
  apply (f_equal b64decode) in Heq. rewrite !b64decode_b64encode in Heq.
  congruence.
Qed.

(** ** The characters of an image *)

Lemma quote_b64_char i s :
  Forall (λ c, image_char c = true) (list_ascii_of_string (quote s)) →
  Forall (λ c, image_char c = true)
    (list_ascii_of_string (quote (String (b64_char i) s))).
Proof.
  intros Hs. destruct (b64_char_spec i) as (_ & _ & [[Hsafe Himg]| ->]).
  - cbn [quote]. rewrite Hsafe. by constructor.
  - change (quote (String "+" s)) with (String "%" (String "2" (String "B" (quote s)))).
    by repeat constructor.
Qed.

Lemma quote_b64encode_chars bs :
  Forall (λ c, image_char c = true)
    (list_ascii_of_string (quote (b64encode bs))).
Proof.
  induction bs as [|a|a b|a b c rest IH] using list_ind3.
  - constructor.
  - cbn [b64encode]. cbn zeta. do 2 apply quote_b64_char.
    by repeat constructor.
  - cbn [b64encode]. cbn zeta. do 3 apply quote_b64_char.
    by repeat constructor.
  - rewrite b64encode_group. cbn zeta. by do 4 apply quote_b64_char.
Qed.

(** An image is made of letters, digits, [/] and [%] only: the [+] and
    the padding [=] of base64 never occur unescaped, so the string can be
    put in a URL as it is. It is empty only for an empty PNG stream. *)
Theorem image_is_url_safe {mpl : Matplotlib} (fig : list Artist) :
  ∃ s,
    image fig = VStr s
    ∧ Forall (λ c, image_char c = true) (list_ascii_of_string s)
    ∧ (s = "" ↔ savefig_png fig = []).
Proof.
  eexists. split; [done|]. split; [apply quote_b64encode_chars|].
  split.
  - intros Hs. destruct (savefig_png fig) as [|a bs] eqn:Hpng; [done|].
    exfalso. revert Hs. by apply quote_nonempty, b64encode_nonempty.
  - by intros ->.
Qed.

(** * The report table and the global tally *)

Lemma values_annotate_sum_Count {S} (key : ValidationResult S → option string)
    qv qi qn rows (field : Tally → Z) (filter : option Q) :
  (∀ k g, field (mkTally k (Count key None g) (Count key (Some qv) g)
                         (Count key (Some qi) g) (Count key (Some qn) g))
          = Count key filter g) →
  sum_Z (field <$> values_annotate key qv qi qn rows) = Count key filter rows.
Proof.
  intros Hfield. unfold values_annotate. rewrite <- list_fmap_compose.
  transitivity
    (sum_Z ((λ k, count_rows
                    (λ x, bool_decide (key x = k)
                          && match key x with
                             | Some _ =>
                                 from_option (λ q, Q_matches q x) true filter
                             | None => false
                             end) rows)
            <$> remove_dups (key <$> rows))).
  - f_equal. apply list_fmap_ext. intros _ k _. cbn.
    rewrite Hfield. unfold Count, group_rows. by rewrite count_rows_filter.
  - unfold Count. apply sum_Z_groups.
    + apply NoDup_remove_dups.
    + intros r Hr. apply elem_of_remove_dups, list_elem_of_fmap. by exists r.
Qed.

Lemma report_rows_sums {S} (key : ValidationResult S → option string)
    qv qi qn objects :
  (∀ r, key r ≠ None) →
  ∃ rows,
    match traverse annotate_valid_percent
            (values_annotate key qv qi qn objects) with
    | inl e => inl e
    | inr rows => inr (order_by_desc valid_percent rows)
    end = inr rows
    ∧ sum_Z ((λ r : ReportRow, total r) <$> rows) = Count key None objects
    ∧ sum_Z ((λ r : ReportRow, valid r) <$> rows)
      = Count key (Some qv) objects
    ∧ sum_Z ((λ r : ReportRow, invalid r) <$> rows)
      = Count key (Some qi) objects
    ∧ sum_Z ((λ r : ReportRow, no_software r) <$> rows)
      = Count key (Some qn) objects.
Proof.
  intros Hkey.
  destruct (report_rows_perm key qv qi qn objects Hkey) as (rows & Hq & Hp).
  exists rows. split; [done|].
  repeat split.
  - rewrite (list_fmap_compose counts total),
      (sum_Z_perm _ _ (fmap_Permutation total _ _ Hp)).
    by apply values_annotate_sum_Count.
  - rewrite (list_fmap_compose counts valid),
      (sum_Z_perm _ _ (fmap_Permutation valid _ _ Hp)).
    by apply values_annotate_sum_Count.
  - rewrite (list_fmap_compose counts invalid),
      (sum_Z_perm _ _ (fmap_Permutation invalid _ _ Hp)).
    by apply values_annotate_sum_Count.
  - rewrite (list_fmap_compose counts no_software),
      (sum_Z_perm _ _ (fmap_Permutation no_software _ _ Hp)).
    by apply values_annotate_sum_Count.
Qed.

Lemma Count_same_rows {S E E'} (e : ValidationResult S → option E)
    (e' : ValidationResult S → option E') q rows :
  (∀ r, is_Some (e r)) → (∀ r, is_Some (e' r)) →
  Count e q rows = Count e' q rows.
Proof.
  intros He He'. unfold Count. apply count_rows_ext. intros r _.
  destruct (He r) as [x ->], (He' r) as [y ->]. done.
Qed.

(** The columns of a report table add up to the global tally of the same
    results: [total], [valid] and [no_software] in both reports, and
    [invalid] in the inventory-item report. In the device report the
    [invalid] column adds up to the number of results with software,
    validated or not, which is not the [invalid] of the global tally. *)
Theorem report_table_adds_up_to_the_global_tally request st :
  (∀ f objects,
     let filtered := List.filter (f (GET request)) objects in
     ∃ rows aggr st' tally,
       ValidatedSoftwareDeviceReportView.queryset filtered = inr rows
       ∧ ValidatedSoftwareDeviceReportView.get_global_aggr (Some f) request
           objects st = (inr aggr, st')
       ∧ heap st' !! aggr = Some tally
       ∧ tally !! "total"
         = Some (VInt (sum_Z ((λ r : ReportRow, total r) <$> rows)))
       ∧ tally !! "valid"
         = Some (VInt (sum_Z ((λ r : ReportRow, valid r) <$> rows)))
       ∧ tally !! "no_software"
         = Some (VInt (sum_Z ((λ r : ReportRow, no_software r) <$> rows)))
       ∧ tally !! "invalid" = Some (VInt (count_rows is_invalid filtered))
       ∧ sum_Z ((λ r : ReportRow, invalid r) <$> rows)
         = count_rows (λ r, bool_decide (software r ≠ None)) filtered)
  ∧ (∀ f objects,
       let filtered := List.filter (f (GET request)) objects in
       ∃ rows aggr st' tally,
         ValidatedSoftwareInventoryItemReportView.queryset filtered = inr rows
         ∧ ValidatedSoftwareInventoryItemReportView.get_global_aggr (Some f)
             request objects st = (inr aggr, st')
         ∧ heap st' !! aggr = Some tally
         ∧ tally !! "total"
           = Some (VInt (sum_Z ((λ r : ReportRow, total r) <$> rows)))
         ∧ tally !! "valid"
           = Some (VInt (sum_Z ((λ r : ReportRow, valid r) <$> rows)))
         ∧ tally !! "no_software"
           = Some (VInt (sum_Z ((λ r : ReportRow, no_software r) <$> rows)))
         ∧ tally !! "invalid"
           = Some (VInt (sum_Z ((λ r : ReportRow, invalid r) <$> rows)))).
Proof.
  split; intros f objects filtered.
  - destruct (report_rows_sums
                ValidatedSoftwareDeviceReportView.device__device_type__model
                (Q_is_validated true)
                (py_and (Q_is_validated false) (Q_not Q_software_None))
                Q_software_None filtered)
      as (rows & Hq & Ht & Hv & Hi & Hn); [done|].
    destruct (run_global_aggr_spec ValidatedSoftwareDeviceReportView.device
                "Devices" filtered st)
      as (aggr & st' & Hrun & _ & Htally & _).
    exists rows, aggr, st',
      (global_tally ValidatedSoftwareDeviceReportView.device "Devices"
         filtered).
    split; [done|]. split; [by rewrite device_get_global_aggr_unfold|].
    split; [done|].
    destruct (global_tally_lookup ValidatedSoftwareDeviceReportView.device
                "Devices" filtered) as (-> & -> & -> & -> & _).
    rewrite Ht, Hv, Hn, Hi.
    do 3 (split; [do 2 f_equal; by apply Count_same_rows|]).
    split.
    + rewrite Count_invalid. by do 2 f_equal.
    + unfold Count. apply count_rows_ext. intros r _. cbn.
      by destruct (software r).
  - destruct (report_rows_sums
                ValidatedSoftwareInventoryItemReportView.inventory_item__name
                (Q_is_validated true)
                (Q_amp (Q_is_validated false) (Q_not Q_software_None))
                Q_software_None filtered)
      as (rows & Hq & Ht & Hv & Hi & Hn); [done|].
    destruct (run_global_aggr_spec
                ValidatedSoftwareInventoryItemReportView.inventory_item
                "Inventory Items" filtered st)
      as (aggr & st' & Hrun & _ & Htally & _).
    exists rows, aggr, st',
      (global_tally ValidatedSoftwareInventoryItemReportView.inventory_item
         "Inventory Items" filtered).
    split; [done|]. split; [by rewrite inventory_get_global_aggr_unfold|].
    split; [done|].
    destruct (global_tally_lookup
                ValidatedSoftwareInventoryItemReportView.inventory_item
                "Inventory Items" filtered) as (-> & -> & -> & -> & _).
    rewrite Ht, Hv, Hn, Hi.
    by repeat split.
Qed.

(** * What [setup] can raise *)

Section any_library.
Context {mpl : Matplotlib}.

(** The bar chart of a breakdown under any library: the image of the whole
    figure, or the exception of the first drawing call that raises. *)
Lemma plot_barchart_visual_breakdown_any column yl ti rows st :
  column ≠ "valid" → column ≠ "invalid" → column ≠ "no_software" →
  ReportOverviewHelper.plot_barchart_visual (values_dict column <$> rows)
    (mkBarChartAttrs column yl ti
       [mkChartBar "Valid" "valid" GREEN;
        mkChartBar "Invalid" "invalid" RED;
        mkChartBar "No Software" "no_software" GREY]) st
  = (inr (image (breakdown_figure yl ti rows)),
     mkState (heap st) (breakdown_figure yl ti rows :: figures st))
  ∨ ∃ e a drawn,
      a ∈ breakdown_figure yl ti rows ∧ draw_error a = Some e
      ∧ ReportOverviewHelper.plot_barchart_visual (values_dict column <$> rows)
          (mkBarChartAttrs column yl ti
             [mkChartBar "Valid" "valid" GREEN;
              mkChartBar "Invalid" "invalid" RED;
              mkChartBar "No Software" "no_software" GREY]) st
        = (inl e, mkState (heap st) (drawn :: figures st)).
Proof.
  intros Hv Hi Hn.
  pose proof (λ t, values_dict_lookup column t Hv Hi Hn) as Hlookup.
  unfold ReportOverviewHelper.plot_barchart_visual.
  cbn [label_accessor chart_bars ylabel title
       ReportOverviewHelper.draw_bars data_attr bar_label].
  rewrite (traverse_values_dict column column
             (λ t, from_option VStr VNone (group t)))
    by (intros t; apply Hlookup).
  rewrite (traverse_values_dict column "valid" (λ t, VInt (valid t)))
    by (intros t; apply Hlookup).
  rewrite (traverse_values_dict column "invalid" (λ t, VInt (invalid t)))
    by (intros t; apply Hlookup).
  rewrite (traverse_values_dict column "no_software"
             (λ t, VInt (no_software t)))
    by (intros t; apply Hlookup).
  unfold bind, lift, plt_subplots, savefig, ret, draw. cbn [heap figures].
  unfold breakdown_figure.
  repeat (match goal with
          | |- context [draw_error ?a] =>
              destruct (draw_error a) as [?e|] eqn:?;
                [right; eexists _, a, _;
                 split; [solve [repeat (first [left | right])]
                        |split; [eassumption|reflexivity]]|]
          end; cbn [heap figures app]).
  by left.
Qed.

(** The pie chart of a global tally under any library. *)
Lemma plot_piechart_visual_global_tally_any {S E}
    (expression : ValidationResult S → option E) name rows st aggr attrs :
  aggr_labels attrs = ["valid"; "invalid"; "no_software"] →
  chart_labels attrs = ["Valid"; "Invalid"; "No Software"] →
  heap st !! aggr = Some (global_tally expression name rows) →
  ReportOverviewHelper.plot_piechart_visual aggr attrs st
  = (inr (image (tally_figure expression name rows)),
     mkState (heap st) (tally_figure expression name rows :: figures st))
  ∨ ∃ e a drawn,
      a ∈ tally_figure expression name rows ∧ draw_error a = Some e
      ∧ ReportOverviewHelper.plot_piechart_visual aggr attrs st
        = (inl e, mkState (heap st) (drawn :: figures st)).
Proof.
  intros Hlabels Hchart Hd.
  rewrite (plot_piechart_visual_past_guard st aggr _ attrs "valid"
             ["invalid"; "no_software"]
             (VInt (Count expression (Some q_valid) rows))
             [VInt (Count expression (Some q_valid) rows);
              VInt (Count expression (Some q_invalid) rows);
              VInt (Count expression (Some q_no_software) rows)]
             (VStr name) Hlabels Hd);
    [|done|done|by rewrite Hlabels; repeat constructor|done].
  rewrite Hchart. unfold tally_figure.
  destruct (draw_error (Pie _ _)) as [e|] eqn:Hpie.
  { right. eexists _, _, _. split; [|by split]. left. }
  destruct (draw_error (Title _)) as [e|] eqn:Htitle.
  { right. eexists _, _, _. split; [|by split]. right. left. }
  by left.
Qed.
End any_library.

(** With a filter set, whatever the plotting library does: [setup] raises
    nothing of its own. If it fails, the exception is the one a drawing
    call of the bar chart or of the pie chart raised; if it returns,
    neither chart is [None], so the [is None] guard of
    [plot_piechart_visual] never fires on the tally that [get_global_aggr]
    builds. *)
Theorem setup_raises_only_what_the_plotting_library_raises
    {mpl : Matplotlib} REPORT_FULL_RUN request st :
  (∀ f objects,
     let filtered := List.filter (f (GET request)) objects in
     match ValidatedSoftwareDeviceReportView.setup REPORT_FULL_RUN (Some f)
             request objects st with
     | (inl e, _) =>
         ∃ a,
           draw_error a = Some e
           ∧ (a ∈ breakdown_figure "Device" "Valid per Platform"
                    (ValidatedSoftwareDeviceReportView._platform_qs filtered)
              ∨ a ∈ tally_figure ValidatedSoftwareDeviceReportView.device
                      "Devices" filtered)
     | (inr content, _) =>
         bar_chart content ≠ VNone ∧ global_visual content ≠ VNone
     end)
  ∧ (∀ f objects,
       let filtered := List.filter (f (GET request)) objects in
       match ValidatedSoftwareInventoryItemReportView.setup REPORT_FULL_RUN
               (Some f) request objects st with
       | (inl e, _) =>
           ∃ a,
             draw_error a = Some e
             ∧ (a ∈ breakdown_figure "Inventory Item" "Valid per Manufacturer"
                      (ValidatedSoftwareInventoryItemReportView._platform_qs
                         filtered)
                ∨ a ∈ tally_figure
                        ValidatedSoftwareInventoryItemReportView.inventory_item
                        "Inventory Items" filtered)
       | (inr content, _) =>
           bar_chart content ≠ VNone ∧ global_visual content ≠ VNone
       end).
Proof.
  split; intros f objects filtered.
  - destruct (full_run_last_run_reflects_full_runs_only (S := Device)
                REPORT_FULL_RUN) as (Htotal & _).
    destruct (Htotal objects) as [when Hwhen].
    destruct (run_global_aggr_spec ValidatedSoftwareDeviceReportView.device
                "Devices" filtered st)
      as (aggr & st1 & Hrun & Hfresh & Htally & Hfigs & _).
    unfold ValidatedSoftwareDeviceReportView.setup.
    unfold bind at 1, lift.
    change (ValidatedSoftwareDeviceReportView.report_last_run REPORT_FULL_RUN
              objects) with (full_run_last_run REPORT_FULL_RUN objects).
    rewrite Hwhen. unfold bind at 1.
    rewrite device_get_global_aggr_unfold. fold filtered. rewrite Hrun.
    unfold bind at 1, lift.
    cbn [ValidatedSoftwareDeviceReportView.platform_qs]. fold filtered.
    unfold bind at 1.
    unfold ValidatedSoftwareDeviceReportView.bar_chart_attrs.
    destruct (plot_barchart_visual_breakdown_any "device__platform__name"
                "Device" "Valid per Platform"
                (ValidatedSoftwareDeviceReportView._platform_qs filtered) st1)
      as [->|(e & a & drawn & Ha & He & ->)]; [done..| |by eauto].
    unfold bind at 1.
    destruct (plot_piechart_visual_global_tally_any
                ValidatedSoftwareDeviceReportView.device "Devices" filtered
                (mkState (heap st1)
                   (breakdown_figure "Device" "Valid per Platform"
                      (ValidatedSoftwareDeviceReportView._platform_qs
                         filtered) :: figures st1)) aggr
                ValidatedSoftwareDeviceReportView.pie_chart_attrs)
      as [->|(e & a & drawn & Ha & He & ->)]; [done..| |by eauto].
    done.
  - destruct (full_run_last_run_reflects_full_runs_only (S := InventoryItem)
                REPORT_FULL_RUN) as (Htotal & _).
    destruct (Htotal objects) as [when Hwhen].
    destruct (run_global_aggr_spec
                ValidatedSoftwareInventoryItemReportView.inventory_item
                "Inventory Items" filtered st)
      as (aggr & st1 & Hrun & Hfresh & Htally & Hfigs & _).
    unfold ValidatedSoftwareInventoryItemReportView.setup.
    unfold bind at 1, lift.
    change (ValidatedSoftwareInventoryItemReportView.report_last_run
              REPORT_FULL_RUN objects)
      with (full_run_last_run REPORT_FULL_RUN objects).
    rewrite Hwhen. unfold bind at 1.
    rewrite inventory_get_global_aggr_unfold. fold filtered. rewrite Hrun.
    unfold bind at 1, lift.
    cbn [ValidatedSoftwareInventoryItemReportView.platform_qs]. fold filtered.
    unfold bind at 1.
    unfold ValidatedSoftwareInventoryItemReportView.bar_chart_attrs.
    destruct (plot_barchart_visual_breakdown_any
                "inventory_item__manufacturer__name"
                "Inventory Item" "Valid per Manufacturer"
                (ValidatedSoftwareInventoryItemReportView._platform_qs
                   filtered) st1)
      as [->|(e & a & drawn & Ha & He & ->)]; [done..| |by eauto].
    unfold bind at 1.
    destruct (plot_piechart_visual_global_tally_any
                ValidatedSoftwareInventoryItemReportView.inventory_item
                "Inventory Items" filtered
                (mkState (heap st1)
                   (breakdown_figure "Inventory Item" "Valid per Manufacturer"
                      (ValidatedSoftwareInventoryItemReportView._platform_qs
                         filtered) :: figures st1)) aggr
                ValidatedSoftwareInventoryItemReportView.pie_chart_attrs)
      as [->|(e & a & drawn & Ha & He & ->)]; [done..| |by eauto].
    done.
Qed.
